(** * Join-Project maintenance scripts: a shallow embedding of the
      comment scanner, the brace-depth span finder and the JSDoc inserter.

    The Python scripts under [src/join] work on the text of a TypeScript
    file split into lines.  A Python [str] is modelled as a list of
    characters; the character tables ([isspace], [\w], [lower]) follow
    CPython on code points below 256. *)

From Stdlib Require Import String Ascii ZArith Bool Lia Arith PeanoNat List.
Import ListNotations.

Set Implicit Arguments.

(** ** Python strings *)

Module PyStr.

Definition str := list ascii.

(** A literal of the source, as a character list. *)
Definition py (s : string) : str := list_ascii_of_string s.

Definition code (c : ascii) : N := N_of_ascii c.

Definition chr_eqb (a b : ascii) : bool := Ascii.eqb a b.

Arguments chr_eqb : simpl never.

(** [str.isspace] on one character (the set used by [strip] and by the
    regular-expression class [\s]). *)
Definition is_space (c : ascii) : bool :=
  let n := code c in
  ((9 <=? n) && (n <=? 13) || (28 <=? n) && (n <=? 32)
   || (n =? 133) || (n =? 160))%N.

(** The regular-expression class [\w]: alphanumeric or underscore. *)
Definition is_word (c : ascii) : bool :=
  let n := code c in
  ((48 <=? n) && (n <=? 57) || (65 <=? n) && (n <=? 90)
   || (97 <=? n) && (n <=? 122) || (n =? 95)
   || (n =? 170) || (n =? 178) || (n =? 179) || (n =? 181)
   || (n =? 185) || (n =? 186) || (188 <=? n) && (n <=? 190)
   || (192 <=? n) && (n <=? 214) || (216 <=? n) && (n <=? 246)
   || (248 <=? n))%N.

(** [str.lower] on one character. *)
Definition lower_chr (c : ascii) : ascii :=
  let n := code c in
  if ((65 <=? n) && (n <=? 90)
      || (192 <=? n) && (n <=? 222) && negb (n =? 215))%N
  then ascii_of_N (n + 32) else c.

(** [str.upper] on one character whose upper case is again one
    character below 256. *)
Definition upper_chr (c : ascii) : ascii :=
  let n := code c in
  if ((97 <=? n) && (n <=? 122)
      || (224 <=? n) && (n <=? 254) && negb (n =? 247))%N
  then ascii_of_N (n - 32) else c.

Definition lower (s : str) : str := map lower_chr s.

(** The title case [str.capitalize] gives the first character.  It is
    the upper case, except for the sharp s (223), which becomes the two
    characters [Ss].  The title case of the characters 181 and 255 lies
    above 255 (code points 924 and 376), outside the alphabet of this
    embedding: for these two the character is kept, so the embedding
    of [capitalize] is that of the code on every text that does not
    begin with one of them. *)
Definition title_chr (c : ascii) : str :=
  if (code c =? 223)%N then py "Ss" else [upper_chr c].

Definition capitalize (s : str) : str :=
  match s with
  | [] => []
  | c :: r => title_chr c ++ lower r
  end.

Fixpoint str_eqb (a b : str) : bool :=
  match a, b with
  | [], [] => true
  | x :: a', y :: b' => chr_eqb x y && str_eqb a' b'
  | _, _ => false
  end.

Fixpoint drop_while (p : ascii -> bool) (s : str) : str :=
  match s with
  | [] => []
  | c :: r => if p c then drop_while p r else s
  end.

Fixpoint take_while (p : ascii -> bool) (s : str) : str :=
  match s with
  | [] => []
  | c :: r => if p c then c :: take_while p r else []
  end.

Definition lstrip (s : str) : str := drop_while is_space s.
Definition rstrip (s : str) : str := rev (drop_while is_space (rev s)).
Definition strip (s : str) : str := rstrip (lstrip s).

(** Truth value of a string: non-empty. *)
Definition truthy (s : str) : bool :=
  match s with [] => false | _ => true end.

(** [line.strip()] used as a condition: the line has a non-space
    character. *)
Definition nonblank (s : str) : bool := truthy (strip s).

Fixpoint startswith (p s : str) : bool :=
  match p, s with
  | [], _ => true
  | x :: p', y :: s' => chr_eqb x y && startswith p' s'
  | _ :: _, [] => false
  end.

Definition endswith (p s : str) : bool := startswith (rev p) (rev s).

(** [s.find(sub)]: index of the first occurrence. *)
Fixpoint find_sub (sub s : str) : option nat :=
  match s with
  | [] => if startswith sub [] then Some 0 else None
  | _ :: r =>
      if startswith sub s then Some 0 else option_map S (find_sub sub r)
  end.

(** [sub in s]. *)
Definition contains (sub s : str) : bool :=
  match find_sub sub s with Some _ => true | None => false end.

(** [s.split(sep)] for a non-empty separator: occurrences are taken
    left to right and do not overlap; [skip] counts the characters of
    the separator still to be passed over. *)
Fixpoint split_aux (sep s : str) (skip : nat) : list str :=
  match s with
  | [] => [[]]
  | c :: r =>
      match skip with
      | S k => split_aux sep r k
      | O =>
          if startswith sep s then [] :: split_aux sep r (length sep - 1)
          else match split_aux sep r 0 with
               | h :: t => (c :: h) :: t
               | [] => [[c]]
               end
      end
  end.

Definition split (sep s : str) : list str := split_aux sep s 0.

(** [sep.join(parts)]. *)
Fixpoint join (sep : str) (parts : list str) : str :=
  match parts with
  | [] => []
  | [p] => p
  | p :: rest => p ++ sep ++ join sep rest
  end.

(** [s.count(c)] for a one-character argument. *)
Fixpoint count (c : ascii) (s : str) : Z :=
  match s with
  | [] => 0
  | x :: r => ((if chr_eqb x c then 1 else 0) + count c r)%Z
  end.

(** [l[0]] and [l[-1]] on the non-empty list a [split] returns. *)
Definition first_part (l : list str) : str := hd [] l.
Definition last_part (l : list str) : str := last l [].

Definition chr_nl : ascii := ascii_of_N 10.
Definition chr_dquote : ascii := ascii_of_N 34.
Definition chr_squote : ascii := ascii_of_N 39.
Definition chr_backtick : ascii := ascii_of_N 96.
Definition chr_backslash : ascii := ascii_of_N 92.
Definition chr_lbrace : ascii := ascii_of_N 123.
Definition chr_rbrace : ascii := ascii_of_N 125.
Definition chr_lparen : ascii := ascii_of_N 40.
Definition chr_rparen : ascii := ascii_of_N 41.

(** A string made of blanks only. *)
Definition blanks (w : str) : Prop := Forall (fun c => is_space c = true) w.

(** [content.split('\n')]. *)
Definition splitlines (content : str) : list str := split [chr_nl] content.

End PyStr.
Import PyStr.

(** ** Results of code that can raise

    An index read outside [0 .. len-1] is recorded as [IndexError]
    (for a negative index Python would wrap around instead of raising;
    the model flags that read as well).  Loops written with [while]
    run on fuel; [OutOfFuel] marks a loop cut short. *)

Inductive outcome (A : Type) : Type :=
| Done (a : A)
| IndexError
| OutOfFuel.

Arguments Done {A} a.
Arguments IndexError {A}.
Arguments OutOfFuel {A}.

Definition bind {A B : Type} (m : outcome A) (k : A -> outcome B) : outcome B :=
  match m with
  | Done a => k a
  | IndexError => IndexError
  | OutOfFuel => OutOfFuel
  end.

Notation "x <- m ;; k" := (bind m (fun x => k))
  (at level 61, m at next level, right associativity).

(** [line[i]] *)
Definition char_at (line : str) (i : Z) : outcome ascii :=
  if (i <? 0)%Z then IndexError
  else match nth_error line (Z.to_nat i) with
       | Some c => Done c
       | None => IndexError
       end.

(** [line[i:j]] for [0 <= i]; a slice never raises. *)
Definition slice (line : str) (i j : Z) : str :=
  firstn (Z.to_nat (j - i)) (skipn (Z.to_nat i) line).

Definition len (line : str) : Z := Z.of_nat (length line).

(** ** The [//] scan shared by [remove_inline_comments] and
       [find_inline_comments]

    Both functions carry the same loop (remove_inline_comments.py lines
    74-95, scan_remaining_comments.py lines 67-88). *)

Module CommentScan.

Definition is_quote (c : ascii) : bool :=
  chr_eqb c chr_dquote || chr_eqb c chr_squote || chr_eqb c chr_backtick.

Definition is_quote_char (c : ascii) (quote_char : option ascii) : bool :=
  match quote_char with
  | Some q => chr_eqb c q
  | None => false
  end.

(** The condition of the first [elif]:
    [in_string and char == quote_char and (i == 0 or line[i-1] != '\\')],
    evaluated left to right with short circuit. *)
Definition closes_string (line : str) (i : Z) (in_string : bool)
    (quote_char : option ascii) (char : ascii) : outcome bool :=
  if in_string && is_quote_char char quote_char then
    if (i =? 0)%Z then Done true
    else prev <- char_at line (i - 1) ;; Done (negb (chr_eqb prev chr_backslash))
  else Done false.

(** The condition of the second [elif]:
    [not in_string and i < len(line) - 1 and line[i:i+2] == '//']. *)
Definition starts_line_comment (line : str) (i : Z) (in_string : bool) : bool :=
  negb in_string && (i <? len line - 1)%Z
  && str_eqb (slice line i (i + 2)) (py "//").

(** The [while i < len(line)] loop; the result is [comment_index]. *)
Fixpoint scan_loop (fuel : nat) (line : str) (i : Z) (in_string : bool)
    (quote_char : option ascii) : outcome Z :=
  match fuel with
  | O => OutOfFuel
  | S fuel' =>
      if (i <? len line)%Z then
        char <- char_at line i ;;
        if negb in_string && is_quote char then
          scan_loop fuel' line (i + 1) true (Some char)
        else
          closing <- closes_string line i in_string quote_char char ;;
          if closing then scan_loop fuel' line (i + 1) false None
          else if starts_line_comment line i in_string then Done i
          else scan_loop fuel' line (i + 1) in_string quote_char
      else Done (-1)%Z
  end.

Definition scan_comment_index (line : str) : outcome Z :=
  scan_loop (S (length line)) line 0 false None.

(** The update of [(in_string, quote_char)] the loop body makes at
    index [i] when it does not break. *)
Definition string_step (line : str) (i : nat) (st : bool * option ascii)
    : bool * option ascii :=
  let '(in_string, quote_char) := st in
  match nth_error line i with
  | None => st
  | Some char =>
      if negb in_string && is_quote char then (true, Some char)
      else if in_string && is_quote_char char quote_char
              && ((i =? 0)
                  || negb (chr_eqb (nth (i - 1) line chr_nl) chr_backslash))
      then (false, None)
      else st
  end.

(** The string state with which the loop reaches index [i], the loop
    having started at index 0 outside a string. *)
Fixpoint state_at (line : str) (i : nat) : bool * option ascii :=
  match i with
  | O => (false, None)
  | S k => string_step line k (state_at line k)
  end.

(** A string literal is open at index [i]. *)
Definition in_string_at (line : str) (i : nat) : bool :=
  fst (state_at line i).

End CommentScan.
Import CommentScan.

(** ** remove_inline_comments.py *)

Module RemoveInlineComments.

Record state : Type := mk_state {
  modified_lines : list str;
  changes_made : nat;
  in_jsdoc : bool;
  in_multiline_comment : bool
}.

Definition init : state := mk_state [] 0 false false.

Definition append_line (st : state) (line : str) : state :=
  mk_state (modified_lines st ++ [line]) (changes_made st)
           (in_jsdoc st) (in_multiline_comment st).

Definition set_jsdoc (b : bool) (st : state) : state :=
  mk_state (modified_lines st) (changes_made st) b (in_multiline_comment st).

Definition set_multiline (b : bool) (st : state) : state :=
  mk_state (modified_lines st) (changes_made st) (in_jsdoc st) b.

Definition add_changes (n : nat) (st : state) : state :=
  mk_state (modified_lines st) (changes_made st + n)
           (in_jsdoc st) (in_multiline_comment st).

Definition bump (b : bool) : nat := if b then 1 else 0.

(** Lines 41-58: a [/*] on a line that does not start a JSDoc block. *)
Definition block_comment_line (line : str) : str * bool :=
  let before_comment := first_part (split (py "/*") line) in
  if contains (py "*/") line then
    (before_comment ++ last_part (split (py "*/") line), false)
  else (before_comment, true).

(** Lines 72-100: the line with a [//] comment cut off, and whether the
    cut changed the stripped text. *)
Definition strip_line_comment (line : str) : outcome (str * bool) :=
  if contains (py "//") line then
    comment_index <- scan_comment_index line ;;
    if (comment_index >=? 0)%Z then
      let line' := rstrip (slice line 0 comment_index) in
      Done (line', negb (str_eqb (strip line) (strip line')))
    else Done (line, false)
  else Done (line, false).

(** One iteration of [for line in lines] (lines 20-106). *)
Definition step (st : state) (line : str) : outcome state :=
  let original_line := line in
  if startswith (py "/**") (strip line) then
    Done (append_line (set_jsdoc true st) line)
  else if in_jsdoc st
          && (endswith (py "*/") (strip line) || str_eqb (strip line) (py "*/"))
  then Done (append_line (set_jsdoc false st) line)
  else if in_jsdoc st then Done (append_line st line)
  else if contains (py "/*") line && negb (startswith (py "/**") (strip line))
  then
    let '(line', still_open) := block_comment_line line in
    let st1 := set_multiline still_open st in
    let st2 := if nonblank line' then append_line st1 (rstrip line') else st1 in
    Done (add_changes (bump (negb (str_eqb original_line (rstrip line')))) st2)
  else if in_multiline_comment st then
    if contains (py "*/") line then
      let after_comment := last_part (split (py "*/") line) in
      let st1 := set_multiline false st in
      let st2 := if nonblank after_comment
                 then append_line st1 (rstrip after_comment) else st1 in
      Done (add_changes 1 st2)
    else Done (add_changes 1 st)
  else
    r <- strip_line_comment line ;;
    let '(line', changed) := r in
    let st1 := add_changes (bump changed) st in
    if nonblank line'
       || (negb (nonblank line')
           && (0 <? length (modified_lines st1))
           && nonblank (last (modified_lines st1) []))
    then Done (append_line st1 line')
    else if nonblank original_line && negb (nonblank line')
    then Done (add_changes 1 st1)
    else Done st1.

Fixpoint run (st : state) (lines : list str) : outcome state :=
  match lines with
  | [] => Done st
  | line :: rest => st' <- step st line ;; run st' rest
  end.

(** Lines 109-110: [while modified_lines and not modified_lines[-1].strip():
    modified_lines.pop()]. *)
Fixpoint pop_blank_rev (rl : list str) : list str :=
  match rl with
  | [] => []
  | l :: r => if nonblank l then rl else pop_blank_rev r
  end.

Definition pop_trailing_blank (ml : list str) : list str :=
  rev (pop_blank_rev (rev ml)).

(** Lines 112-113. *)
Definition final_lines (ml : list str) : list str :=
  let ml' := pop_trailing_blank ml in
  match ml' with
  | [] => []
  | _ => ml' ++ [[]]
  end.

Definition new_content_of (st : state) : str :=
  join [chr_nl] (final_lines (modified_lines st)).

(** What the call leaves behind: the text written to the file, if any,
    and the returned count.  An exception raised in the body is caught
    by the function's [except] clause, which returns 0. *)
Record result : Type := mk_result {
  written : option str;
  returned : nat
}.

Definition remove_inline_comments (content : str) : result :=
  match run init (splitlines content) with
  | Done st =>
      if 0 <? changes_made st
      then mk_result (Some (new_content_of st)) (changes_made st)
      else mk_result None 0
  | _ => mk_result None 0
  end.

(** The text computed at line 115, whether or not it is written. *)
Definition new_content (content : str) : outcome str :=
  st <- run init (splitlines content) ;; Done (new_content_of st).

(** *** Provenance of the kept lines

    The same loop with every kept line tagged: [true] when the line was
    appended by one of the three JSDoc branches (lines 24-38). *)

Record tstate : Type := mk_tstate {
  plain : state;
  tags : list bool
}.

Definition tstep (ts : tstate) (line : str) : outcome tstate :=
  st' <- step (plain ts) line ;;
  let grew := length (modified_lines st') - length (modified_lines (plain ts)) in
  let tag := startswith (py "/**") (strip line) || in_jsdoc (plain ts) in
  Done (mk_tstate st' (tags ts ++ repeat tag grew)).

Fixpoint trun (ts : tstate) (lines : list str) : outcome tstate :=
  match lines with
  | [] => Done ts
  | line :: rest => ts' <- tstep ts line ;; trun ts' rest
  end.

Definition tinit : tstate := mk_tstate init [].

(** A line holds no line break. *)
Definition no_nl (l : str) : Prop := ~ In chr_nl l.

(** Two blank lines that follow each other were both kept by a JSDoc
    branch. *)
Definition blank_pairs_tagged (ml : list str) (tg : list bool) : Prop :=
  forall k a b,
    nth_error ml k = Some a -> nth_error ml (S k) = Some b ->
    nonblank a = false -> nonblank b = false ->
    nth_error tg k = Some true /\ nth_error tg (S k) = Some true.

(** What holds of the kept lines and their tags after every line. *)
Definition tagged_ok (ts : tstate) : Prop :=
  length (tags ts) = length (modified_lines (plain ts))
  /\ blank_pairs_tagged (modified_lines (plain ts)) (tags ts)
  /\ (in_jsdoc (plain ts) = true -> last (tags ts) false = true)
  /\ Forall no_nl (modified_lines (plain ts)).

End RemoveInlineComments.

(** ** scan_remaining_comments.py *)

Module ScanRemainingComments.

Inductive comment_type : Type :=
| multiline_start
| multiline_content
| multiline_end
| single_line.

(** One dictionary of [inline_comments]; [code_before] is present only
    in a [single_line] entry. *)
Record comment : Type := mk_comment {
  line_no : nat;
  type : comment_type;
  content : str;
  code_before : option str
}.

Record state : Type := mk_state {
  inline_comments : list comment;
  in_jsdoc : bool;
  in_multiline_comment : bool
}.

Definition init : state := mk_state [] false false.

Definition report (st : state) (c : comment) : state :=
  mk_state (inline_comments st ++ [c]) (in_jsdoc st) (in_multiline_comment st).

Definition set_jsdoc (b : bool) (st : state) : state :=
  mk_state (inline_comments st) b (in_multiline_comment st).

Definition set_multiline (b : bool) (st : state) : state :=
  mk_state (inline_comments st) (in_jsdoc st) b.

(** One iteration of [for i, line in enumerate(lines)] (lines 19-99). *)
Definition step (st : state) (i : nat) (line : str) : outcome state :=
  if startswith (py "/**") (strip line) then Done (set_jsdoc true st)
  else if in_jsdoc st
          && (endswith (py "*/") (strip line) || str_eqb (strip line) (py "*/"))
  then Done (set_jsdoc false st)
  else if in_jsdoc st || startswith (py "*") (strip line) then Done st
  else if contains (py "/*") line && negb (startswith (py "/**") (strip line))
  then
    let st1 := report (set_multiline true st)
                 (mk_comment (i + 1) multiline_start (strip line) None) in
    Done (if contains (py "*/") line then set_multiline false st1 else st1)
  else if in_multiline_comment st then
    if contains (py "*/") line then
      Done (report (set_multiline false st)
              (mk_comment (i + 1) multiline_end (strip line) None))
    else
      Done (report st (mk_comment (i + 1) multiline_content (strip line) None))
  else if contains (py "//") line then
    comment_index <- scan_comment_index line ;;
    if (comment_index >=? 0)%Z then
      let comment_content := strip (slice line comment_index (len line)) in
      let code := strip (slice line 0 comment_index) in
      Done (report st (mk_comment (i + 1) single_line comment_content (Some code)))
    else Done st
  else Done st.

Fixpoint run (st : state) (i : nat) (lines : list str) : outcome state :=
  match lines with
  | [] => Done st
  | line :: rest => st' <- step st i line ;; run st' (S i) rest
  end.

(** The returned list; an exception in the body is caught and gives
    the empty list. *)
Definition find_inline_comments (content : str) : list comment :=
  match run init 0 (splitlines content) with
  | Done st => inline_comments st
  | _ => []
  end.

(** The code part and the comment part of a line as the report gives
    them, for a line that got a [single_line] entry. *)
Definition reported_split (line : str) : option (str * str) :=
  match step init 0 line with
  | Done st =>
      match inline_comments st with
      | [c] => match code_before c with
               | Some code => Some (code, content c)
               | None => None
               end
      | _ => None
      end
  | _ => None
  end.

End ScanRemainingComments.

(** ** The partition of the specification (section 4.1), for comparison

    Outside strings the earliest of the markers [/**], [/*], [//] decides
    the comment kind, and the line is cut at its index. *)

Module SpecPartition.

Inductive kind : Type := Line | BlockStart | DocStart.

(** The marker that starts at the head of [s], if any. *)
Definition marker_here (s : str) : option kind :=
  if startswith (py "/**") s then Some DocStart
  else if startswith (py "/*") s then Some BlockStart
  else if startswith (py "//") s then Some Line
  else None.

(** Index and kind of the earliest marker, with no string open on the
    line. *)
Fixpoint earliest_marker (s : str) : option (nat * kind) :=
  match marker_here s with
  | Some k => Some (0, k)
  | None =>
      match s with
      | [] => None
      | _ :: r =>
          match earliest_marker r with
          | Some (i, k) => Some (S i, k)
          | None => None
          end
      end
  end.

(** Code part, comment part and kind as the specification states them. *)
Definition partition (line : str) : str * option (str * kind) :=
  match earliest_marker line with
  | Some (i, k) => (firstn i line, Some (skipn i line, k))
  | None => (line, None)
  end.

End SpecPartition.

(** ** The regular expressions of the scripts

    Each pattern is matched the way [re.search] does: at the leftmost
    start position that admits a match, with greedy repetitions.  For
    these patterns a greedy run that is cut short can never help (the
    character after a shortened run of [\w] is a word character, which
    is neither blank nor a parenthesis), so a match at a position is
    decided by the maximal runs; the one exception, [\s*] followed by
    a one-or-more class that also accepts blanks, is written out in
    [match_return_type]. *)

Module Regex.

(** [re.search]: the first suffix of [s] at which [m] matches. *)
Fixpoint search {A : Type} (m : str -> option A) (s : str) : option A :=
  match m s with
  | Some r => Some r
  | None =>
      match s with
      | [] => None
      | _ :: r => search m r
      end
  end.

(** [(\w+)\s*\(] at the head of [s]; the result is group 1. *)
Definition match_word_paren (s : str) : option str :=
  match take_while is_word s with
  | [] => None
  | w =>
      match drop_while is_space (drop_while is_word s) with
      | c :: _ => if chr_eqb c chr_lparen then Some w else None
      | [] => None
      end
  end.

(** [kw\s+(\w+)\s*\(] at the head of [s]. *)
Definition match_kw_word_paren (kw s : str) : option str :=
  if startswith kw s then
    let rest := skipn (length kw) s in
    match take_while is_space rest with
    | [] => None
    | _ => match_word_paren (drop_while is_space rest)
    end
  else None.

Definition not_chr (c : ascii) (x : ascii) : bool := negb (chr_eqb x c).

(** The pattern of add_missing_jsdoc.py line 105 at the head of [s]: an
    opening parenthesis, the longest run of characters other than a
    closing parenthesis (group 1, the result), a closing parenthesis. *)
Definition match_parens (s : str) : option str :=
  match s with
  | c :: r =>
      if chr_eqb c chr_lparen then
        match drop_while (not_chr chr_rparen) r with
        | _ :: _ => Some (take_while (not_chr chr_rparen) r)
        | [] => None
        end
      else None
  | [] => None
  end.

(** [\):\s*([^{]+)] at the head of [s]; the result is group 1.  When
    the blanks are followed by [{] or by the end of the text, the
    matcher gives the last blank back to the group. *)
Definition match_return_type (s : str) : option str :=
  if startswith (py "):") s then
    let rest := skipn 2 s in
    let ws := take_while is_space rest in
    match take_while (not_chr chr_lbrace) (drop_while is_space rest) with
    | (_ :: _) as g => Some g
    | [] =>
        match ws with
        | [] => None
        | _ => Some [last ws chr_nl]
        end
    end
  else None.

End Regex.

(** ** analyze_method_length_simple.py *)

Module AnalyzeMethodLength.

(** The dictionary [analyze_method_from_line] returns (the [file] entry,
    a copy of the path argument, is left out); line numbers are
    1-based. *)
Record method_info : Type := mk_method_info {
  method_name : str;
  start_line : nat;
  end_line : nat;
  total_lines : nat;
  code_lines : nat;
  declaration : str
}.

Definition hooks : list str :=
  [py "ngOnInit"; py "ngOnDestroy"; py "ngOnChanges"; py "ngAfterViewInit"].

(** Lines 145-154: the keyword in front of [\s+(\w+)\s*\(]; the first
    pattern has none. *)
Definition keyword_patterns : list str :=
  [py "async"; py "private"; py "public"; py "protected"; py "static";
   py "get"; py "set"].

Fixpoint first_some {A B : Type} (f : A -> option B) (l : list A) : option B :=
  match l with
  | [] => None
  | x :: r => match f x with Some y => Some y | None => first_some f r end
  end.

Definition extract_method_name (method_line : str) : option str :=
  if startswith (py "constructor") method_line then Some (py "constructor")
  else
    match first_some
            (fun hook => if startswith hook method_line then Some hook else None)
            hooks with
    | Some hook => Some hook
    | None =>
        match Regex.search Regex.match_word_paren method_line with
        | Some name => Some name
        | None =>
            first_some
              (fun kw => Regex.search (Regex.match_kw_word_paren kw) method_line)
              keyword_patterns
        end
    end.

(** Lines 50-70. *)
Definition is_method_declaration (stripped : str) (lines : list str) (i : nat)
    : bool :=
  if startswith (py "constructor") stripped then true
  else if contains (py "(") stripped && contains (py ")") stripped
          && ((contains (py ":") stripped
               && (contains (py "{") stripped
                   || ((i + 1 <? length lines)
                       && str_eqb (strip (nth (i + 1) lines [])) (py "{"))))
              || startswith (py "async ") stripped)
  then true
  else if startswith (py "ngOnInit") stripped
          || startswith (py "ngOnDestroy") stripped
          || startswith (py "ngOnChanges") stripped
          || startswith (py "ngAfterViewInit") stripped
  then true
  else false.

(** Net brace count of one line (lines 94-95 and 100):
    [line.count('{') - line.count('}')]. *)
Definition open_braces (line : str) : Z := count chr_lbrace line.
Definition close_braces (line : str) : Z := count chr_rbrace line.
Definition brace_delta (line : str) : Z := (open_braces line - close_braces line)%Z.

(** Lines 106-111: the line counts as a code line. *)
Definition is_code_line (method_started : bool) (stripped : str) : bool :=
  method_started && truthy stripped
  && negb (startswith (py "//") stripped)
  && negb (startswith (py "*") stripped)
  && negb (startswith (py "/*") stripped)
  && negb (str_eqb stripped (py "{"))
  && negb (str_eqb stripped (py "}")).

(** Lines 88-128: the loop [while i < len(lines)] over [rest], the lines
    from index [i] on.  The result is [(end_line, total_lines,
    code_lines)]; [None] when the lines run out. *)
Fixpoint span_loop (rest : list str) (i : nat) (brace_count : Z)
    (method_started : bool) (code total : nat) : option (nat * nat * nat) :=
  match rest with
  | [] => None
  | line :: rest' =>
      let stripped := strip line in
      let method_started :=
        if (open_braces line >? 0)%Z then true else method_started in
      let brace_count := (brace_count + (open_braces line - close_braces line))%Z in
      let total := total + 1 in
      let code := if is_code_line method_started stripped then code + 1 else code in
      if method_started && (brace_count <=? 0)%Z
      then Some (i + 1, total, code)
      else span_loop rest' (i + 1) brace_count method_started code total
  end.

(** Lines 72-131.  [lines[start_line]] out of range raises inside the
    [try], and the [except] clause returns [None]. *)
Definition analyze_method_from_line (lines : list str) (start : nat)
    : option method_info :=
  match nth_error lines start with
  | None => None
  | Some l =>
      let method_line := strip l in
      match extract_method_name method_line with
      | None => None
      | Some name =>
          if truthy name then
            match span_loop (skipn start lines) start 0 false 0 0 with
            | Some (e, total, code) =>
                Some (mk_method_info name (start + 1) e total code method_line)
            | None => None
            end
          else None
      end
  end.

(** Lines 22-31. *)
Definition skip_line (stripped : str) : bool :=
  negb (truthy stripped)
  || startswith (py "//") stripped
  || startswith (py "*") stripped
  || startswith (py "/*") stripped
  || startswith (py "export ") stripped
  || startswith (py "import ") stripped
  || startswith (py "@") stripped
  || contains (py "interface") stripped
  || contains (py "enum") stripped
  || (startswith (py "class ") stripped && contains (py "{") stripped).

(** Lines 16-42 with the threshold of line 38 as a parameter. *)
Fixpoint analyze_loop (limit : nat) (fuel : nat) (lines : list str) (i : nat)
    (long_methods : list method_info) : outcome (list method_info) :=
  match fuel with
  | O => OutOfFuel
  | S fuel' =>
      if i <? length lines then
        match nth_error lines i with
        | None => IndexError
        | Some line =>
            let stripped := strip line in
            if skip_line stripped
            then analyze_loop limit fuel' lines (i + 1) long_methods
            else if is_method_declaration stripped lines i then
              match analyze_method_from_line lines i with
              | Some info =>
                  analyze_loop limit fuel' lines (end_line info)
                    (if limit <? code_lines info
                     then long_methods ++ [info] else long_methods)
              | None => analyze_loop limit fuel' lines (i + 1) long_methods
              end
            else analyze_loop limit fuel' lines (i + 1) long_methods
        end
      else Done long_methods
  end.

(** The loop started at line [i] with the fuel the remaining lines
    need. *)
Definition analyze_from (limit : nat) (lines : list str) (i : nat)
    (long_methods : list method_info) : outcome (list method_info) :=
  analyze_loop limit (S (length lines - i)) lines i long_methods.

Definition analyze_with (limit : nat) (content : str)
    : outcome (list method_info) :=
  analyze_from limit (splitlines content) 0 [].

(** [analyze_method_length]: methods of more than 14 code lines; an
    exception is caught and gives the empty list. *)
Definition analyze_method_length (content : str) : list method_info :=
  match analyze_with 14 content with
  | Done r => r
  | _ => []
  end.

(** *** Brace depth as the specification words it *)

(** Depth after the lines [ls], counted from [brace_count]. *)
Definition depth_after (brace_count : Z) (ls : list str) : Z :=
  fold_left (fun d l => (d + brace_delta l)%Z) ls brace_count.

(** A [{] has occurred before or on the lines [ls]. *)
Definition opened_after (method_started : bool) (ls : list str) : bool :=
  method_started || existsb (fun l => (open_braces l >? 0)%Z) ls.

(** The test of line 115 after the lines [ls], from the values the
    two accumulators had before them. *)
Definition closes_after (brace_count : Z) (method_started : bool)
    (ls : list str) : bool :=
  opened_after method_started ls && (depth_after brace_count ls <=? 0)%Z.

(** The lines from [start] to [i], both included. *)
Definition lines_between (lines : list str) (start i : nat) : list str :=
  firstn (i + 1 - start) (skipn start lines).

(** Cumulative depth at the end of line [i], counted from line [start]. *)
Definition depth_at (lines : list str) (start i : nat) : Z :=
  depth_after 0 (lines_between lines start i).

(** A [{] has occurred on some line from [start] to [i]. *)
Definition opened_at (lines : list str) (start i : nat) : bool :=
  opened_after false (lines_between lines start i).

(** The span closes at line [i]: the test of line 115. *)
Definition closes_at (lines : list str) (start i : nat) : bool :=
  opened_at lines start i && (depth_at lines start i <=? 0)%Z.

End AnalyzeMethodLength.

(** ** analyze_long_methods.py: the bracket matching of lines 54-67 *)

Module AnalyzeLongMethods.

(** The loop over [content[method_start:]], [rest] being the characters
    from index [i] on; the result is [method_end] ([method_start] when
    the brackets never balance). *)
Fixpoint match_brackets (rest : str) (i : nat) (bracket_count : Z)
    (in_method : bool) (method_start : nat) : nat :=
  match rest with
  | [] => method_start
  | char :: rest' =>
      if chr_eqb char chr_lbrace then
        match_brackets rest' (i + 1) (bracket_count + 1) true method_start
      else if chr_eqb char chr_rbrace then
        if ((bracket_count - 1 =? 0)%Z && in_method)%bool then i + 1
        else match_brackets rest' (i + 1) (bracket_count - 1) in_method method_start
      else match_brackets rest' (i + 1) bracket_count in_method method_start
  end.

Definition method_end (content : str) (method_start : nat) : nat :=
  match_brackets (skipn method_start content) method_start 0 false method_start.

End AnalyzeLongMethods.

(** ** add_spacing.py: the brace counting of lines 38-44 *)

Module AddSpacing.

(** [brace_count += line.count('{') - line.count('}')] and the test
    [brace_count == 0]; the result is the new count and whether the
    method is complete. *)
Definition count_braces (brace_count : Z) (line : str) : Z * bool :=
  let brace_count := (brace_count + (count chr_lbrace line - count chr_rbrace line))%Z in
  (brace_count, (brace_count =? 0)%Z).

End AddSpacing.

(** ** add_missing_jsdoc.py *)

Module AddMissingJsdoc.

(** Lines 66-92. *)
Definition should_add_jsdoc (stripped : str) (lines : list str) (i : nat) : bool :=
  if negb (truthy stripped)
     || startswith (py "//") stripped
     || startswith (py "*") stripped
     || startswith (py "/*") stripped
     || startswith (py "constructor") stripped
     || startswith (py "get ") stripped
     || startswith (py "set ") stripped
     || contains (py "=") (first_part (split (py "(") stripped))
     || startswith (py "export ") stripped
     || startswith (py "@") stripped
     || contains (py "interface") stripped
     || contains (py "class") stripped
     || contains (py "enum") stripped
     || startswith (py "} catch") stripped
     || startswith (py "catch") stripped
  then false
  else
    (contains (py "(") stripped && contains (py ")") stripped
     && contains (py ":") stripped
     && (endswith (py "{") stripped
         || ((i + 1 <? length lines)
             && str_eqb (strip (nth (i + 1) lines [])) (py "{"))))
    || (startswith (py "async ") stripped
        && contains (py "(") stripped && contains (py ")") stripped)
    || startswith (py "ngOnInit") stripped
    || startswith (py "ngOnDestroy") stripped
    || startswith (py "ngOnChanges") stripped.

Fixpoint drop_lines_while (p : str -> bool) (l : list str) : list str :=
  match l with
  | [] => []
  | x :: r => if p x then drop_lines_while p r else l
  end.

(** Lines 25-38 (and analyze_missing_jsdoc.py lines 41-54).  The two
    [while] loops walk an index down from [i - 1]; [rev (firstn i lines)]
    is the list [lines[i-1], lines[i-2], ..., lines[0]] they visit, and
    an empty remainder is the index having fallen below 0. *)
Definition has_jsdoc (lines : list str) (i : nat) : bool :=
  match drop_lines_while (fun l => negb (nonblank l)) (rev (firstn i lines)) with
  | [] => false
  | prev :: above =>
      let prev_line := strip prev in
      if str_eqb prev_line (py "*/") || startswith (py "*/") prev_line then
        match drop_lines_while (fun l => startswith (py "*") (strip l)) above with
        | [] => false
        | top :: _ => startswith (py "/**") (strip top)
        end
      else false
  end.

(** Lines 153-200. *)
Definition generate_description (method_name : str) : str :=
  if startswith (py "ng") method_name then
    if str_eqb method_name (py "ngOnInit")
    then py "Angular lifecycle hook - component initialization."
    else if str_eqb method_name (py "ngOnDestroy")
    then py "Angular lifecycle hook - component cleanup."
    else if str_eqb method_name (py "ngOnChanges")
    then py "Angular lifecycle hook - handles input changes."
    else py "Angular lifecycle hook - " ++ method_name ++ py "."
  else if startswith (py "on") method_name
  then py "Handles " ++ lower (skipn 2 method_name) ++ py " events."
  else if startswith (py "get") method_name
  then py "Gets " ++ lower (skipn 3 method_name) ++ py " value."
  else if startswith (py "set") method_name
  then py "Sets " ++ lower (skipn 3 method_name) ++ py " value."
  else if startswith (py "is") method_name || startswith (py "has") method_name
  then py "Checks if " ++ lower (skipn 2 method_name) ++ py "."
  else if startswith (py "toggle") method_name
  then py "Toggles " ++ lower (skipn 6 method_name) ++ py " state."
  else if startswith (py "create") method_name
  then py "Creates " ++ lower (skipn 6 method_name) ++ py "."
  else if startswith (py "update") method_name
  then py "Updates " ++ lower (skipn 6 method_name) ++ py "."
  else if startswith (py "delete") method_name || startswith (py "remove") method_name
  then py "Deletes " ++ lower (skipn 6 method_name) ++ py "."
  else if startswith (py "validate") method_name
  then py "Validates " ++ lower (skipn 8 method_name) ++ py "."
  else if startswith (py "handle") method_name
  then py "Handles " ++ lower (skipn 6 method_name) ++ py "."
  else if startswith (py "process") method_name
  then py "Processes " ++ lower (skipn 7 method_name) ++ py "."
  else py "Handles " ++ method_name ++ py " functionality.".

(** Lines 111-116: the name of one parameter, if it is kept. *)
Definition param_name_of (param : str) : option str :=
  let param := strip param in
  if truthy param && contains (py ":") param then
    let param_name := strip (first_part (split (py ":") param)) in
    if truthy param_name && negb (startswith (py "...") param_name)
    then Some param_name else None
  else None.

Fixpoint keep_some {A : Type} (l : list (option A)) : list A :=
  match l with
  | [] => []
  | Some x :: r => x :: keep_some r
  | None :: r => keep_some r
  end.

(** Lines 105-116. *)
Definition extract_params (method_line : str) : list str :=
  match Regex.search Regex.match_parens method_line with
  | Some group =>
      let param_str := strip group in
      if truthy param_str
      then keep_some (map param_name_of (split (py ",") param_str))
      else []
  | None => []
  end.

(** Lines 119-120. *)
Definition extract_return_type (method_line : str) : str :=
  match Regex.search Regex.match_return_type method_line with
  | Some group => strip group
  | None => py "void"
  end.

(** Lines 134-144. *)
Definition returns_lines (return_type : str) : list str :=
  if negb (str_eqb return_type (py "void")) && truthy return_type then
    if contains (py "Promise") return_type
    then [py " * @returns Promise that resolves when operation completes"]
    else if contains (py "boolean") return_type
    then [py " * @returns Boolean result"]
    else if contains (py "string") return_type
    then [py " * @returns String result"]
    else if contains (py "number") return_type
    then [py " * @returns Numeric result"]
    else [py " * @returns " ++ return_type]
  else [].

(** The name, parameter names and return type read off a declaration
    line (lines 98-120); [None] when no name is found. *)
Definition parse_declaration (method_line : str) : option (str * list str * str) :=
  match Regex.search Regex.match_word_paren method_line with
  | None => None
  | Some method_name =>
      Some (method_name, extract_params method_line,
            extract_return_type method_line)
  end.

(** Lines 94-151. *)
Definition generate_jsdoc_comment (method_line full_line : str)
    : option (list str) :=
  match parse_declaration method_line with
  | None => None
  | Some (method_name, params, return_type) =>
      Some ([py "/**"]
            ++ [py " * " ++ generate_description method_name]
            ++ map (fun param =>
                      py " * @param " ++ param ++ py " - "
                      ++ capitalize param ++ py " parameter") params
            ++ returns_lines return_type
            ++ [py " */"])
  end.

(** Line 45: the leading blanks of the line. *)
Definition indent_of (line : str) : str :=
  firstn (length line - length (lstrip line)) line.

(** Lines 23-48 for the line at index [i]: the lines put in front of
    it, and the blocks added (0 or 1). *)
Definition insertion (lines : list str) (i : nat) (line : str) : list str * nat :=
  let stripped := strip line in
  if should_add_jsdoc stripped lines i then
    if negb (has_jsdoc lines i) then
      match generate_jsdoc_comment stripped line with
      | Some jsdoc => (map (fun jsdoc_line => indent_of line ++ jsdoc_line) jsdoc, 1)
      | None => ([], 0)
      end
    else ([], 0)
  else ([], 0).

(** Lines 17-51: [rest] is the lines from index [i] on. *)
Fixpoint add_loop (lines rest : list str) (i : nat)
    (modified_lines : list str) (changes_made : nat) : list str * nat :=
  match rest with
  | [] => (modified_lines, changes_made)
  | line :: rest' =>
      let '(block, added) := insertion lines i line in
      add_loop lines rest' (i + 1)
        (modified_lines ++ block ++ [line]) (changes_made + added)
  end.

Record result : Type := mk_result {
  written : option str;
  returned : nat
}.

Definition add_lines (lines : list str) : list str * nat :=
  add_loop lines lines 0 [] 0.

Definition add_basic_jsdoc (content : str) : result :=
  let '(modified_lines, changes_made) := add_lines (splitlines content) in
  if 0 <? changes_made
  then mk_result (Some (join [chr_nl] modified_lines)) changes_made
  else mk_result None 0.

(** *** Documentation above a declaration *)

Definition line_at (lines : list str) (k : nat) : str := strip (nth k lines []).

(** The specification's reading: a block from a line starting with the opener
    to the first line that ends with the terminator, with only blank
    lines between it and line [i]. *)
Definition doc_block_above (lines : list str) (i : nat) : Prop :=
  exists top bottom,
    top <= bottom /\ bottom < i <= length lines /\
    (forall k, bottom < k < i -> nonblank (nth k lines []) = false) /\
    startswith (py "/**") (line_at lines top) = true /\
    endswith (py "*/") (line_at lines bottom) = true /\
    (forall k, top <= k < bottom -> contains (py "*/") (nth k lines []) = false).

(** The shape the walk of lines 25-38 accepts: the terminator at the
    start of its own line, above it only lines starting with [*], and
    above those the opener. *)
Definition star_block_above (lines : list str) (i : nat) : Prop :=
  exists top bottom,
    top < bottom /\ bottom < i <= length lines /\
    (forall k, bottom < k < i -> nonblank (nth k lines []) = false) /\
    startswith (py "/**") (line_at lines top) = true /\
    startswith (py "*/") (line_at lines bottom) = true /\
    (forall k, top < k < bottom -> startswith (py "*") (line_at lines k) = true).

End AddMissingJsdoc.

(** ** analyze_missing_jsdoc.py *)

Module AnalyzeMissingJsdoc.

Record missing : Type := mk_missing {
  line_no : nat;
  method : str;
  code : str
}.

(** Lines 24-26. *)
Definition looks_like_method (stripped : str) (lines : list str) (i : nat) : bool :=
  (contains (py "(") stripped && contains (py ")") stripped
   && contains (py ":") stripped
   && (endswith (py "{") stripped
       || ((i + 1 <? length lines)
           && str_eqb (strip (nth (i + 1) lines [])) (py "{"))))
  || (startswith (py "async ") stripped
      && contains (py "(") stripped && contains (py ")") stripped).

(** Lines 29-37. *)
Definition excluded (stripped : str) : bool :=
  startswith (py "constructor") stripped
  || startswith (py "get ") stripped
  || startswith (py "set ") stripped
  || contains (py "=") (first_part (split (py "(") stripped))
  || startswith (py "export ") stripped
  || startswith (py "@") stripped
  || contains (py "interface") stripped
  || contains (py "class") stripped
  || contains (py "enum") stripped.

(** One iteration of the loop of lines 16-64. *)
Definition entry (lines : list str) (i : nat) (line : str) : list missing :=
  let stripped := strip line in
  if negb (truthy stripped) || startswith (py "//") stripped
     || startswith (py "*") stripped || startswith (py "/*") stripped
  then []
  else if looks_like_method stripped lines i then
    if excluded stripped then []
    else if negb (AddMissingJsdoc.has_jsdoc lines i) then
      let method_name :=
        match Regex.search Regex.match_word_paren stripped with
        | Some name => name
        | None => py "unknown"
        end in
      [mk_missing (i + 1) method_name stripped]
    else []
  else [].

Fixpoint find_loop (lines rest : list str) (i : nat) : list missing :=
  match rest with
  | [] => []
  | line :: rest' => entry lines i line ++ find_loop lines rest' (i + 1)
  end.

Definition find_missing_jsdoc (content : str) : list missing :=
  let lines := splitlines content in find_loop lines lines 0.

End AnalyzeMissingJsdoc.

(** ** The brace depth of the specification (section 4.2), for comparison

    The depth is counted on the code part of each line, and a body is
    closed the instant the depth is back at the baseline, also in the
    middle of a line.  The code part is the one [SpecPartition] gives:
    strings and comments that run over several lines are not tracked,
    and the sample texts this depth is computed on have none. *)

Module SpecDepth.

Definition code_part (line : str) : str := fst (SpecPartition.partition line).

(** The characters of a code part read at depth [depth]: the depth
    after them, whether a brace has opened, and whether the depth came
    back to the baseline after one had. *)
Fixpoint read_code (s : str) (depth : Z) (opened : bool) : Z * bool * bool :=
  match s with
  | [] => (depth, opened, false)
  | c :: r =>
      if chr_eqb c chr_lbrace then read_code r (depth + 1)%Z true
      else if chr_eqb c chr_rbrace then
        if opened && (depth - 1 =? 0)%Z then ((depth - 1)%Z, opened, true)
        else read_code r (depth - 1)%Z opened
      else read_code r depth opened
  end.

(** The number (from 1) of the line on which the depth first returns
    to the baseline, [rest] being the lines from index [i] on. *)
Fixpoint first_return (rest : list str) (i : nat) (depth : Z) (opened : bool)
    : option nat :=
  match rest with
  | [] => None
  | line :: rest' =>
      match read_code (code_part line) depth opened with
      | (_, _, true) => Some (i + 1)
      | (depth', opened', false) => first_return rest' (i + 1) depth' opened'
      end
  end.

(** The [endLine] of the declaration on line [start]. *)
Definition end_line (lines : list str) (start : nat) : option nat :=
  first_return (skipn start lines) start 0 false.

End SpecDepth.

(** ** Texts with the same braces *)

Module RawBraces.



End RawBraces.

(** ** Sample texts *)

Module Inputs.

(** The one-line function of the specification's scenario. *)
Definition foo_line : str :=
  py "function foo(a: string, b: number): boolean { return a.length > b; }".

(** A block-comment opener inside a string literal, and a statement on
    the next line. *)
Definition marker_in_string : str := py "const s = 'a/*b';".
Definition marker_in_string_file : str :=
  marker_in_string ++ [chr_nl] ++ py "next();".


(** A method whose body holds an [if] block, followed by another
    method. *)
Definition nested_if : list str :=
  [py "foo(): void {"; py "  if (x) {"; py "    y();"; py "  }"; py "}";
   py "bar(): void {"; py "}"].


(** A declaration that is never closed, followed by one that is. *)
Definition unclosed : list str :=
  [py "foo(): void {"; py "bar(): void {"; py "}"].

(** A declaration under a one-line doc comment. *)
Definition one_line_doc : list str :=
  [py "/** Does foo. */"; py "foo(): void {"; py "}"].

(** A declaration under a doc comment in the usual layout. *)
Definition star_doc : list str :=
  [py "/**"; py " * Does foo."; py " */"; []; py "foo(): void {"; py "}"].

Definition star_doc_text : str := join [chr_nl] star_doc.





(** A method of fifteen statements that is never closed, with a
    closing brace in a line comment after it. *)
Definition unclosed_with_comment : list str :=
  py "foo(): void {" :: repeat (py "  x();") 15 ++ [py "// }"].

(** A statement with a comment, a one-line doc comment, and two blank
    lines between two statements. *)
Definition blank_pair_after_doc : str :=
  join [chr_nl]
    [py "a(); // x"; py "/** doc */"; py "x();"; []; []; py "z();"].

End Inputs.

(** ** Lines put between the lines of a file *)

Module Inserted.

(** [inserts P lines out]: [out] is [lines] with lines that satisfy
    [P] put in, the lines of [lines] being kept as they are and in
    their order. *)
Inductive inserts (P : str -> Prop) : list str -> list str -> Prop :=
| inserts_nil : inserts P [] []
| inserts_keep (x : str) (l o : list str) :
    inserts P l o -> inserts P (x :: l) (x :: o)
| inserts_add (x : str) (l o : list str) :
    P x -> inserts P l o -> inserts P l (x :: o).

(** The number of leading lines that satisfy [p]. *)
Fixpoint count_lines_while (p : str -> bool) (l : list str) : nat :=
  match l with
  | [] => 0
  | x :: r => if p x then S (count_lines_while p r) else 0
  end.

Definition is_blank (l : str) : bool := negb (nonblank l).

(** The index at which [while next_line_idx < len(lines) and not
    lines[next_line_idx].strip(): next_line_idx += 1] stops, started at
    [i + 1]. *)
Definition skip_blank_lines (lines : list str) (i : nat) : nat :=
  i + 1 + count_lines_while is_blank (skipn (i + 1) lines).

End Inserted.

(** ** add_spacing.py: the whole function *)

Module AddSpacingFile.

Import Inserted.

Record state : Type := mk_state {
  modified_lines : list str;
  brace_count : Z;
  in_method : bool
}.

Definition init : state := mk_state [] 0 false.

(** Line 27. *)
Definition skipped (stripped : str) : bool :=
  negb (truthy stripped)
  || startswith (py "//") stripped
  || startswith (py "*") stripped
  || startswith (py "/*") stripped.

(** Lines 31-34. *)
Definition method_pattern (stripped : str) (lines : list str) (i : nat) : bool :=
  (contains (py "(") stripped && contains (py ")") stripped
   && (contains (py "{") stripped
       || ((i + 1 <? length lines)
           && str_eqb (strip (nth (i + 1) lines [])) (py "{"))))
  && negb (startswith (py "if") stripped)
  && negb (startswith (py "for") stripped)
  && negb (startswith (py "while") stripped)
  && negb (startswith (py "switch") stripped).

(** Lines 47-57: a blank line is to be added after line [i]. *)
Definition blank_line_needed (lines : list str) (i : nat) : bool :=
  let next_line_idx := skip_blank_lines lines i in
  (next_line_idx <? length lines)
  && nonblank (nth next_line_idx lines [])
  && negb (startswith (py "}") (strip (nth next_line_idx lines [])))
  && (next_line_idx =? i + 1).

(** One iteration of [for i, line in enumerate(lines)] (lines 20-58). *)
Definition step (lines : list str) (st : state) (i : nat) (line : str) : state :=
  let stripped := strip line in
  let modified := modified_lines st ++ [line] in
  if skipped stripped then mk_state modified (brace_count st) (in_method st)
  else
    let '(count0, in0) :=
      if method_pattern stripped lines i then (0%Z, true)
      else (brace_count st, in_method st) in
    if in0 then
      let '(count1, complete) := AddSpacing.count_braces count0 line in
      if complete then
        mk_state (if blank_line_needed lines i then modified ++ [[]] else modified)
                 count1 false
      else mk_state modified count1 true
    else mk_state modified count0 in0.

Fixpoint run (lines : list str) (st : state) (i : nat) (rest : list str) : state :=
  match rest with
  | [] => st
  | line :: rest' => run lines (step lines st i line) (S i) rest'
  end.

Definition spaced_lines (lines : list str) : list str :=
  modified_lines (run lines init 0 lines).

(** The text written, if any, and the returned flag (lines 60-70). *)
Definition add_spacing_after_methods (content : str) : option str * bool :=
  let new_content := join [chr_nl] (spaced_lines (splitlines content)) in
  if str_eqb new_content content then (None, false)
  else (Some new_content, true).

End AddSpacingFile.

(** ** fix_remaining_spacing.py *)

Module FixRemainingSpacing.

Import Inserted.

(** Lines 62-71. *)
Definition is_class_closing_brace (lines : list str) (brace_index : nat) : bool :=
  let remaining_lines := skipn (brace_index + 1) lines in
  let non_empty_remaining := filter nonblank remaining_lines in
  length non_empty_remaining =? 0.

(** Lines 26-41: a blank line is added after line [i]. *)
Definition blank_line_added (lines : list str) (i : nat) (line : str) : bool :=
  if str_eqb (strip line) (py "}") && (0 <? i) then
    let next_line_idx := skip_blank_lines lines i in
    if (next_line_idx <? length lines)
       && startswith (py "/**") (strip (nth next_line_idx lines []))
       && (next_line_idx =? i + 1)
    then negb (is_class_closing_brace lines i)
    else false
  else false.

(** Lines 17-44: the lines appended for the lines [rest], which are
    the lines of the file from index [i] on. *)
Fixpoint fix_loop (lines : list str) (i : nat) (rest : list str) : list str :=
  match rest with
  | [] => []
  | line :: rest' =>
      line :: (if blank_line_added lines i line then [[]] else [])
        ++ fix_loop lines (S i) rest'
  end.

Definition fixed_lines (lines : list str) : list str := fix_loop lines 0 lines.

(** The text written, if any, and the returned flag (lines 46-56). *)
Definition fix_method_spacing (content : str) : option str * bool :=
  let new_content := join [chr_nl] (fixed_lines (splitlines content)) in
  if str_eqb new_content content then (None, false)
  else (Some new_content, true).

End FixRemainingSpacing.

(** ** analyze_long_methods.py: counting and the record of a match *)

Module AnalyzeLongMethodsText.

(** Line 19. *)
Definition counts_as_code (line : str) : bool :=
  let stripped := strip line in
  truthy stripped
  && negb (startswith (py "//") stripped)
  && negb (startswith (py "/*") stripped)
  && negb (startswith (py "*") stripped).

(** The loop of lines 16-20 over the lines. *)
Definition count_code_lines (lines : list str) : nat :=
  length (filter counts_as_code lines).

(** Lines 11-22. *)
Definition count_method_lines (method_content : str) : nat :=
  count_code_lines (splitlines method_content).

(** [content[method_start:method_end]]. *)
Definition method_text (content : str) (method_start method_end : nat) : str :=
  firstn (method_end - method_start) (skipn method_start content).

Record method : Type := mk_method {
  name : str;
  line_count : nat;
  line_number : nat;
  preview : str
}.

(** Lines 51-81 for one match of a pattern, which starts at
    [method_start] and whose second group is [method_name]: the record
    appended, if any. *)
Definition method_of_match (content : str) (method_start : nat)
    (method_name : str) : option method :=
  let method_end := AnalyzeLongMethods.method_end content method_start in
  if method_start <? method_end then
    let method_content := method_text content method_start method_end in
    Some (mk_method method_name
            (count_method_lines method_content)
            (Z.to_nat (count chr_nl (firstn method_start content)) + 1)
            (if 200 <? length method_content
             then firstn 200 method_content ++ py "..."
             else method_content))
  else None.

End AnalyzeLongMethodsText.

(** ** Spans in file order *)

Module Spans.

Import AnalyzeMethodLength.

(** The spans start after line [from] (lines counted from 1), each one
    ends where it starts or later, and each one starts after the one
    before it has ended. *)
Fixpoint ordered_spans (from : nat) (l : list method_info) : Prop :=
  match l with
  | [] => True
  | m :: r =>
      from < start_line m /\ start_line m <= end_line m
      /\ ordered_spans (end_line m) r
  end.

End Spans.

(** ** Reports in line order *)

Module Reports.

Import ScanRemainingComments.

(** Entries further down the list carry larger line numbers. *)
Definition in_line_order (l : list comment) : Prop :=
  forall p q a b,
    p < q -> nth_error l p = Some a -> nth_error l q = Some b ->
    line_no a < line_no b.

End Reports.

(** ** fix_remaining_spacing.py, read line by line

    The same loop written on what the test of a line looks at: whether
    the line is the first of the file, the line itself, and the lines
    after it. *)

Module FixRemainingSpacingLocal.

Definition adds_blank (first : bool) (line : str) (after : list str) : bool :=
  str_eqb (strip line) (py "}") && negb first
  && match after with
     | next :: _ => startswith (py "/**") (strip next)
     | [] => false
     end.

Fixpoint fix_from (first : bool) (rest : list str) : list str :=
  match rest with
  | [] => []
  | line :: rest' =>
      line :: (if adds_blank first line rest' then [[]] else [])
        ++ fix_from false rest'
  end.

End FixRemainingSpacingLocal.

(** ** add_missing_jsdoc.py, read line by line

    What the test of a line looks at is the lines above it, nearest
    first, and the line right after it; the functions below are the
    source's functions taken at a file made of just these. *)

Module JsdocLocal.

Import AddMissingJsdoc.

(** [has_jsdoc] for a line that has the lines [above] above it, nearest
    first. *)
Definition documented_above (above : list str) : bool :=
  has_jsdoc (rev above) (length above).

(** The test [i + 1 < len(lines) and lines[i + 1].strip() == '{'] for a
    line followed by the lines [after]. *)
Definition next_is_brace (after : list str) : bool :=
  match after with
  | next :: _ => str_eqb (strip next) (py "{")
  | [] => false
  end.

(** The block put in front of [line], which has [above] above it and
    [after] after it. *)
Definition block_for (above : list str) (line : str) (after : list str)
    : list str :=
  fst (insertion (rev above ++ line :: after) (length above) line).

(** The lines written for the lines [rest], which have [above] above
    them. *)
Fixpoint add_from (above : list str) (rest : list str) : list str :=
  match rest with
  | [] => []
  | line :: rest' =>
      block_for above line rest' ++ line :: add_from (line :: above) rest'
  end.

(** A line of a comment: trimmed, it starts with [/*] or with [*]. *)
Definition comment_line (l : str) : Prop :=
  startswith (py "/*") (strip l) = true \/ startswith (py "*") (strip l) = true.

(** A line at which the upward walk of [has_jsdoc] stops whatever
    follows: it is not blank and does not start with [*]. *)
Definition stops_walk (l : str) : Prop :=
  nonblank l = true /\ startswith (py "*") (strip l) = false.

(** Two lists of lines above that agree up to a line that stops the
    walk. *)
Inductive same_above : list str -> list str -> Prop :=
| same_nil : same_above [] []
| same_cons (x : str) (a b : list str) :
    same_above a b -> same_above (x :: a) (x :: b)
| same_stop (x : str) (a b : list str) :
    stops_walk x -> same_above (x :: a) (x :: b).

End JsdocLocal.

(** ** remove_comments.py

    The regular expressions of the script are written out as values of
    a small pattern type and run by a backtracking matcher; [re.match]
    anchors a pattern at the start of the text, which is all the
    leading [^] of the patterns asks for. *)

Module RemoveComments.

Inductive re : Type :=
| Str (lit : str)              (* the characters of [lit] *)
| Cls (p : ascii -> bool)      (* one character of a class *)
| Star (p : ascii -> bool)     (* a run of characters of a class *)
| Plus (p : ascii -> bool)     (* a run of at least one character *)
| Seq (a b : re)
| NotAhead (a : re)            (* negative lookahead *)
| Eol.                         (* [$] *)

Infix ">>" := Seq (at level 61, right associativity).

(** A run of characters of [p], the longest first, then [k]. *)
Fixpoint star (p : ascii -> bool) (s : str) (k : str -> bool) : bool :=
  match s with
  | c :: r => (p c && star p r k) || k s
  | [] => k s
  end.

(** [matches r s k]: [r] matches a prefix of [s] and [k] accepts what
    is left.  [$] matches at the end of the text and before a newline
    that ends it. *)
Fixpoint matches (r : re) (s : str) (k : str -> bool) : bool :=
  match r with
  | Str lit => startswith lit s && k (skipn (length lit) s)
  | Cls p => match s with c :: t => p c && k t | [] => false end
  | Star p => star p s k
  | Plus p => match s with c :: t => p c && star p t k | [] => false end
  | Seq a b => matches a s (fun t => matches b t k)
  | NotAhead a => negb (matches a s (fun _ => true)) && k s
  | Eol =>
      match s with
      | [] => k s
      | [c] => chr_eqb c chr_nl && k s
      | _ => false
      end
  end.

(** [re.match(pattern, text)] as a condition. *)
Definition re_match (r : re) (s : str) : bool := matches r s (fun _ => true).

(** [\s*], [.*] and [[A-Z]]. *)
Definition ws : re := Star is_space.
Definition not_newline (c : ascii) : bool := negb (chr_eqb c chr_nl).
Definition any : re := Star not_newline.
Definition upper_AZ (c : ascii) : bool := ((65 <=? code c) && (code c <=? 90))%N.

(** The patterns that begin with blanks, an asterisk, blanks. *)
Definition star_line (tail : re) : re := ws >> Str (py "*") >> ws >> tail.

(** Lines 12-31. *)
Definition jsdoc_patterns : list re :=
  [ ws >> Str (py "/**");
    star_line (Str (py "@"));
    star_line (Cls upper_AZ);
    star_line Eol;
    ws >> Str (py "*/") >> ws >> Eol;
    star_line (Plus is_word >> any >> Str (py ":"));
    star_line (Str (py "@fileoverview"));
    star_line (Str (py "@author"));
    star_line (Str (py "@version"));
    star_line (Str (py "@class"));
    star_line (Str (py "@interface"));
    star_line (Str (py "@implements"));
    star_line (Str (py "@constructor"));
    star_line (Str (py "@private"));
    star_line (Str (py "@public"));
    star_line (Str (py "@protected"));
    star_line (Str (py "@static"));
    star_line (Str (py "@readonly")) ].

(** Lines 7-37. *)
Definition is_jsdoc_comment (line : str) : bool :=
  let stripped := strip line in
  existsb (fun pattern => re_match pattern stripped) jsdoc_patterns.

(** Lines 48-55. *)
Definition comment_patterns : list re :=
  [ ws >> Str (py "//");
    ws >> Str (py "/*") >> NotAhead (Str (py "*"));
    ws >> Str (py "*") >> NotAhead (ws >> Str (py "@"));
    ws >> Str (py "*/") >> ws >> Eol;
    ws >> Str (py "<!--");
    ws >> Str (py "#") ].

(** Lines 39-61. *)
Definition is_normal_comment (line : str) : bool :=
  let stripped := strip line in
  if is_jsdoc_comment line then false
  else existsb (fun pattern => re_match pattern stripped) comment_patterns.

(** Lines 63-80. *)
Definition should_preserve_line (line : str) : bool :=
  let stripped := strip line in
  if negb (truthy stripped) then true
  else if is_jsdoc_comment line then true
  else if is_normal_comment line then false
  else true.

(** The patterns of lines 100, 104, 113 and 117. *)
Definition jsdoc_open : re := ws >> Str (py "/**").
Definition jsdoc_close : re := ws >> Str (py "*/").
Definition block_open : re := ws >> Str (py "/*") >> NotAhead (Str (py "*")).
Definition block_close : re := any >> Str (py "*/").

(** The variables of the loop of [clean_file_comments]. *)
Record state : Type := mk_state {
  cleaned_lines : list str;
  removed_lines : list (nat * str);
  in_jsdoc_block : bool;
  in_multiline_comment : bool
}.

Definition keep (st : state) (line : str) (jsdoc : bool) : state :=
  mk_state (cleaned_lines st ++ [line]) (removed_lines st) jsdoc
           (in_multiline_comment st).

Definition remove (st : state) (line_number : nat) (line : str)
    (multiline : bool) : state :=
  mk_state (cleaned_lines st) (removed_lines st ++ [(line_number, rstrip line)])
           (in_jsdoc_block st) multiline.

(** One iteration of [for i, line in enumerate(lines)] (lines 95-129). *)
Definition step (st : state) (i : nat) (line : str) : state :=
  let stripped := strip line in
  let line_number := i + 1 in
  if re_match jsdoc_open stripped then keep st line true
  else if in_jsdoc_block st && re_match jsdoc_close stripped then
    keep st line false
  else if in_jsdoc_block st then keep st line (in_jsdoc_block st)
  else if re_match block_open stripped && negb (in_jsdoc_block st) then
    remove st line_number line true
  else if in_multiline_comment st && re_match block_close stripped then
    remove st line_number line false
  else if in_multiline_comment st then
    remove st line_number line (in_multiline_comment st)
  else if should_preserve_line line then keep st line (in_jsdoc_block st)
  else remove st line_number line (in_multiline_comment st).

Fixpoint run (st : state) (i : nat) (lines : list str) : state :=
  match lines with
  | [] => st
  | line :: rest => run (step st i line) (i + 1) rest
  end.

Definition init : state := mk_state [] [] false false.

(** The dictionary [clean_file_comments] returns (without the path). *)
Record report : Type := mk_report {
  original_count : nat;
  cleaned_count : nat;
  removed_count : Z;
  removed_content : list (nat * str)
}.

(** Lines 89-144 on the list [f.readlines()] gives: the lines written
    back and the report. *)
Definition clean_lines (lines : list str) : list str * report :=
  let st := run init 0 lines in
  let original_line_count := length lines in
  let cleaned_line_count := length (cleaned_lines st) in
  (cleaned_lines st,
   mk_report original_line_count cleaned_line_count
     (Z.of_nat original_line_count - Z.of_nat cleaned_line_count)
     (removed_lines st)).

(** The lines of [lines] marked [true] in [ks], and the log entries of
    those marked [false], numbered from [i + 1]. *)
Fixpoint kept (ks : list bool) (lines : list str) : list str :=
  match ks, lines with
  | k :: ks', line :: rest =>
      if k then line :: kept ks' rest else kept ks' rest
  | _, _ => []
  end.

Fixpoint logged (ks : list bool) (lines : list str) (i : nat) : list (nat * str) :=
  match ks, lines with
  | k :: ks', line :: rest =>
      if k then logged ks' rest (i + 1)
      else (i + 1, rstrip line) :: logged ks' rest (i + 1)
  | _, _ => []
  end.

(** The first visible character of the line is one a comment pattern
    can start with. *)
Definition opens_comment (line : str) : bool :=
  match strip line with
  | c :: _ => existsb (chr_eqb c) (py "/*<#")
  | [] => false
  end.

End RemoveComments.

(** * Properties *)

(** ** Strings *)

Section StringFacts.

Lemma chr_eqb_eq (a b : ascii) : chr_eqb a b = true <-> a = b.
Proof. unfold chr_eqb. apply Ascii.eqb_eq. Qed.

Lemma chr_eqb_refl (a : ascii) : chr_eqb a a = true.
Proof. apply chr_eqb_eq. reflexivity. Qed.

Lemma str_eqb_eq (a b : str) : str_eqb a b = true <-> a = b.
Proof.
  revert b. induction a as [|x a IH]; intros [|y b]; simpl; split;
    try congruence; try discriminate.
  - intros H. apply andb_true_iff in H. destruct H as [H1 H2].
    apply chr_eqb_eq in H1. apply IH in H2. congruence.
  - intros H. injection H as -> ->. rewrite chr_eqb_refl.
    apply IH. reflexivity.
Qed.

Lemma take_drop_while (p : ascii -> bool) (s : str) :
  take_while p s ++ drop_while p s = s.
Proof.
  induction s as [|c s IH]; simpl; [reflexivity|].
  destruct (p c); simpl; [now rewrite IH | reflexivity].
Qed.

Lemma take_while_all (p : ascii -> bool) (s : str) :
  Forall (fun c => p c = true) (take_while p s).
Proof.
  induction s as [|c s IH]; simpl; [constructor|].
  destruct (p c) eqn:E; constructor; assumption.
Qed.

Lemma drop_while_head (p : ascii -> bool) (s : str) (c : ascii) (r : str) :
  drop_while p s = c :: r -> p c = false.
Proof.
  induction s as [|x s IH]; simpl; [discriminate|].
  destruct (p x) eqn:E; [exact IH|].
  intros H. injection H as -> _. exact E.
Qed.

Lemma lstrip_cut (s : str) : exists w, blanks w /\ s = w ++ lstrip s.
Proof.
  exists (take_while is_space s). split.
  - apply take_while_all.
  - symmetry. apply take_drop_while.
Qed.

Lemma rstrip_cut (s : str) : exists w, blanks w /\ s = rstrip s ++ w.
Proof.
  unfold rstrip. exists (rev (take_while is_space (rev s))). split.
  - unfold blanks. apply Forall_rev. apply take_while_all.
  - rewrite <- rev_app_distr, take_drop_while, rev_involutive. reflexivity.
Qed.

Lemma strip_cut (s : str) :
  exists w1 w2, blanks w1 /\ blanks w2 /\ s = w1 ++ strip s ++ w2.
Proof.
  destruct (lstrip_cut s) as (w1 & B1 & E1).
  destruct (rstrip_cut (lstrip s)) as (w2 & B2 & E2).
  exists w1, w2. repeat split; try assumption.
  unfold strip. rewrite <- E2. exact E1.
Qed.

Lemma blanks_app (a b : str) : blanks a -> blanks b -> blanks (a ++ b).
Proof. unfold blanks. intros. apply Forall_app. split; assumption. Qed.

Lemma count_app (c : ascii) (a b : str) :
  count c (a ++ b) = (count c a + count c b)%Z.
Proof.
  induction a as [|x a IH]; simpl; [reflexivity|]. rewrite IH. lia.
Qed.

Lemma count_nonneg (c : ascii) (s : str) : (0 <= count c s)%Z.
Proof.
  induction s as [|x s IH]; simpl; [lia|]. destruct (chr_eqb x c); lia.
Qed.

Lemma len_nonneg (s : str) : (0 <= len s)%Z.
Proof. unfold len. lia. Qed.

Lemma char_at_in_range (line : str) (i : Z) :
  (0 <= i < len line)%Z -> exists c, char_at line i = Done c.
Proof.
  unfold char_at, len. intros H.
  destruct (i <? 0)%Z eqn:E; [apply Z.ltb_lt in E; lia|].
  destruct (nth_error line (Z.to_nat i)) as [c|] eqn:N.
  - exists c. reflexivity.
  - apply nth_error_None in N. lia.
Qed.

End StringFacts.

(** ** The [//] scan never reads outside the line and always ends *)

Section ScanFacts.

Lemma closes_string_done (line : str) (i : Z) (in_s : bool)
    (q : option ascii) (c : ascii) :
  (0 <= i < len line)%Z -> exists b, closes_string line i in_s q c = Done b.
Proof.
  intros H. unfold closes_string.
  destruct (in_s && is_quote_char c q); [|eexists; reflexivity].
  destruct (i =? 0)%Z eqn:E; [eexists; reflexivity|].
  apply Z.eqb_neq in E.
  destruct (@char_at_in_range line (i - 1)) as [p Hp]; [lia|].
  rewrite Hp. simpl. eexists; reflexivity.
Qed.

Lemma scan_loop_total (fuel : nat) :
  forall (line : str) (i : Z) (in_s : bool) (q : option ascii),
    (0 <= i <= len line)%Z -> (len line - i < Z.of_nat fuel)%Z ->
    exists ci, scan_loop fuel line i in_s q = Done ci
               /\ (ci = -1 \/ i <= ci < len line - 1)%Z.
Proof.
  induction fuel as [|fuel IH]; intros line i in_s q Hi Hf.
  - lia.
  - simpl. destruct (i <? len line)%Z eqn:E.
    + apply Z.ltb_lt in E.
      destruct (@char_at_in_range line i) as [c Hc]; [lia|].
      rewrite Hc. simpl.
      assert (Hnext : forall b q', exists ci,
                 scan_loop fuel line (i + 1) b q' = Done ci
                 /\ (ci = -1 \/ i <= ci < len line - 1)%Z).
      { intros b q'. destruct (IH line (i + 1)%Z b q') as (ci & H1 & H2);
          [lia | lia |]. exists ci. split; [exact H1 | lia]. }
      destruct (negb in_s && is_quote c); [apply Hnext|].
      destruct (@closes_string_done line i in_s q c) as [b Hb]; [lia|].
      rewrite Hb. simpl. destruct b; [apply Hnext|].
      destruct (starts_line_comment line i in_s) eqn:Es; [|apply Hnext].
      exists i. split; [reflexivity|]. right.
      unfold starts_line_comment in Es.
      apply andb_true_iff in Es. destruct Es as [Es _].
      apply andb_true_iff in Es. destruct Es as [_ Es].
      apply Z.ltb_lt in Es. lia.
    + exists (-1)%Z. split; [reflexivity | left; reflexivity].
Qed.

Lemma scan_comment_index_total (line : str) :
  exists ci, scan_comment_index line = Done ci
             /\ (ci = -1 \/ 0 <= ci < len line - 1)%Z.
Proof.
  unfold scan_comment_index. apply scan_loop_total; unfold len; lia.
Qed.

End ScanFacts.

(** ** The line loops return *)

Section LoopsReturn.

Lemma strip_line_comment_done (line : str) :
  exists r, RemoveInlineComments.strip_line_comment line = Done r.
Proof.
  unfold RemoveInlineComments.strip_line_comment.
  destruct (contains (py "//") line); [|eexists; reflexivity].
  destruct (scan_comment_index_total line) as (ci & -> & _). simpl.
  destruct (ci >=? 0)%Z; eexists; reflexivity.
Qed.

Lemma remove_step_done (st : RemoveInlineComments.state) (line : str) :
  exists st', RemoveInlineComments.step st line = Done st'.
Proof.
  unfold RemoveInlineComments.step.
  destruct (startswith (py "/**") (strip line)); [eexists; reflexivity|].
  destruct (RemoveInlineComments.in_jsdoc st && _); [eexists; reflexivity|].
  destruct (RemoveInlineComments.in_jsdoc st); [eexists; reflexivity|].
  destruct (contains (py "/*") line && _).
  { destruct (RemoveInlineComments.block_comment_line line). eexists; reflexivity. }
  destruct (RemoveInlineComments.in_multiline_comment st).
  { destruct (contains (py "*/") line); eexists; reflexivity. }
  destruct (strip_line_comment_done line) as ([l' ch] & ->). simpl.
  destruct (nonblank l' || _); [eexists; reflexivity|].
  destruct (nonblank line && _); eexists; reflexivity.
Qed.

Lemma remove_run_done (lines : list str) :
  forall st, exists st', RemoveInlineComments.run st lines = Done st'.
Proof.
  induction lines as [|line rest IH]; intros st; simpl.
  - eexists; reflexivity.
  - destruct (remove_step_done st line) as (st1 & ->). simpl. apply IH.
Qed.

Lemma find_step_done (st : ScanRemainingComments.state) (i : nat) (line : str) :
  exists st', ScanRemainingComments.step st i line = Done st'.
Proof.
  unfold ScanRemainingComments.step.
  destruct (startswith (py "/**") (strip line)); [eexists; reflexivity|].
  destruct (ScanRemainingComments.in_jsdoc st && _); [eexists; reflexivity|].
  destruct (ScanRemainingComments.in_jsdoc st || _); [eexists; reflexivity|].
  destruct (contains (py "/*") line && _); [eexists; reflexivity|].
  destruct (ScanRemainingComments.in_multiline_comment st).
  { destruct (contains (py "*/") line); eexists; reflexivity. }
  destruct (contains (py "//") line); [|eexists; reflexivity].
  destruct (scan_comment_index_total line) as (ci & -> & _). simpl.
  destruct (ci >=? 0)%Z; eexists; reflexivity.
Qed.

Lemma find_run_done (lines : list str) :
  forall st i, exists st', ScanRemainingComments.run st i lines = Done st'.
Proof.
  induction lines as [|line rest IH]; intros st i; simpl.
  - eexists; reflexivity.
  - destruct (find_step_done st i line) as (st1 & ->). simpl. apply IH.
Qed.

Import AnalyzeMethodLength.

Lemma span_loop_bounds (rest : list str) :
  forall i bc ms c t e t' c',
    span_loop rest i bc ms c t = Some (e, t', c') ->
    i < e <= i + length rest.
Proof.
  induction rest as [|line rest IH]; intros i bc ms c t e t' c'; simpl.
  - discriminate.
  - destruct (_ && _).
    + intros H. injection H as <- _ _. lia.
    + intros H. apply IH in H. lia.
Qed.

Lemma analyze_method_from_line_end (lines : list str) (start : nat)
    (info : method_info) :
  analyze_method_from_line lines start = Some info ->
  start < end_line info <= length lines /\ start_line info = start + 1.
Proof.
  unfold analyze_method_from_line.
  destruct (nth_error lines start) as [l|] eqn:N; [|discriminate].
  destruct (extract_method_name (strip l)) as [name|]; [|discriminate].
  destruct (truthy name); [|discriminate].
  destruct (span_loop (skipn start lines) start 0 false 0 0)
    as [[[e t] c]|] eqn:Sp; [|discriminate].
  intros H. injection H as <-. simpl.
  apply span_loop_bounds in Sp. rewrite length_skipn in Sp.
  assert (start < length lines) by (apply nth_error_Some; congruence).
  lia.
Qed.

Lemma analyze_loop_total (limit fuel : nat) :
  forall lines i acc,
    length lines - i < fuel ->
    exists r, analyze_loop limit fuel lines i acc = Done r.
Proof.
  induction fuel as [|fuel IH]; intros lines i acc Hf; [lia|].
  simpl. destruct (i <? length lines) eqn:E; [|eexists; reflexivity].
  apply Nat.ltb_lt in E.
  destruct (nth_error lines i) as [line|] eqn:N;
    [|apply nth_error_None in N; lia].
  destruct (skip_line (strip line)); [apply IH; lia|].
  destruct (is_method_declaration (strip line) lines i); [|apply IH; lia].
  destruct (analyze_method_from_line lines i) as [info|] eqn:A;
    [|apply IH; lia].
  apply analyze_method_from_line_end in A. apply IH. lia.
Qed.

End LoopsReturn.

(** C8: every scan and analysis of a file text returns a result: the
    character scan of a line reads no index outside the line (the
    look-behind of the quote test included) and ends within its fuel,
    and so do comment stripping, the comment report and the
    method-length analysis on every file text. *)
Theorem core_operations_return (content : str) :
  (forall line, exists ci,
      scan_comment_index line = Done ci
      /\ (ci = -1 \/ 0 <= ci < len line - 1)%Z)
  /\ (forall line in_string quote_char char,
         closes_string line 0 in_string quote_char char
         = Done (in_string && is_quote_char char quote_char))
  /\ (exists st,
         RemoveInlineComments.run RemoveInlineComments.init (splitlines content)
         = Done st)
  /\ (exists st,
         ScanRemainingComments.run ScanRemainingComments.init 0
           (splitlines content) = Done st)
  /\ (forall limit, exists r,
         AnalyzeMethodLength.analyze_with limit content = Done r).
Proof.
  split; [exact scan_comment_index_total|].
  split.
  { intros line in_s q c. unfold closes_string.
    destruct (in_s && is_quote_char c q); reflexivity. }
  split; [apply remove_run_done|].
  split; [apply find_run_done|].
  intros limit. unfold AnalyzeMethodLength.analyze_with,
    AnalyzeMethodLength.analyze_from.
  apply analyze_loop_total. lia.
Qed.

(** ** What the [//] scan finds *)

Section ScanInvariant.

Lemma slice_two (line : str) (m : nat) :
  slice line (Z.of_nat m) (Z.of_nat m + 2) = firstn 2 (skipn m line).
Proof.
  unfold slice. rewrite Nat2Z.id.
  replace (Z.of_nat m + 2 - Z.of_nat m)%Z with 2%Z by lia. reflexivity.
Qed.

Lemma slice_prefix (line : str) (m : nat) :
  slice line 0 (Z.of_nat m) = firstn m line.
Proof.
  unfold slice. simpl. rewrite Z.sub_0_r, Nat2Z.id. reflexivity.
Qed.

Lemma slice_suffix (line : str) (m : nat) :
  slice line (Z.of_nat m) (len line) = skipn m line.
Proof.
  unfold slice, len. rewrite Nat2Z.id. apply firstn_all2.
  rewrite length_skipn. lia.
Qed.

Lemma char_at_nth (line : str) (n : nat) (c : ascii) :
  nth_error line n = Some c -> char_at line (Z.of_nat n) = Done c.
Proof.
  intros H. unfold char_at.
  destruct (Z.of_nat n <? 0)%Z eqn:E; [apply Z.ltb_lt in E; lia|].
  rewrite Nat2Z.id, H. reflexivity.
Qed.

Lemma closes_string_eq (line : str) (n : nat) (in_s : bool)
    (q : option ascii) (c : ascii) :
  nth_error line n = Some c ->
  closes_string line (Z.of_nat n) in_s q c
  = Done (in_s && is_quote_char c q
          && ((n =? 0) || negb (chr_eqb (nth (n - 1) line chr_nl) chr_backslash))).
Proof.
  intros H. unfold closes_string.
  destruct (in_s && is_quote_char c q); [|reflexivity]. simpl.
  destruct n as [|k]; [reflexivity|].
  replace (Z.of_nat (S k) =? 0)%Z with false
    by (symmetry; apply Z.eqb_neq; lia).
  replace (Z.of_nat (S k) - 1)%Z with (Z.of_nat k) by lia.
  assert (Hk : k < length line).
  { assert (S k < length line) by (apply nth_error_Some; congruence). lia. }
  destruct (nth_error line k) as [p|] eqn:Np;
    [|apply nth_error_None in Np; lia].
  rewrite (char_at_nth _ _ Np). simpl.
  replace (k - 0) with k by lia.
  rewrite (nth_error_nth _ _ chr_nl Np). reflexivity.
Qed.

(** A quote is not the first character of [//]. *)
Lemma quote_is_not_slash (line : str) (n : nat) (c : ascii) :
  nth_error line n = Some c -> is_quote c = true ->
  str_eqb (firstn 2 (skipn n line)) (py "//") = false.
Proof.
  revert n. induction line as [|x line IH]; intros [|n]; simpl;
    try discriminate.
  - intros H Q. injection H as ->.
    destruct (chr_eqb c "/") eqn:E; [|reflexivity].
    apply chr_eqb_eq in E. subst c. vm_compute in Q. discriminate.
  - intros H Q. exact (IH n H Q).
Qed.

(** The scan stops at the first index at which [//] stands with no
    string open, and at no other. *)
Lemma scan_loop_first (fuel : nat) :
  forall (line : str) (n : nat) (in_s : bool) (q : option ascii) (ci : Z),
    state_at line n = (in_s, q) ->
    scan_loop fuel line (Z.of_nat n) in_s q = Done ci ->
    (0 <= ci)%Z ->
    exists m, ci = Z.of_nat m /\ n <= m
      /\ starts_line_comment line ci (in_string_at line m) = true
      /\ forall j, n <= j < m ->
           starts_line_comment line (Z.of_nat j) (in_string_at line j) = false.
Proof.
  induction fuel as [|fuel IH]; intros line n in_s q ci St Run Hci;
    [discriminate|].
  simpl in Run. destruct (Z.of_nat n <? len line)%Z eqn:E;
    [|injection Run as <-; lia].
  apply Z.ltb_lt in E. unfold len in E.
  destruct (nth_error line n) as [c|] eqn:N;
    [|apply nth_error_None in N; lia].
  rewrite (char_at_nth _ _ N) in Run. simpl in Run.
  assert (Next : forall in_s' q',
             string_step line n (in_s, q) = (in_s', q') ->
             starts_line_comment line (Z.of_nat n) in_s = false ->
             scan_loop fuel line (Z.of_nat n + 1) in_s' q' = Done ci ->
             exists m, ci = Z.of_nat m /\ n <= m
               /\ starts_line_comment line ci (in_string_at line m) = true
               /\ forall j, n <= j < m ->
                    starts_line_comment line (Z.of_nat j) (in_string_at line j)
                    = false).
  { intros in_s' q' Hstep Hno Hrun.
    replace (Z.of_nat n + 1)%Z with (Z.of_nat (S n)) in Hrun by lia.
    destruct (IH line (S n) in_s' q' ci) as (m & -> & Hm & Hat & Hbefore);
      try assumption.
    { simpl. rewrite St. exact Hstep. }
    exists m. repeat split; try assumption; try lia.
    intros j Hj. destruct (Nat.eq_dec j n) as [->|Hne].
    - unfold in_string_at. rewrite St. exact Hno.
    - apply Hbefore. lia. }
  destruct (negb in_s && is_quote c) eqn:B1.
  { apply (Next true (Some c)); try assumption.
    - unfold string_step. rewrite N, B1. reflexivity.
    - apply andb_true_iff in B1. destruct B1 as [_ Q].
      unfold starts_line_comment. rewrite slice_two.
      rewrite (quote_is_not_slash _ _ N Q). apply andb_false_r. }
  rewrite (closes_string_eq _ _ in_s q N) in Run. simpl in Run.
  destruct (in_s && is_quote_char c q && _) eqn:B2.
  { apply (Next false None); try assumption.
    - unfold string_step. rewrite N, B1, B2. reflexivity.
    - apply andb_true_iff in B2. destruct B2 as [B2 _].
      apply andb_true_iff in B2. destruct B2 as [-> _]. reflexivity. }
  destruct (starts_line_comment line (Z.of_nat n) in_s) eqn:B3.
  { injection Run as <-. exists n. repeat split; try lia.
    unfold in_string_at. rewrite St. exact B3. }
  apply (Next in_s q); [|reflexivity|assumption].
  unfold string_step. rewrite N, B1, B2. reflexivity.
Qed.

Lemma starts_line_comment_true (line : str) (m : nat) (in_s : bool) :
  starts_line_comment line (Z.of_nat m) in_s = true ->
  in_s = false /\ firstn 2 (skipn m line) = py "//".
Proof.
  unfold starts_line_comment. rewrite slice_two. intros H.
  apply andb_true_iff in H. destruct H as [H H2].
  apply andb_true_iff in H. destruct H as [H1 _].
  apply str_eqb_eq in H2. destruct in_s; [discriminate|]. split; trivial.
Qed.

Lemma starts_line_comment_false (line : str) (j : nat) (in_s : bool) :
  starts_line_comment line (Z.of_nat j) in_s = false ->
  firstn 2 (skipn j line) = py "//" -> in_s = true.
Proof.
  unfold starts_line_comment. rewrite slice_two. intros H E.
  rewrite E in H. destruct in_s; [reflexivity|]. simpl in H.
  assert (L : (Z.of_nat j <? len line - 1)%Z = true).
  { apply Z.ltb_lt. unfold len.
    assert (length (firstn 2 (skipn j line)) = 2) by (rewrite E; reflexivity).
    rewrite length_firstn, length_skipn in H0. lia. }
  rewrite L in H. discriminate.
Qed.

(** The index the scan returns: [//] stands there outside any string,
    and every earlier [//] stands inside an open string. *)
Lemma scan_comment_index_first (line : str) (ci : Z) :
  scan_comment_index line = Done ci -> (0 <= ci)%Z ->
  exists m, ci = Z.of_nat m
    /\ firstn 2 (skipn m line) = py "//"
    /\ in_string_at line m = false
    /\ forall j, j < m -> firstn 2 (skipn j line) = py "//" ->
         in_string_at line j = true.
Proof.
  intros Run Hci. unfold scan_comment_index in Run.
  destruct (@scan_loop_first _ line 0 false None ci eq_refl Run Hci)
    as (m & -> & _ & Hat & Hbefore).
  apply starts_line_comment_true in Hat. destruct Hat as [Hs Hm].
  exists m. repeat split; try assumption.
  intros j Hj E. apply (starts_line_comment_false line j); [|exact E].
  apply Hbefore. lia.
Qed.

End ScanInvariant.

(** ** Which marker decides *)

Section MarkerPrecedence.



Lemma startswith_firstn (p s : str) :
  firstn (length p) s = p -> startswith p s = true.
Proof.
  revert s. induction p as [|x p IH]; intros s; simpl; [reflexivity|].
  destruct s as [|y s]; simpl; [discriminate|].
  intros H. injection H as -> H. rewrite chr_eqb_refl. simpl. now apply IH.
Qed.

Lemma contains_at (sub s : str) :
  forall m, startswith sub (skipn m s) = true -> contains sub s = true.
Proof.
  unfold contains. induction s as [|x r IH]; intros m H.
  - destruct m; simpl in *; rewrite H; reflexivity.
  - destruct m as [|m]; simpl in H.
    + change (find_sub sub (x :: r))
        with (if startswith sub (x :: r) then Some 0
              else option_map S (find_sub sub r)).
      rewrite H. reflexivity.
    + specialize (IH m H).
      change (find_sub sub (x :: r))
        with (if startswith sub (x :: r) then Some 0
              else option_map S (find_sub sub r)).
      destruct (startswith sub (x :: r)); [reflexivity|].
      destruct (find_sub sub r); [reflexivity | discriminate].
Qed.

(** A [//] found by the scan never lies inside an open string. *)
Lemma line_comment_found_outside_strings (line : str) (ci : Z) :
  scan_comment_index line = Done ci -> (0 <= ci)%Z ->
  in_string_at line (Z.to_nat ci) = false.
Proof.
  intros Run Hci.
  destruct (scan_comment_index_first line Run Hci) as (m & -> & _ & H & _).
  rewrite Nat2Z.id. exact H.
Qed.

End MarkerPrecedence.

Section ScanBeforeQuotes.

Lemma find_sub_first (sub s : str) :
  forall k, find_sub sub s = Some k ->
    startswith sub (skipn k s) = true
    /\ forall j, j < k -> startswith sub (skipn j s) = false.
Proof.
  induction s as [|c r IH]; intros k; cbn [find_sub].
  - destruct (startswith sub []) eqn:E; [|discriminate].
    intros H. injection H as <-. split; [exact E | intros j Hj; lia].
  - destruct (startswith sub (c :: r)) eqn:E.
    + intros H. injection H as <-. split; [exact E | intros j Hj; lia].
    + destruct (find_sub sub r) as [k'|]; [|discriminate].
      intros H. injection H as <-. destruct (IH k' eq_refl) as [H1 H2].
      split; [exact H1|]. intros [|j] Hj; [exact E | apply H2; lia].
Qed.

Lemma startswith_is_firstn (p s : str) :
  startswith p s = true -> firstn (length p) s = p.
Proof.
  revert s. induction p as [|x p IH]; intros s; [reflexivity|].
  destruct s as [|y s]; cbn [startswith]; [discriminate|].
  intros H. apply andb_true_iff in H. destruct H as [H1 H2].
  apply chr_eqb_eq in H1. subst y. cbn [length firstn]. now rewrite IH.
Qed.

(** No string is open before the first quote of the line. *)
Lemma state_before_quotes (line : str) (k : nat) :
  existsb is_quote (firstn k line) = false ->
  forall j, j <= k -> state_at line j = (false, None).
Proof.
  intros Hq. induction j as [|j IH]; intros Hj; [reflexivity|].
  cbn [state_at]. rewrite IH by lia. unfold string_step.
  destruct (nth_error line j) as [c|] eqn:N; [|reflexivity].
  assert (Hc : is_quote c = false).
  { destruct (is_quote c) eqn:Q; [|reflexivity].
    assert (Hin : In c (firstn k line)).
    { apply nth_error_In with (n := j). rewrite nth_error_firstn.
      replace (j <? k) with true by (symmetry; apply Nat.ltb_lt; lia).
      exact N. }
    assert (existsb is_quote (firstn k line) = true)
      by (apply existsb_exists; now exists c).
    congruence. }
  rewrite Hc. reflexivity.
Qed.

End ScanBeforeQuotes.




(** ** The reported split of a line *)

Section ReportedSplit.

Import ScanRemainingComments.

(** The two trimmed sides of a cut of [line] give the line back up to
    the blanks the trimming removed. *)
Lemma trimmed_cut (line : str) (m : nat) :
  exists w1 w2 w3,
    blanks w1 /\ blanks w2 /\ blanks w3
    /\ line = w1 ++ strip (firstn m line) ++ w2 ++ strip (skipn m line) ++ w3.
Proof.
  destruct (strip_cut (firstn m line)) as (a1 & a2 & A1 & A2 & Ea).
  destruct (strip_cut (skipn m line)) as (b1 & b2 & B1 & B2 & Eb).
  exists a1, (a2 ++ b1), b2. repeat split; try assumption.
  - now apply blanks_app.
  - rewrite <- (firstn_skipn m line) at 1. rewrite Ea at 1. rewrite Eb at 1.
    repeat rewrite <- app_assoc. reflexivity.
Qed.

(** One step of the report adds at most one entry, for the line it
    reads; an entry with a code part is a trimmed cut of that line. *)
Lemma step_entries (st st' : state) (i : nat) (line : str) :
  step st i line = Done st' ->
  inline_comments st' = inline_comments st
  \/ exists c, inline_comments st' = inline_comments st ++ [c]
       /\ line_no c = i + 1
       /\ forall code, code_before c = Some code ->
            exists w1 w2 w3, blanks w1 /\ blanks w2 /\ blanks w3
              /\ line = w1 ++ code ++ w2 ++ content c ++ w3.
Proof.
  unfold step.
  destruct (startswith (py "/**") (strip line));
    [intros H; injection H as <-; left; reflexivity|].
  destruct (in_jsdoc st && _);
    [intros H; injection H as <-; left; reflexivity|].
  destruct (in_jsdoc st || _);
    [intros H; injection H as <-; left; reflexivity|].
  destruct (contains (py "/*") line && _).
  { intros H. right.
    exists (mk_comment (i + 1) multiline_start (strip line) None).
    split; [|split].
    - destruct (contains (py "*/") line); injection H as <-; reflexivity.
    - reflexivity.
    - simpl. discriminate. }
  destruct (in_multiline_comment st).
  { destruct (contains (py "*/") line); intros H; injection H as <-; right;
      (eexists; split; [reflexivity | split; [reflexivity | simpl; discriminate]]). }
  destruct (contains (py "//") line);
    [|intros H; injection H as <-; left; reflexivity].
  destruct (scan_comment_index line) as [ci| |] eqn:Run; simpl;
    try discriminate.
  destruct (ci >=? 0)%Z eqn:Hge;
    [|intros H; injection H as <-; left; reflexivity].
  apply Z.geb_le in Hge.
  destruct (scan_comment_index_first line Run Hge) as (m & -> & _).
  rewrite slice_suffix, slice_prefix.
  intros H. injection H as <-. right. eexists. split; [reflexivity|].
  split; [reflexivity|]. simpl. intros code E. injection E as <-.
  apply trimmed_cut.
Qed.

Lemma run_entries (all : list str) (rest : list str) :
  forall (pre : list str) (st st' : state),
    all = pre ++ rest ->
    run st (length pre) rest = Done st' ->
    forall P : comment -> Prop,
      (forall c, In c (inline_comments st) -> P c) ->
      (forall c line, nth_error all (line_no c - 1) = Some line ->
                      (forall code, code_before c = Some code ->
                         exists w1 w2 w3, blanks w1 /\ blanks w2 /\ blanks w3
                           /\ line = w1 ++ code ++ w2 ++ content c ++ w3) ->
                      P c) ->
      forall c, In c (inline_comments st') -> P c.
Proof.
  induction rest as [|line rest IH]; intros pre st st' Eall Run P Hold Hnew.
  - simpl in Run. injection Run as <-. exact Hold.
  - simpl in Run.
    destruct (step st (length pre) line) as [st1| |] eqn:Es; try discriminate.
    simpl in Run.
    apply (IH (pre ++ [line]) st1 st'); trivial.
    + rewrite <- app_assoc. exact Eall.
    + rewrite length_app. simpl. rewrite Nat.add_1_r. exact Run.
    + intros c Hc. destruct (step_entries _ _ _ Es) as [E|(c' & E & Hno & Hcut)].
      * rewrite E in Hc. now apply Hold.
      * rewrite E in Hc. apply in_app_or in Hc. destruct Hc as [Hc|[<-|[]]].
        -- now apply Hold.
        -- apply (Hnew c' line); [|exact Hcut].
           rewrite Hno, Eall. replace (length pre + 1 - 1) with (length pre) by lia.
           rewrite nth_error_app2 by lia. rewrite Nat.sub_diag. reflexivity.
Qed.

End ReportedSplit.

(** C3, as the code has it: every entry of the report that carries a
    code part belongs to a line of the file, and that line is the code
    part followed by the comment part once the blanks that the report
    trims at the two ends of each part are put back; the cut itself
    loses no character. *)
Theorem reported_split_up_to_blanks
    (content : str) (c : ScanRemainingComments.comment) (code : str) :
  In c (ScanRemainingComments.find_inline_comments content) ->
  ScanRemainingComments.code_before c = Some code ->
  exists line w1 w2 w3,
    nth_error (splitlines content) (ScanRemainingComments.line_no c - 1)
    = Some line
    /\ blanks w1 /\ blanks w2 /\ blanks w3
    /\ line = w1 ++ code ++ w2 ++ ScanRemainingComments.content c ++ w3.
Proof.
  unfold ScanRemainingComments.find_inline_comments.
  destruct (ScanRemainingComments.run ScanRemainingComments.init 0
              (splitlines content)) as [st| |] eqn:Run;
    try (intros []).
  intros Hin. revert code.
  apply (@run_entries (splitlines content) (splitlines content) [] _ st
           eq_refl Run
           (fun c => forall code, ScanRemainingComments.code_before c = Some code ->
              exists line w1 w2 w3,
                nth_error (splitlines content)
                  (ScanRemainingComments.line_no c - 1) = Some line
                /\ blanks w1 /\ blanks w2 /\ blanks w3
                /\ line = w1 ++ code ++ w2
                          ++ ScanRemainingComments.content c ++ w3));
    [intros c0 [] | | exact Hin].
  intros c0 line Hn Hcut code Hcode.
  destruct (Hcut code Hcode) as (w1 & w2 & w3 & B1 & B2 & B3 & E).
  exists line, w1, w2, w3. repeat split; assumption.
Qed.

(** The line [a // b]. *)
Lemma reported_split_up_to_blanks_witness :
  exists line w1 w2 w3,
    nth_error (splitlines (py "a // b")) 0 = Some line
    /\ blanks w1 /\ blanks w2 /\ blanks w3
    /\ line = w1 ++ py "a" ++ w2 ++ py "// b" ++ w3.
Proof.
  exact (@reported_split_up_to_blanks (py "a // b")
           (ScanRemainingComments.mk_comment 1 ScanRemainingComments.single_line
              (py "// b") (Some (py "a")))
           (py "a") (or_introl eq_refl) eq_refl).
Defined.

(** C3 as stated fails on the line [a // b]: the reported code part is
    [a] and the reported comment part is [// b]; put together they
    give [a// b], not the line. *)
Lemma reported_split_is_lossy :
  ScanRemainingComments.reported_split (py "a // b") = Some (py "a", py "// b")
  /\ ScanRemainingComments.find_inline_comments (py "a // b")
     = [ScanRemainingComments.mk_comment 1 ScanRemainingComments.single_line
          (py "// b") (Some (py "a"))]
  /\ py "a" ++ py "// b" <> py "a // b".
Proof.
  repeat split; try (vm_compute; reflexivity).
  vm_compute. discriminate.
Qed.

(** ** Brace depth and the end of a span *)

Section BraceDepth.

Import AnalyzeMethodLength.

Lemma brace_delta_app (a b : str) :
  brace_delta (a ++ b) = (brace_delta a + brace_delta b)%Z.
Proof.
  unfold brace_delta, open_braces, close_braces.
  rewrite !count_app. lia.
Qed.

Lemma search_some {A : Type} (m : str -> option A) (s : str) (r : A) :
  Regex.search m s = Some r -> exists t, m t = Some r.
Proof.
  induction s as [|c s IH]; simpl.
  - destruct (m []) eqn:E; [|discriminate].
    intros H. injection H as <-. now exists [].
  - destruct (m (c :: s)) eqn:E.
    + intros H. injection H as <-. now exists (c :: s).
    + exact IH.
Qed.

Lemma match_word_paren_truthy (s w : str) :
  Regex.match_word_paren s = Some w -> truthy w = true.
Proof.
  unfold Regex.match_word_paren.
  destruct (take_while is_word s) as [|x w']; [discriminate|].
  destruct (drop_while is_space _) as [|c r]; [discriminate|].
  destruct (chr_eqb c chr_lparen); [|discriminate].
  intros H. injection H as <-. reflexivity.
Qed.

Lemma first_some_in {A B : Type} (f : A -> option B) (l : list A) (y : B) :
  first_some f l = Some y -> exists x, In x l /\ f x = Some y.
Proof.
  induction l as [|x l IH]; simpl; [discriminate|].
  destruct (f x) eqn:E.
  - intros H. injection H as <-. exists x. auto.
  - intros H. destruct (IH H) as (x' & Hin & Hf). exists x'. auto.
Qed.

(** A name that is found is never the empty string. *)
Lemma extract_method_name_truthy (method_line name : str) :
  extract_method_name method_line = Some name -> truthy name = true.
Proof.
  unfold extract_method_name.
  destruct (startswith (py "constructor") method_line).
  { intros H. injection H as <-. reflexivity. }
  destruct (first_some _ hooks) as [hook|] eqn:Hk.
  { intros H. injection H as <-.
    apply first_some_in in Hk. destruct Hk as (x & Hin & Hx).
    destruct (startswith x method_line); [|discriminate].
    injection Hx as <-.
    simpl in Hin. repeat (destruct Hin as [<-|Hin]; [reflexivity|]).
    destruct Hin. }
  destruct (Regex.search Regex.match_word_paren method_line) as [w|] eqn:Sw.
  { intros H. injection H as <-.
    apply search_some in Sw. destruct Sw as (t & Ht).
    exact (match_word_paren_truthy _ Ht). }
  intros H. apply first_some_in in H. destruct H as (kw & _ & Hkw).
  apply search_some in Hkw. destruct Hkw as (t & Ht).
  unfold Regex.match_kw_word_paren in Ht.
  destruct (startswith kw t); [|discriminate].
  destruct (take_while is_space _); [discriminate|].
  exact (match_word_paren_truthy _ Ht).
Qed.

Lemma closes_after_cons (bc : Z) (ms : bool) (line : str) (ls : list str) :
  closes_after bc ms (line :: ls)
  = closes_after (bc + (open_braces line - close_braces line))
      (if (open_braces line >? 0)%Z then true else ms) ls.
Proof.
  unfold closes_after, opened_after, depth_after. simpl.
  destruct (open_braces line >? 0)%Z, ms; reflexivity.
Qed.

Lemma closes_after_one (bc : Z) (ms : bool) (line : str) :
  closes_after bc ms [line]
  = (if (open_braces line >? 0)%Z then true else ms)
    && (bc + (open_braces line - close_braces line) <=? 0)%Z.
Proof.
  unfold closes_after, opened_after, depth_after. simpl.
  destruct (open_braces line >? 0)%Z, ms; reflexivity.
Qed.


(** The loop finds nothing when the test fails on every line. *)
Lemma span_loop_never_closes (rest : list str) :
  forall i bc ms c t,
    (forall k, k < length rest ->
               closes_after bc ms (firstn (k + 1) rest) = false) ->
    span_loop rest i bc ms c t = None.
Proof.
  induction rest as [|line rest IH]; intros i bc ms c t Hno; [reflexivity|].
  assert (H0 := Hno 0 (Nat.lt_0_succ _)).
  simpl firstn in H0. rewrite closes_after_one in H0.
  simpl. rewrite H0. apply IH.
  intros k Hk. rewrite <- closes_after_cons. apply (Hno (S k)). simpl. lia.
Qed.

(** What the loop returns is the first line at which the test
    succeeds. *)
Lemma span_loop_returns_first (rest : list str) :
  forall i bc ms c t e t' c',
    span_loop rest i bc ms c t = Some (e, t', c') ->
    exists k, e = i + k + 1 /\ k < length rest
      /\ closes_after bc ms (firstn (k + 1) rest) = true
      /\ forall j, j < k -> closes_after bc ms (firstn (j + 1) rest) = false.
Proof.
  induction rest as [|line rest IH]; intros i bc ms c t e t' c';
    [discriminate|].
  simpl. destruct (_ && _) eqn:B.
  - intros H. injection H as <- _ _. exists 0.
    repeat split; [lia | simpl; lia | | intros j Hj; lia].
    simpl firstn. rewrite closes_after_one. exact B.
  - intros H. apply IH in H. destruct H as (k & -> & Hk & Hc & Hfirst).
    exists (S k). repeat split; [lia | simpl; lia | |].
    + change (firstn (S k + 1) (line :: rest))
        with (line :: firstn (k + 1) rest).
      rewrite closes_after_cons. exact Hc.
    + intros j Hj. destruct j as [|j].
      * simpl firstn. rewrite closes_after_one. exact B.
      * change (firstn (S j + 1) (line :: rest))
          with (line :: firstn (j + 1) rest).
        rewrite closes_after_cons. apply Hfirst. lia.
Qed.

Lemma lines_between_offset (lines : list str) (start k : nat) :
  lines_between lines start (start + k) = firstn (k + 1) (skipn start lines).
Proof.
  unfold lines_between. replace (start + k + 1 - start) with (k + 1) by lia.
  reflexivity.
Qed.

Lemma closes_at_offset (lines : list str) (start k : nat) :
  closes_at lines start (start + k)
  = closes_after 0 false (firstn (k + 1) (skipn start lines)).
Proof.
  unfold closes_at, opened_at, depth_at, closes_after.
  rewrite lines_between_offset. reflexivity.
Qed.

End BraceDepth.




Section RawCounts.

Import AnalyzeMethodLength.





End RawCounts.




Section Unclosed.

Import AnalyzeMethodLength.

Lemma analyze_from_next (limit : nat) (lines : list str) (i : nat)
    (acc : list method_info) :
  i < length lines ->
  analyze_method_from_line lines i = None ->
  analyze_from limit lines i acc = analyze_from limit lines (i + 1) acc.
Proof.
  intros Hi Hnone. unfold analyze_from.
  replace (S (length lines - (i + 1))) with (length lines - i) by lia.
  simpl. apply Nat.ltb_lt in Hi. rewrite Hi. apply Nat.ltb_lt in Hi.
  destruct (nth_error lines i) as [line|] eqn:N;
    [|apply nth_error_None in N; lia].
  rewrite Hnone.
  destruct (skip_line (strip line)); [reflexivity|].
  destruct (is_method_declaration (strip line) lines i); reflexivity.
Qed.

End Unclosed.

(** C6, as the code has it: when the close test of the span loop
    never succeeds from a line to the end of the file - the count of
    the braces of the raw lines, comments and strings included, is
    never at 0 or below at the end of a line once a brace has been
    counted - no span is produced for that line, nothing is added to
    the output, and the analysis goes on with the next line, so that
    the spans of later declarations are still found. *)
Theorem unclosed_declaration_is_skipped
    (limit : nat) (lines : list str) (i : nat)
    (acc : list AnalyzeMethodLength.method_info) :
  i < length lines ->
  (forall j, i <= j < length lines ->
             AnalyzeMethodLength.closes_at lines i j = false) ->
  AnalyzeMethodLength.analyze_method_from_line lines i = None
  /\ AnalyzeMethodLength.analyze_from limit lines i acc
     = AnalyzeMethodLength.analyze_from limit lines (i + 1) acc.
Proof.
  intros Hi Hno.
  assert (Hnone : AnalyzeMethodLength.analyze_method_from_line lines i = None).
  { unfold AnalyzeMethodLength.analyze_method_from_line.
    destruct (nth_error lines i) as [l|]; [|reflexivity].
    destruct (AnalyzeMethodLength.extract_method_name (strip l)) as [name|];
      [|reflexivity].
    destruct (truthy name); [|reflexivity].
    rewrite span_loop_never_closes; [reflexivity|].
    intros k Hk. rewrite length_skipn in Hk.
    rewrite <- closes_at_offset. apply Hno. lia. }
  split; [exact Hnone|]. now apply analyze_from_next.
Qed.

(** The unclosed [foo] followed by [bar]: no span for [foo], and the
    analysis from line 0 is the analysis from line 1, which reports
    [bar]. *)
Lemma unclosed_declaration_is_skipped_witness :
  (AnalyzeMethodLength.analyze_method_from_line Inputs.unclosed 0 = None
   /\ AnalyzeMethodLength.analyze_from 0 Inputs.unclosed 0 []
      = AnalyzeMethodLength.analyze_from 0 Inputs.unclosed (0 + 1) [])
  /\ AnalyzeMethodLength.analyze_from 0 Inputs.unclosed 0 []
     = Done [AnalyzeMethodLength.mk_method_info (py "bar") 2 3 2 1
               (py "bar(): void {")].
Proof.
  split; [|vm_compute; reflexivity].
  apply (@unclosed_declaration_is_skipped 0 Inputs.unclosed 0 []).
  - simpl. lia.
  - intros j Hj. simpl in Hj.
    destruct j as [|[|[|j]]]; try (vm_compute; reflexivity). lia.
Defined.

(** C6 as stated fails on a method that is never closed and is
    followed by a line comment that holds a closing brace: the depth
    of the code parts never returns to the baseline, so the
    specification discards the span; the code counts the brace of the
    comment, finds the count at 0 on line 17 and reports a span of 16
    code lines. *)
Lemma comment_brace_closes_unclosed_method :
  SpecDepth.end_line Inputs.unclosed_with_comment 0 = None
  /\ AnalyzeMethodLength.closes_at Inputs.unclosed_with_comment 0 16 = true
  /\ AnalyzeMethodLength.analyze_method_length
       (join [chr_nl] Inputs.unclosed_with_comment)
     = [AnalyzeMethodLength.mk_method_info (py "foo") 1 17 17 16
          (py "foo(): void {")].
Proof. repeat split; vm_compute; reflexivity. Qed.

(** ** Documentation that is already there *)

Section Documented.

Import AddMissingJsdoc.

Lemma firstn_split_at {A : Type} (d : A) (l : list A) :
  forall b i, b < i <= length l ->
    firstn i l = firstn b l ++ [nth b l d] ++ firstn (i - b - 1) (skipn (b + 1) l).
Proof.
  induction l as [|x l IH]; intros b i H; simpl in H; [lia|].
  destruct i as [|i]; [lia|]. destruct b as [|b]; simpl.
  - rewrite Nat.sub_0_r. reflexivity.
  - f_equal. apply IH. lia.
Qed.

Lemma segment_forall {A : Type} (d : A) (P : A -> Prop) (l : list A) (a n : nat) :
  (forall k, a <= k < a + n -> P (nth k l d)) ->
  Forall P (firstn n (skipn a l)).
Proof.
  intros H. apply Forall_forall. intros x Hx.
  destruct (In_nth _ _ d Hx) as (j & Hj & <-).
  rewrite length_firstn in Hj.
  rewrite nth_firstn.
  replace (j <? n) with true by (symmetry; apply Nat.ltb_lt; lia).
  rewrite nth_skipn. apply H. lia.
Qed.

Lemma drop_lines_while_all (p : str -> bool) (l rest : list str) :
  Forall (fun x => p x = true) l ->
  drop_lines_while p (l ++ rest) = drop_lines_while p rest.
Proof.
  induction 1 as [|x l Hx _ IH]; simpl; [reflexivity|]. now rewrite Hx.
Qed.

Lemma startswith_truthy (p s : str) :
  truthy p = true -> startswith p s = true -> truthy s = true.
Proof. destruct p, s; simpl; try discriminate; reflexivity. Qed.

Lemma startswith_head (x : ascii) (p s : str) :
  startswith (x :: p) s = true -> exists r, s = x :: r.
Proof.
  destruct s as [|c r]; cbn [startswith]; [discriminate|].
  intros H. apply andb_true_iff in H. destruct H as [H _].
  apply chr_eqb_eq in H. subst c. now exists r.
Qed.

(** The walk accepts the layout [star_block_above] describes. *)
Lemma star_block_has_jsdoc (lines : list str) (i : nat) :
  star_block_above lines i -> has_jsdoc lines i = true.
Proof.
  intros (top & bottom & Htb & Hbi & Hblank & Htop & Hbot & Hstar).
  unfold line_at in *.
  assert (Hnb : nonblank (nth bottom lines []) = true).
  { unfold nonblank. apply (startswith_truthy (py "*/")); [reflexivity|exact Hbot]. }
  assert (Hns : startswith (py "*") (strip (nth top lines [])) = false).
  { change (py "/**") with ("/"%char :: py "**") in Htop.
    destruct (startswith_head _ _ _ Htop) as (r & ->). reflexivity. }
  unfold has_jsdoc.
  rewrite (@firstn_split_at str [] lines bottom i) by lia.
  rewrite (@firstn_split_at str [] lines top bottom) by lia.
  repeat rewrite rev_app_distr. cbn [rev app]. repeat rewrite <- app_assoc.
  rewrite drop_lines_while_all.
  2:{ apply Forall_rev. apply segment_forall with (d := []).
      intros k Hk. rewrite Hblank by lia. reflexivity. }
  cbn [app drop_lines_while]. rewrite Hnb. cbn [negb].
  rewrite Hbot, orb_true_r.
  rewrite drop_lines_while_all.
  2:{ apply Forall_rev. apply segment_forall with (d := []).
      intros k Hk. apply Hstar. lia. }
  cbn [app drop_lines_while]. rewrite Hns. exact Htop.
Qed.

(** The loop copies the lines when no line gets a block. *)
Lemma add_loop_copies (lines rest : list str) :
  forall i modified changes,
    (forall k line, nth_error rest k = Some line ->
                    insertion lines (i + k) line = ([], 0)) ->
    add_loop lines rest i modified changes = (modified ++ rest, changes).
Proof.
  induction rest as [|line rest IH]; intros i modified changes H; simpl.
  - now rewrite app_nil_r.
  - assert (H0 := H 0 line eq_refl). rewrite Nat.add_0_r in H0. rewrite H0.
    simpl. rewrite IH.
    + rewrite <- app_assoc, Nat.add_0_r. reflexivity.
    + intros k l Hk. replace (i + 1 + k) with (i + S k) by lia.
      apply H. exact Hk.
Qed.

End Documented.

(** X27: a declaration gets no new block, and is not reported as
    undocumented, when the text above it, blank lines apart, is a doc
    comment laid out one part per line: a line that starts with the
    terminator, above it only lines that start with an asterisk, and
    above those a line that starts with the opener.  A file in which
    every declaration is documented in that layout is left as it is,
    with no block added. *)
Theorem star_documented_gets_no_block (content : str) :
  (forall i line,
      AddMissingJsdoc.star_block_above (splitlines content) i ->
      AddMissingJsdoc.insertion (splitlines content) i line = ([], 0)
      /\ AnalyzeMissingJsdoc.entry (splitlines content) i line = [])
  /\ ((forall i line,
         nth_error (splitlines content) i = Some line ->
         AddMissingJsdoc.should_add_jsdoc (strip line) (splitlines content) i
         = true ->
         AddMissingJsdoc.star_block_above (splitlines content) i) ->
      AddMissingJsdoc.add_lines (splitlines content) = (splitlines content, 0)
      /\ AddMissingJsdoc.add_basic_jsdoc content
         = AddMissingJsdoc.mk_result None 0).
Proof.
  split.
  - intros i line Hstar. split.
    + unfold AddMissingJsdoc.insertion.
      rewrite (star_block_has_jsdoc Hstar). cbn [negb].
      destruct (AddMissingJsdoc.should_add_jsdoc _ _ _); reflexivity.
    + unfold AnalyzeMissingJsdoc.entry.
      rewrite (star_block_has_jsdoc Hstar). cbn [negb].
      repeat match goal with
             | |- context [if ?c then _ else _] => destruct c
             end; reflexivity.
  - intros Hdoc.
    assert (Hall : AddMissingJsdoc.add_lines (splitlines content)
                   = (splitlines content, 0)).
    { unfold AddMissingJsdoc.add_lines. rewrite add_loop_copies; [reflexivity|].
      intros k line Hk. cbn [Nat.add]. unfold AddMissingJsdoc.insertion.
      destruct (AddMissingJsdoc.should_add_jsdoc (strip line) (splitlines content) k)
        eqn:Hs; [|reflexivity].
      rewrite (star_block_has_jsdoc (Hdoc k line Hk Hs)). reflexivity. }
    split; [exact Hall|].
    unfold AddMissingJsdoc.add_basic_jsdoc. rewrite Hall. reflexivity.
Qed.

(** The declaration under a doc comment in the usual layout. *)
Lemma star_documented_gets_no_block_witness :
  AddMissingJsdoc.add_lines (splitlines Inputs.star_doc_text)
  = (splitlines Inputs.star_doc_text, 0)
  /\ AddMissingJsdoc.add_basic_jsdoc Inputs.star_doc_text
     = AddMissingJsdoc.mk_result None 0.
Proof.
  apply (proj2 (@star_documented_gets_no_block Inputs.star_doc_text)).
  change (splitlines Inputs.star_doc_text) with Inputs.star_doc.
  intros i line Hn Hs.
  destruct i as [|[|[|[|[|[|i]]]]]];
    try (injection Hn as <-; vm_compute in Hs; discriminate).
  - exists 0, 2. repeat split; try (simpl; lia).
    intros k Hk. assert (k = 3) as -> by lia. reflexivity.
    intros k Hk. assert (k = 1) as -> by lia. reflexivity.
  - simpl in Hn. destruct i; discriminate.
Defined.

(** C7, at the failing input: the declaration [foo(): void {] has the
    doc comment [/** Does foo. */] right above it, on one line; the
    check for documentation asks for a line that starts with the
    terminator, so insertion puts a second block in front of the
    declaration and the analysis of missing documentation reports
    it. *)
Lemma one_line_doc_gets_second_block :
  AddMissingJsdoc.doc_block_above Inputs.one_line_doc 1
  /\ AddMissingJsdoc.should_add_jsdoc (strip (py "foo(): void {"))
       Inputs.one_line_doc 1 = true
  /\ AddMissingJsdoc.add_lines Inputs.one_line_doc
     = ([py "/** Does foo. */"; py "/**"; py " * Handles foo functionality.";
         py " */"; py "foo(): void {"; py "}"], 1)
  /\ AnalyzeMissingJsdoc.find_loop Inputs.one_line_doc Inputs.one_line_doc 0
     = [AnalyzeMissingJsdoc.mk_missing 2 (py "foo") (py "foo(): void {")].
Proof.
  split; [|repeat split; vm_compute; reflexivity].
  exists 0, 0.
  split; [lia|]. split; [simpl; lia|]. split; [intros k Hk; lia|].
  split; [reflexivity|]. split; [reflexivity|]. intros k Hk. lia.
Qed.

(** ** Blank lines in the stripped text *)

Section Characters.

Lemma drop_while_incl (p : ascii -> bool) (s : str) : incl (drop_while p s) s.
Proof.
  induction s as [|c s IH]; simpl; [apply incl_refl|].
  destruct (p c); [apply incl_tl; exact IH | apply incl_refl].
Qed.

Lemma rstrip_incl (s : str) : incl (rstrip s) s.
Proof.
  unfold rstrip. intros c Hc. apply in_rev in Hc.
  apply drop_while_incl in Hc. now apply in_rev.
Qed.

Lemma firstn_incl_str (n : nat) (s : str) : incl (firstn n s) s.
Proof.
  intros c Hc. rewrite <- (firstn_skipn n s). apply in_or_app. now left.
Qed.

Lemma split_aux_incl (sep s : str) :
  forall k, Forall (fun part => incl part s) (split_aux sep s k).
Proof.
  induction s as [|c r IH]; intros k; simpl.
  - constructor; [apply incl_refl | constructor].
  - assert (Up : forall l, Forall (fun part => incl part r) l ->
                          Forall (fun part => incl part (c :: r)) l).
    { intros l Hl. eapply Forall_impl; [|exact Hl].
      intros part Hp. now apply incl_tl. }
    destruct k; [|apply Up, IH].
    destruct (startswith sep (c :: r)).
    + constructor; [intros x []|apply Up, IH].
    + specialize (IH 0). destruct (split_aux sep r 0) as [|h t].
      * constructor; [|constructor]. intros x [<-|[]]. now left.
      * inversion IH as [|? ? Hh Ht]; subst. constructor; [|now apply Up].
        intros x [<-|Hx]; [now left | right; now apply Hh].
Qed.

Lemma first_part_incl (sep s : str) : incl (first_part (split sep s)) s.
Proof.
  unfold first_part, split. pose proof (split_aux_incl sep s 0) as H.
  destruct (split_aux sep s 0); simpl; [intros x []|].
  now inversion H.
Qed.

Lemma last_forall {A : Type} (P : A -> Prop) (l : list A) (d : A) :
  Forall P l -> P d -> P (last l d).
Proof.
  induction 1 as [|x l Hx Hl IH]; intros Hd; simpl; [exact Hd|].
  destruct l; [exact Hx | now apply IH].
Qed.

Lemma last_part_incl (sep s : str) : incl (last_part (split sep s)) s.
Proof.
  unfold last_part, split. apply last_forall with (P := fun part => incl part s).
  - apply split_aux_incl.
  - intros x [].
Qed.

(** A line is not blank exactly when it holds a character that is not
    a blank. *)
Lemma nonblank_iff (s : str) :
  nonblank s = true <-> exists c, In c s /\ is_space c = false.
Proof.
  unfold nonblank. split.
  - intros H. unfold strip, rstrip in H.
    destruct (drop_while is_space (rev (lstrip s))) as [|c r] eqn:E.
    + discriminate.
    + exists c. split.
      * assert (In c (drop_while is_space (rev (lstrip s))))
          by (rewrite E; now left).
        apply drop_while_incl in H0. apply in_rev in H0.
        unfold lstrip in H0. now apply drop_while_incl in H0.
      * exact (drop_while_head _ _ E).
  - intros (c & Hin & Hc).
    destruct (strip_cut s) as (w1 & w2 & B1 & B2 & E).
    destruct (strip s) as [|x r]; [|reflexivity].
    exfalso. rewrite E in Hin. simpl in Hin. apply in_app_or in Hin.
    unfold blanks in *. rewrite Forall_forall in B1, B2.
    destruct Hin as [Hin|Hin]; [apply B1 in Hin | apply B2 in Hin]; congruence.
Qed.

Lemma nonblank_rstrip (s : str) : nonblank (rstrip s) = nonblank s.
Proof.
  apply eq_true_iff_eq. rewrite !nonblank_iff. split.
  - intros (c & Hin & Hc). exists c. split; [now apply rstrip_incl | exact Hc].
  - intros (c & Hin & Hc). exists c. split; [|exact Hc].
    destruct (rstrip_cut s) as (w & B & E). rewrite E in Hin.
    apply in_app_or in Hin. destruct Hin as [Hin|Hin]; [exact Hin|].
    unfold blanks in B. rewrite Forall_forall in B. apply B in Hin. congruence.
Qed.

Lemma splitlines_no_nl (content : str) :
  Forall RemoveInlineComments.no_nl (splitlines content).
Proof.
  unfold splitlines, split, RemoveInlineComments.no_nl.
  induction content as [|c r IH]; simpl.
  - constructor; [intros [] | constructor].
  - rewrite andb_true_r. destruct (chr_eqb chr_nl c) eqn:E; simpl.
    + constructor; [intros [] | exact IH].
    + destruct (split_aux [chr_nl] r 0) as [|h t].
      * constructor; [|constructor]. intros [H|[]].
        subst c. rewrite chr_eqb_refl in E. discriminate.
      * inversion IH as [|? ? Hh Ht]; subst. constructor; [|exact Ht].
        intros [H|H]; [|now apply Hh].
        subst c. rewrite chr_eqb_refl in E. discriminate.
Qed.

End Characters.

Section KeptLines.

Import RemoveInlineComments.

Lemma strip_line_comment_incl (line line' : str) (changed : bool) :
  strip_line_comment line = Done (line', changed) -> incl line' line.
Proof.
  unfold strip_line_comment.
  destruct (contains (py "//") line);
    [|intros H; injection H as <- _; apply incl_refl].
  destruct (scan_comment_index line) as [ci| |]; simpl; try discriminate.
  destruct (ci >=? 0)%Z;
    [|intros H; injection H as <- _; apply incl_refl].
  intros H. injection H as <- _.
  intros c Hc. apply rstrip_incl in Hc. unfold slice in Hc.
  apply firstn_incl_str in Hc.
  rewrite <- (firstn_skipn (Z.to_nat 0) line). apply in_or_app. now right.
Qed.

(** What one step does to the kept lines: a JSDoc branch keeps the line
    as it is; any other branch keeps nothing or one line made of
    characters of the line read, and a blank line only after a line
    that is not blank. *)
Lemma step_cases (st st' : state) (line : str) :
  step st line = Done st' ->
  (startswith (py "/**") (strip line) || in_jsdoc st = true
   /\ modified_lines st' = modified_lines st ++ [line])
  \/ (startswith (py "/**") (strip line) || in_jsdoc st = false
      /\ in_jsdoc st' = false
      /\ (modified_lines st' = modified_lines st
          \/ exists l, modified_lines st' = modified_lines st ++ [l]
               /\ incl l line
               /\ (nonblank l = true
                   \/ (modified_lines st <> []
                       /\ nonblank (last (modified_lines st) []) = true)))).
Proof.
  destruct st as [ml ch ij im]. unfold step.
  cbn [in_jsdoc in_multiline_comment modified_lines].
  destruct (startswith (py "/**") (strip line)) eqn:Hdoc.
  { intros H. injection H as <-. left. split; reflexivity. }
  destruct ij.
  { cbn [andb orb].
    destruct (endswith (py "*/") (strip line) || str_eqb (strip line) (py "*/"));
      intros H; injection H as <-; left; split; reflexivity. }
  cbn [andb orb negb]. rewrite andb_true_r.
  destruct (contains (py "/*") line).
  { destruct (block_comment_line line) as [line' still_open] eqn:Hb.
    assert (Hincl : incl line' line).
    { unfold block_comment_line in Hb.
      destruct (contains (py "*/") line); injection Hb as <- _.
      - apply incl_app; [apply first_part_incl | apply last_part_incl].
      - apply first_part_incl. }
    intros H. injection H as <-. right. split; [reflexivity|].
    destruct (nonblank line') eqn:Hn; (split; [reflexivity|]).
    - right. exists (rstrip line'). split; [reflexivity|]. split.
      + intros c Hc. apply Hincl. now apply rstrip_incl.
      + left. now rewrite nonblank_rstrip.
    - left. reflexivity. }
  destruct im.
  { destruct (contains (py "*/") line).
    - destruct (nonblank (last_part (split (py "*/") line))) eqn:Hn;
        intros H; injection H as <-; right; (split; [reflexivity|]);
        (split; [reflexivity|]).
      + right. eexists. split; [reflexivity|]. split.
        * intros c Hc. apply rstrip_incl in Hc. now apply last_part_incl in Hc.
        * left. now rewrite nonblank_rstrip.
      + left. reflexivity.
    - intros H. injection H as <-. right. split; [reflexivity|].
      split; [reflexivity|]. left. reflexivity. }
  destruct (strip_line_comment line) as [[line' changed]| |] eqn:Hs;
    cbn [bind]; try discriminate.
  apply strip_line_comment_incl in Hs.
  cbn [add_changes modified_lines].
  destruct (nonblank line' || _) eqn:Hk.
  - intros H. injection H as <-. right. split; [reflexivity|].
    split; [reflexivity|]. right. exists line'. split; [reflexivity|].
    split; [exact Hs|].
    apply orb_true_iff in Hk. destruct Hk as [Hk|Hk]; [now left|right].
    apply andb_true_iff in Hk. destruct Hk as [Hk Hlast].
    apply andb_true_iff in Hk. destruct Hk as [_ Hlen].
    split; [|exact Hlast]. apply Nat.ltb_lt in Hlen.
    intros ->. simpl in Hlen. lia.
  - destruct (nonblank line && negb (nonblank line'));
      intros H; injection H as <-; right; (split; [reflexivity|]);
      (split; [reflexivity|]); left; reflexivity.
Qed.

Lemma list_rev_cases {A : Type} (l : list A) :
  l = [] \/ exists l0 x, l = l0 ++ [x].
Proof.
  destruct l as [|a l]; [now left|]. right.
  destruct (@exists_last _ (a :: l)) as (l0 & x & E); [discriminate|].
  now exists l0, x.
Qed.

(** Appending a line keeps the property of blank pairs when the new
    line is not blank, or the line before it is not blank, or both
    carry the JSDoc tag. *)
Lemma append_pairs (ml : list str) (tg : list bool) (l : str) (t : bool) :
  blank_pairs_tagged ml tg ->
  length tg = length ml ->
  nonblank l = true
  \/ (ml <> [] /\ nonblank (last ml []) = true)
  \/ (t = true /\ last tg false = true) ->
  blank_pairs_tagged (ml ++ [l]) (tg ++ [t]).
Proof.
  intros Hinv Hlen Hnew k a b Ha Hb Ba Bb.
  destruct (Nat.lt_ge_cases (S k) (length ml)) as [Hlt|Hge].
  - rewrite nth_error_app1 in Ha by lia. rewrite nth_error_app1 in Hb by lia.
    destruct (Hinv k a b Ha Hb Ba Bb) as [T1 T2].
    rewrite !nth_error_app1 by lia. now split.
  - assert (Hk : S k = length ml).
    { assert (S k < length (ml ++ [l])) by (apply nth_error_Some; congruence).
      rewrite length_app in H. simpl in H. lia. }
    rewrite nth_error_app2 in Hb by lia.
    replace (S k - length ml) with 0 in Hb by lia. injection Hb as <-.
    destruct (list_rev_cases ml) as [->|(ml0 & x & ->)]; [discriminate|].
    rewrite length_app in Hk, Hlen. simpl in Hk, Hlen.
    assert (k = length ml0) as -> by lia.
    rewrite <- app_assoc in Ha. rewrite nth_error_app2 in Ha by lia.
    rewrite Nat.sub_diag in Ha. injection Ha as <-.
    rewrite last_last in Hnew.
    destruct Hnew as [Hn|[[_ Hn]|[-> Hn]]]; try congruence.
    destruct (list_rev_cases tg) as [->|(tg0 & y & ->)]; [simpl in Hlen; lia|].
    rewrite last_last in Hn. subst y.
    rewrite length_app in Hlen. simpl in Hlen.
    assert (Hl0 : length tg0 = length ml0) by lia. rewrite <- Hl0. split.
    + rewrite <- app_assoc. rewrite nth_error_app2 by lia.
      rewrite Nat.sub_diag. reflexivity.
    + rewrite nth_error_app2 by (rewrite length_app; simpl; lia).
      rewrite length_app. cbn [length].
      replace (S (length tg0) - (length tg0 + 1)) with 0 by lia. reflexivity.
Qed.

Lemma tstep_ok (ts ts' : tstate) (line : str) :
  tagged_ok ts -> no_nl line -> tstep ts line = Done ts' ->
  tagged_ok ts' /\ step (plain ts) line = Done (plain ts').
Proof.
  intros (Hlen & Hpairs & Hjs & Hnl) Hline. unfold tstep.
  destruct (step (plain ts) line) as [st'| |] eqn:Es; cbn [bind];
    try discriminate.
  destruct (step_cases _ _ Es) as [[Htag Hml]|(Htag & Hj' & Hml)];
    remember (startswith (py "/**") (strip line) || in_jsdoc (plain ts))
      as tag eqn:Htagdef;
    intros H; injection H as <-; (split; [|reflexivity]);
    unfold tagged_ok; cbn [plain tags].
  - rewrite Htag, Hml.
    assert (Hg : forall (l : str),
               length (modified_lines (plain ts) ++ [l])
               - length (modified_lines (plain ts)) = 1)
      by (intros l; rewrite length_app; simpl; lia).
    rewrite Hg. cbn [repeat]. split; [|split; [|split]].
    + rewrite !length_app. simpl. lia.
    + apply append_pairs; trivial.
      rewrite Htagdef in Htag.
      apply orb_true_iff in Htag. destruct Htag as [Hd|Hj].
      * left. unfold nonblank.
        apply (startswith_truthy (py "/**")); [reflexivity | exact Hd].
      * right. right. split; [reflexivity | now apply Hjs].
    + intros _. apply last_last.
    + apply Forall_app. split; [exact Hnl | now constructor].
  - rewrite Htag. destruct Hml as [Hml|(l & Hml & Hincl & Hnb)]; rewrite Hml.
    + rewrite Nat.sub_diag. cbn [repeat]. rewrite app_nil_r.
      split; [|split; [|split]]; trivial. rewrite Hj'. discriminate.
    + assert (Hg : length (modified_lines (plain ts) ++ [l])
                   - length (modified_lines (plain ts)) = 1)
        by (rewrite length_app; simpl; lia).
      rewrite Hg. cbn [repeat]. split; [|split; [|split]].
      * rewrite !length_app. simpl. lia.
      * apply append_pairs; trivial.
        destruct Hnb as [Hnb|Hnb]; [now left | right; now left].
      * rewrite Hj'. discriminate.
      * apply Forall_app. split; [exact Hnl|]. constructor; [|constructor].
        intros Hin. apply Hline. now apply Hincl.
Qed.

Lemma trun_ok (lines : list str) :
  forall ts, tagged_ok ts -> Forall no_nl lines ->
    exists ts', trun ts lines = Done ts' /\ tagged_ok ts'
                /\ run (plain ts) lines = Done (plain ts').
Proof.
  induction lines as [|line rest IH]; intros ts Hok Hnl; simpl.
  - exists ts. split; [reflexivity|]. split; [exact Hok | reflexivity].
  - inversion Hnl as [|? ? Hline Hrest]; subst.
    destruct (remove_step_done (plain ts) line) as (st1 & Es).
    assert (Et : tstep ts line
                 = Done (mk_tstate st1
                           (tags ts ++ repeat
                              (startswith (py "/**") (strip line)
                               || in_jsdoc (plain ts))
                              (length (modified_lines st1)
                               - length (modified_lines (plain ts)))))).
    { unfold tstep. rewrite Es. reflexivity. }
    destruct (tstep_ok Hok Hline Et) as [Hok1 _].
    rewrite Et, Es. cbn [bind].
    destruct (IH _ Hok1 Hrest) as (ts' & Hrun & Hok' & Hplain).
    exists ts'. split; [exact Hrun|]. split; [exact Hok' | exact Hplain].
Qed.

(** What is left after the trailing blank lines are popped. *)
Lemma pop_blank_rev_spec (rl : list str) :
  exists dropped, rl = dropped ++ pop_blank_rev rl
    /\ (pop_blank_rev rl = []
        \/ exists l r, pop_blank_rev rl = l :: r /\ nonblank l = true).
Proof.
  induction rl as [|l r IH]; simpl.
  - exists []. split; [reflexivity | now left].
  - destruct (nonblank l) eqn:E.
    + exists []. split; [reflexivity|]. right. now exists l, r.
    + destruct IH as (dropped & Hd & Hcase).
      exists (l :: dropped). split; [simpl; now rewrite <- Hd | exact Hcase].
Qed.

Lemma pop_trailing_blank_spec (ml : list str) :
  exists dropped, ml = pop_trailing_blank ml ++ dropped
    /\ (pop_trailing_blank ml = []
        \/ exists body l, pop_trailing_blank ml = body ++ [l]
                          /\ nonblank l = true).
Proof.
  unfold pop_trailing_blank.
  destruct (pop_blank_rev_spec (rev ml)) as (dropped & Hd & Hcase).
  exists (rev dropped). split.
  - rewrite <- rev_app_distr, <- Hd, rev_involutive. reflexivity.
  - destruct Hcase as [->|(l & r & -> & Hl)]; [now left|].
    right. exists (rev r), l. simpl. now split.
Qed.

(** The joined text of lines that end with an empty line ends with the
    separator after the line before. *)
Lemma join_trailing_empty (sep : str) (body : list str) (l : str) :
  exists text, join sep (body ++ [l; []]) = text ++ l ++ sep.
Proof.
  induction body as [|x body IH].
  - exists []. simpl. now rewrite app_nil_r.
  - destruct IH as (text & E).
    exists (x ++ sep ++ text).
    change ((x :: body) ++ [l; []]) with (x :: (body ++ [l; []])).
    assert (Hne : body ++ [l; []] <> []) by (destruct body; discriminate).
    destruct (body ++ [l; []]) as [|y rest] eqn:Eb; [congruence|].
    change (join sep (x :: y :: rest)) with (x ++ sep ++ join sep (y :: rest)).
    rewrite E. repeat rewrite <- app_assoc. reflexivity.
Qed.

End KeptLines.

(** X28: in the text that comment stripping computes, whether or not
    a comment was removed, two blank lines follow each other only
    where both were kept by the JSDoc branches of the loop, that is on
    a line that starts a doc comment or while the flag [in_jsdoc] was
    set; the flag stays set after a doc comment of one line, so such
    lines need not lie inside a doc comment.  The kept lines end with
    a line that is not blank followed by one empty line, and so a text
    that is not empty ends with exactly one line break. *)
Theorem stripped_text_is_normalized (content : str) :
  exists ts,
    RemoveInlineComments.trun RemoveInlineComments.tinit (splitlines content)
    = Done ts
    /\ RemoveInlineComments.run RemoveInlineComments.init (splitlines content)
       = Done (RemoveInlineComments.plain ts)
    /\ RemoveInlineComments.new_content content
       = Done (RemoveInlineComments.new_content_of (RemoveInlineComments.plain ts))
    /\ (forall text,
          RemoveInlineComments.written
            (RemoveInlineComments.remove_inline_comments content) = Some text ->
          text = RemoveInlineComments.new_content_of (RemoveInlineComments.plain ts))
    /\ length (RemoveInlineComments.tags ts)
       = length (RemoveInlineComments.modified_lines (RemoveInlineComments.plain ts))
    /\ (forall k a b,
          nth_error (RemoveInlineComments.final_lines
                       (RemoveInlineComments.modified_lines
                          (RemoveInlineComments.plain ts))) k = Some a ->
          nth_error (RemoveInlineComments.final_lines
                       (RemoveInlineComments.modified_lines
                          (RemoveInlineComments.plain ts))) (S k) = Some b ->
          nonblank a = false -> nonblank b = false ->
          nth_error (RemoveInlineComments.tags ts) k = Some true
          /\ nth_error (RemoveInlineComments.tags ts) (S k) = Some true)
    /\ (RemoveInlineComments.final_lines
          (RemoveInlineComments.modified_lines (RemoveInlineComments.plain ts))
        = []
        \/ exists body l,
             RemoveInlineComments.final_lines
               (RemoveInlineComments.modified_lines (RemoveInlineComments.plain ts))
             = body ++ [l; []]
             /\ nonblank l = true)
    /\ (RemoveInlineComments.new_content_of (RemoveInlineComments.plain ts) = []
        \/ exists text c,
             RemoveInlineComments.new_content_of (RemoveInlineComments.plain ts)
             = text ++ [c; chr_nl]
             /\ c <> chr_nl).
Proof.
  assert (Hinit : RemoveInlineComments.tagged_ok RemoveInlineComments.tinit).
  { split; [reflexivity|]. split; [|split; [discriminate | constructor]].
    intros k a b Ha. destruct k; discriminate. }
  destruct (trun_ok Hinit (splitlines_no_nl content))
    as (ts & Hrun & (Hlen & Hpairs & _ & Hnl) & Hplain).
  change (RemoveInlineComments.plain RemoveInlineComments.tinit)
    with RemoveInlineComments.init in Hplain.
  exists ts. split; [exact Hrun|]. split; [exact Hplain|].
  split.
  { unfold RemoveInlineComments.new_content. rewrite Hplain. reflexivity. }
  split.
  { intros text. unfold RemoveInlineComments.remove_inline_comments.
    rewrite Hplain.
    destruct (0 <? RemoveInlineComments.changes_made (RemoveInlineComments.plain ts));
      simpl; intros H; [injection H as <-; reflexivity | discriminate]. }
  split; [exact Hlen|].
  unfold RemoveInlineComments.new_content_of.
  set (ml := RemoveInlineComments.modified_lines (RemoveInlineComments.plain ts))
    in *.
  destruct (pop_trailing_blank_spec ml)
    as (dropped & Hd & [Hnil|(body & l & Hb & Hl)]).
  - assert (Hf : RemoveInlineComments.final_lines ml = []).
    { unfold RemoveInlineComments.final_lines. rewrite Hnil. reflexivity. }
    rewrite Hf. split; [|split; left; reflexivity].
    intros k a b Ha. destruct k; discriminate.
  - assert (Hf : RemoveInlineComments.final_lines ml = body ++ [l; []]).
    { unfold RemoveInlineComments.final_lines. rewrite Hb.
      destruct (body ++ [l]) eqn:E; [destruct body; discriminate|].
      rewrite <- E, <- app_assoc. reflexivity. }
    rewrite Hf. split; [|split].
    + intros k a b Ha Hbk Ba Bb.
      assert (Hk : S k < length (body ++ [l; []]))
        by (apply nth_error_Some; congruence).
      rewrite length_app in Hk. simpl in Hk.
      destruct (Nat.eq_dec k (length body)) as [->|Hne].
      * rewrite nth_error_app2 in Ha by lia. rewrite Nat.sub_diag in Ha.
        injection Ha as <-. congruence.
      * apply (Hpairs k a b); trivial; rewrite Hd, Hb.
        -- rewrite nth_error_app1 by (rewrite length_app; simpl; lia).
           rewrite nth_error_app1 by lia.
           rewrite nth_error_app1 in Ha by lia. exact Ha.
        -- rewrite nth_error_app1 by (rewrite length_app; simpl; lia).
           change (body ++ [l; []]) with (body ++ [l] ++ [[]]) in Hbk.
           rewrite app_assoc in Hbk.
           rewrite nth_error_app1 in Hbk by (rewrite length_app; simpl; lia).
           exact Hbk.
    + right. now exists body, l.
    + right. destruct (join_trailing_empty [chr_nl] body l) as (text & E).
      rewrite E.
      assert (Hin : In l ml).
      { rewrite Hd, Hb. apply in_or_app. left. apply in_or_app. right.
        now left. }
      rewrite Forall_forall in Hnl. specialize (Hnl l Hin).
      destruct (list_rev_cases l) as [->|(l0 & c & ->)];
        [vm_compute in Hl; discriminate|].
      exists (text ++ l0), c. split.
      * repeat rewrite <- app_assoc. reflexivity.
      * intros ->. apply Hnl. apply in_or_app. right. now left.
Qed.

(** C10, at the failing input: the doc comment of one line sets the
    flag [in_jsdoc] and nothing clears it, since the line that sets it
    is not looked at for the terminator and no later line ends with
    one; the statements and the two blank lines after it are kept by
    the JSDoc branch, and the text written has two blank lines between
    [x();] and [z();], outside any doc comment. *)
Theorem blank_pair_survives_after_one_line_doc :
  RemoveInlineComments.remove_inline_comments Inputs.blank_pair_after_doc
  = RemoveInlineComments.mk_result
      (Some (join [chr_nl]
               [py "a();"; py "/** doc */"; py "x();"; []; []; py "z();"; []]))
      1
  /\ exists st,
       RemoveInlineComments.run RemoveInlineComments.init
         (splitlines Inputs.blank_pair_after_doc) = Done st
       /\ RemoveInlineComments.in_jsdoc st = true.
Proof.
  split; [vm_compute; reflexivity|].
  eexists. split; [vm_compute; reflexivity | reflexivity].
Qed.

(** ** Scenarios *)

(** C9: for the one-line function of the scenario the scan yields
    exactly one span, on line 1, with one code line and the name foo;
    the declaration parser reads the parameter names a, b and the
    return type boolean. *)
Theorem scenario_one_line_function :
  AnalyzeMethodLength.analyze_with 0 Inputs.foo_line
  = Done [AnalyzeMethodLength.mk_method_info (py "foo") 1 1 1 1 Inputs.foo_line]
  /\ AnalyzeMethodLength.analyze_method_from_line [Inputs.foo_line] 0
     = Some (AnalyzeMethodLength.mk_method_info (py "foo") 1 1 1 1 Inputs.foo_line)
  /\ AddMissingJsdoc.parse_declaration Inputs.foo_line
     = Some (py "foo", [py "a"; py "b"], py "boolean").
Proof. repeat split; vm_compute; reflexivity. Qed.

(** C1, at the failing input: the block-comment opener at index 12 of
    [const s = 'a/*b';] lies inside the open string literal, yet the
    report lists the line as the start of a block comment, and comment
    stripping cuts the line at the opener and drops the statement on
    the next line. *)
Theorem block_opener_in_string_cuts_code :
  find_sub (py "/*") Inputs.marker_in_string = Some 12
  /\ in_string_at Inputs.marker_in_string 12 = true
  /\ ScanRemainingComments.find_inline_comments Inputs.marker_in_string
     = [ScanRemainingComments.mk_comment 1 ScanRemainingComments.multiline_start
          Inputs.marker_in_string None]
  /\ RemoveInlineComments.remove_inline_comments Inputs.marker_in_string_file
     = RemoveInlineComments.mk_result (Some (py "const s = 'a" ++ [chr_nl])) 2.
Proof. repeat split; vm_compute; reflexivity. Qed.

(** * Further properties of the scripts *)

(** ** The [//] scan *)

Section ScanComplete.

(** A scan that reports no comment has met no [//] outside a string. *)
Lemma scan_loop_none (fuel : nat) :
  forall (line : str) (n : nat) (in_s : bool) (q : option ascii),
    state_at line n = (in_s, q) ->
    scan_loop fuel line (Z.of_nat n) in_s q = Done (-1)%Z ->
    forall j, n <= j ->
      starts_line_comment line (Z.of_nat j) (in_string_at line j) = false.
Proof.
  induction fuel as [|fuel IH]; intros line n in_s q St Run j Hj;
    [discriminate|].
  simpl in Run. destruct (Z.of_nat n <? len line)%Z eqn:E.
  2:{ apply Z.ltb_ge in E. unfold starts_line_comment.
      replace (Z.of_nat j <? len line - 1)%Z with false
        by (symmetry; apply Z.ltb_ge; lia).
      now rewrite andb_false_r. }
  apply Z.ltb_lt in E. unfold len in E.
  destruct (nth_error line n) as [c|] eqn:N;
    [|apply nth_error_None in N; lia].
  rewrite (char_at_nth _ _ N) in Run. simpl in Run.
  assert (Next : forall in_s' q',
             string_step line n (in_s, q) = (in_s', q') ->
             starts_line_comment line (Z.of_nat n) in_s = false ->
             scan_loop fuel line (Z.of_nat n + 1) in_s' q' = Done (-1)%Z ->
             starts_line_comment line (Z.of_nat j) (in_string_at line j) = false).
  { intros in_s' q' Hstep Hno Hrun.
    replace (Z.of_nat n + 1)%Z with (Z.of_nat (S n)) in Hrun by lia.
    destruct (Nat.eq_dec j n) as [->|Hne].
    - unfold in_string_at. rewrite St. exact Hno.
    - apply (IH line (S n) in_s' q'); try assumption; try lia.
      simpl. rewrite St. exact Hstep. }
  destruct (negb in_s && is_quote c) eqn:B1.
  { apply (Next true (Some c)); try assumption.
    - unfold string_step. rewrite N, B1. reflexivity.
    - apply andb_true_iff in B1. destruct B1 as [_ Q].
      unfold starts_line_comment. rewrite slice_two.
      rewrite (quote_is_not_slash _ _ N Q). apply andb_false_r. }
  rewrite (closes_string_eq _ _ in_s q N) in Run. simpl in Run.
  destruct (in_s && is_quote_char c q && _) eqn:B2.
  { apply (Next false None); try assumption.
    - unfold string_step. rewrite N, B1, B2. reflexivity.
    - apply andb_true_iff in B2. destruct B2 as [B2 _].
      apply andb_true_iff in B2. destruct B2 as [-> _]. reflexivity. }
  destruct (starts_line_comment line (Z.of_nat n) in_s) eqn:B3.
  { injection Run as Run. lia. }
  apply (Next in_s q); [|reflexivity|assumption].
  unfold string_step. rewrite N, B1, B2. reflexivity.
Qed.

End ScanComplete.

(** X1: the scan of a line for [//] returns -1 on a line that holds no
    [//]; on a line where no quote character stands before the first
    [//] it returns the index of that first [//]; and an index it
    returns is always one at which [//] stands. *)
Theorem scan_finds_first_marker_before_quotes (line : str) :
  (find_sub (py "//") line = None -> scan_comment_index line = Done (-1)%Z)
  /\ (forall k, find_sub (py "//") line = Some k ->
                existsb is_quote (firstn k line) = false ->
                scan_comment_index line = Done (Z.of_nat k))
  /\ (forall ci, scan_comment_index line = Done ci -> (0 <= ci)%Z ->
                 firstn 2 (skipn (Z.to_nat ci) line) = py "//").
Proof.
  split; [|split].
  - intros Hnone.
    destruct (scan_comment_index_total line) as (ci & Run & [->|Hci]);
      [exact Run|].
    destruct (scan_comment_index_first line Run) as (m & -> & Hm & _);
      [lia|].
    assert (Hc : contains (py "//") line = true).
    { apply (contains_at _ _ m). apply startswith_firstn. exact Hm. }
    unfold contains in Hc. rewrite Hnone in Hc. discriminate.
  - intros k Hk Hq.
    destruct (@find_sub_first (py "//") line k Hk) as [Hat Hfirst].
    pose proof (@state_before_quotes line k Hq k (Nat.le_refl k)) as St.
    apply startswith_is_firstn in Hat. change (length (py "//")) with 2 in Hat.
    destruct (scan_comment_index_total line) as (ci & Run & [->|Hci]).
    + exfalso. unfold scan_comment_index in Run.
      pose proof (@scan_loop_none _ line 0 false None eq_refl Run k
                    (Nat.le_0_l k)) as Hno.
      apply starts_line_comment_false in Hno; [|exact Hat].
      unfold in_string_at in Hno. rewrite St in Hno. discriminate.
    + destruct (scan_comment_index_first line Run)
        as (m & -> & Hm & _ & Hbefore); [lia|].
      rewrite Run. f_equal. f_equal.
      destruct (Nat.lt_trichotomy m k) as [Hlt|[->|Hgt]]; [|reflexivity|].
      * pose proof (Hfirst m Hlt) as F.
        assert (T : startswith (py "//") (skipn m line) = true)
          by (apply startswith_firstn; exact Hm).
        congruence.
      * pose proof (Hbefore k Hgt Hat) as F. unfold in_string_at in F.
        rewrite St in F. discriminate.
  - intros ci Run Hci.
    destruct (scan_comment_index_first line Run Hci) as (m & -> & Hm & _).
    rewrite Nat2Z.id. exact Hm.
Qed.

(** A comment with an apostrophe in it, after a statement. *)
Lemma scan_finds_first_marker_before_quotes_witness :
  scan_comment_index (py "x = 1; // it's") = Done (Z.of_nat 7).
Proof.
  exact (proj1 (proj2 (@scan_finds_first_marker_before_quotes
                         (py "x = 1; // it's"))) 7 eq_refl eq_refl).
Defined.

(** ** Comment stripping *)

Section StrippingFacts.

Import RemoveInlineComments.

Lemma startswith_app (p s t : str) :
  startswith p s = true -> startswith p (s ++ t) = true.
Proof.
  revert s. induction p as [|x p IH]; intros s; [reflexivity|].
  destruct s as [|y s]; cbn [startswith app]; [discriminate|].
  intros H. apply andb_true_iff in H. destruct H as [H1 H2].
  rewrite H1. simpl. now apply IH.
Qed.

Lemma startswith_shorter (p q s : str) :
  startswith (p ++ q) s = true -> startswith p s = true.
Proof.
  revert s. induction p as [|x p IH]; intros s; [reflexivity|].
  destruct s as [|y s]; cbn [startswith app]; [discriminate|].
  intros H. apply andb_true_iff in H. destruct H as [H1 H2].
  rewrite H1. simpl. now apply IH.
Qed.

(** What the trimmed line starts with occurs in the line. *)
Lemma strip_prefix_contains (p line : str) :
  startswith p (strip line) = true -> contains p line = true.
Proof.
  intros H. destruct (strip_cut line) as (w1 & w2 & _ & _ & E).
  apply (contains_at p line (length w1)).
  rewrite E at 1. rewrite skipn_app, skipn_all, Nat.sub_diag. simpl.
  now apply startswith_app.
Qed.

Lemma no_opener_no_jsdoc_start (line : str) :
  contains (py "/*") line = false ->
  startswith (py "/**") (strip line) = false.
Proof.
  intros H. destruct (startswith (py "/**") (strip line)) eqn:E;
    [|reflexivity].
  change (py "/**") with (py "/*" ++ py "*") in E.
  apply startswith_shorter in E. apply strip_prefix_contains in E. congruence.
Qed.

(** A line without comment markers, read outside any comment, changes
    neither the count of changes nor the comment state. *)
Lemma step_without_markers (st : state) (line : str) :
  in_jsdoc st = false -> in_multiline_comment st = false ->
  contains (py "/*") line = false -> contains (py "//") line = false ->
  exists st', step st line = Done st'
    /\ changes_made st' = changes_made st
    /\ in_jsdoc st' = false /\ in_multiline_comment st' = false.
Proof.
  destruct st as [ml ch ij im]. cbn [in_jsdoc in_multiline_comment changes_made].
  intros -> -> Hb Hs. unfold step, strip_line_comment.
  rewrite (no_opener_no_jsdoc_start _ Hb), Hb, Hs.
  cbn [in_jsdoc in_multiline_comment andb bind bump add_changes
       modified_lines changes_made].
  destruct (nonblank line) eqn:Hn; cbn [orb negb andb].
  - eexists. split; [reflexivity|]. cbn. repeat split. lia.
  - destruct ((0 <? length ml) && nonblank (last ml [])); cbn [andb].
    + eexists. split; [reflexivity|]. cbn. repeat split. lia.
    + eexists. split; [reflexivity|]. cbn. repeat split. lia.
Qed.

Lemma run_without_markers (lines : list str) :
  forall st,
    in_jsdoc st = false -> in_multiline_comment st = false ->
    Forall (fun line => contains (py "/*") line = false
                        /\ contains (py "//") line = false) lines ->
    exists st', run st lines = Done st' /\ changes_made st' = changes_made st.
Proof.
  induction lines as [|line rest IH]; intros st Hj Hm Hall; simpl.
  - eexists. split; reflexivity.
  - inversion Hall as [|? ? [Hb Hs] Hrest]; subst.
    destruct (step_without_markers st line Hj Hm Hb Hs)
      as (st1 & -> & Hc & Hj1 & Hm1).
    simpl. destruct (IH st1 Hj1 Hm1 Hrest) as (st' & -> & Hc').
    eexists. split; [reflexivity | congruence].
Qed.

(** The lines of a JSDoc block that is open are kept as they are, up
    to the line that ends it. *)
Lemma run_inside_jsdoc (body : list str) :
  forall st rest,
    in_jsdoc st = true ->
    Forall (fun l => endswith (py "*/") (strip l) = false) body ->
    run st (body ++ rest)
    = run (mk_state (modified_lines st ++ body) (changes_made st) true
             (in_multiline_comment st)) rest.
Proof.
  induction body as [|l body IH]; intros st rest Hj Hall.
  - simpl. rewrite app_nil_r. destruct st; simpl in *. now subst.
  - inversion Hall as [|? ? Hl Hbody]; subst.
    cbn [app run].
    assert (Hstep : step st l
                    = Done (mk_state (modified_lines st ++ [l]) (changes_made st)
                              true (in_multiline_comment st))).
    { unfold step. destruct (startswith (py "/**") (strip l)); [reflexivity|].
      rewrite Hj, Hl. cbn [andb orb].
      destruct (str_eqb (strip l) (py "*/")) eqn:Eq.
      - apply str_eqb_eq in Eq. rewrite Eq in Hl. discriminate.
      - destruct st; simpl in *. now subst. }
    rewrite Hstep. cbn [bind]. rewrite IH by (trivial; reflexivity).
    cbn [modified_lines changes_made in_multiline_comment].
    now rewrite <- app_assoc.
Qed.

End StrippingFacts.

(** X2: a file in which no line holds [/*] or [//] is never rewritten
    by comment stripping, whatever blank lines it has: no change is
    counted, nothing is written and 0 is returned. *)
Theorem file_without_markers_is_not_rewritten (content : str) :
  Forall (fun line => contains (py "/*") line = false
                      /\ contains (py "//") line = false)
         (splitlines content) ->
  RemoveInlineComments.remove_inline_comments content
  = RemoveInlineComments.mk_result None 0.
Proof.
  intros Hall. unfold RemoveInlineComments.remove_inline_comments.
  destruct (run_without_markers RemoveInlineComments.init eq_refl eq_refl Hall)
    as (st & -> & Hc).
  rewrite Hc. reflexivity.
Qed.

(** Two statements with three blank lines between them. *)
Lemma file_without_markers_is_not_rewritten_witness :
  RemoveInlineComments.remove_inline_comments
    (py "a();" ++ [chr_nl; chr_nl; chr_nl; chr_nl] ++ py "b();")
  = RemoveInlineComments.mk_result None 0.
Proof.
  apply file_without_markers_is_not_rewritten.
  repeat constructor.
Defined.

(** X3: after a line whose trimmed text starts with the opener of a
    doc comment, comment stripping appends every line unchanged and
    counts no change, up to and including the first later line whose
    trimmed text ends with the terminator; that line clears the flag
    [in_jsdoc], unless it starts with the opener itself.  The line
    with the opener is not looked at for the terminator, so after a
    doc comment of one line the lines kept this way are code and
    comments alike. *)
Theorem jsdoc_block_is_kept_verbatim
    (st : RemoveInlineComments.state) (opening : str) (body : list str)
    (closing : str) (rest : list str) :
  startswith (py "/**") (strip opening) = true ->
  Forall (fun l => endswith (py "*/") (strip l) = false) body ->
  endswith (py "*/") (strip closing) = true ->
  RemoveInlineComments.run st (opening :: body ++ closing :: rest)
  = RemoveInlineComments.run
      (RemoveInlineComments.mk_state
         (RemoveInlineComments.modified_lines st ++ opening :: body ++ [closing])
         (RemoveInlineComments.changes_made st)
         (startswith (py "/**") (strip closing))
         (RemoveInlineComments.in_multiline_comment st))
      rest.
Proof.
  intros Ho Hbody Hc2.
  cbn [RemoveInlineComments.run].
  assert (H1 : RemoveInlineComments.step st opening
               = Done (RemoveInlineComments.mk_state
                         (RemoveInlineComments.modified_lines st ++ [opening])
                         (RemoveInlineComments.changes_made st) true
                         (RemoveInlineComments.in_multiline_comment st))).
  { unfold RemoveInlineComments.step. rewrite Ho. reflexivity. }
  rewrite H1. cbn [bind].
  rewrite run_inside_jsdoc by (trivial; reflexivity).
  cbn [RemoveInlineComments.run RemoveInlineComments.modified_lines
       RemoveInlineComments.changes_made
       RemoveInlineComments.in_multiline_comment].
  assert (H2 : forall ml ch im,
             RemoveInlineComments.step
               (RemoveInlineComments.mk_state ml ch true im) closing
             = Done (RemoveInlineComments.mk_state (ml ++ [closing]) ch
                       (startswith (py "/**") (strip closing)) im)).
  { intros ml ch im. unfold RemoveInlineComments.step.
    destruct (startswith (py "/**") (strip closing)); [reflexivity|].
    cbn [RemoveInlineComments.in_jsdoc]. rewrite Hc2. reflexivity. }
  rewrite H2. cbn [bind]. repeat rewrite <- app_assoc. reflexivity.
Qed.

(** A doc comment of one line, a statement with a line comment, which
    stays, and a block comment of one line, which ends the run. *)
Lemma jsdoc_block_is_kept_verbatim_witness :
  RemoveInlineComments.run RemoveInlineComments.init
    (py "/** doc */" :: [py "x(); // y"] ++ py "/* z */" :: [py "w(); // v"])
  = RemoveInlineComments.run
      (RemoveInlineComments.mk_state
         ([] ++ py "/** doc */" :: [py "x(); // y"] ++ [py "/* z */"]) 0
         (startswith (py "/**") (strip (py "/* z */"))) false)
      [py "w(); // v"].
Proof.
  apply (@jsdoc_block_is_kept_verbatim RemoveInlineComments.init
           (py "/** doc */") [py "x(); // y"] (py "/* z */") [py "w(); // v"]).
  - reflexivity.
  - repeat constructor.
  - reflexivity.
Defined.

(** ** The comment report *)

Section ReportOrder.

Import ScanRemainingComments Reports.

Lemma in_line_order_snoc (l : list comment) (c : comment) (i : nat) :
  in_line_order l ->
  (forall x, In x l -> line_no x <= i) ->
  line_no c = i + 1 ->
  in_line_order (l ++ [c]).
Proof.
  intros Hord Hle Hc p q a b Hpq Ha Hb.
  assert (Hq : q < length (l ++ [c])) by (apply nth_error_Some; congruence).
  rewrite length_app in Hq. simpl in Hq.
  rewrite nth_error_app1 in Ha by lia.
  destruct (Nat.eq_dec q (length l)) as [->|Hne].
  - rewrite nth_error_app2 in Hb by lia. rewrite Nat.sub_diag in Hb.
    injection Hb as <-. apply nth_error_In in Ha. apply Hle in Ha. lia.
  - rewrite nth_error_app1 in Hb by lia. exact (Hord p q a b Hpq Ha Hb).
Qed.

Lemma run_line_order (rest : list str) :
  forall st i st',
    run st i rest = Done st' ->
    (forall x, In x (inline_comments st) -> 1 <= line_no x <= i) ->
    in_line_order (inline_comments st) ->
    (forall x, In x (inline_comments st') -> 1 <= line_no x <= i + length rest)
    /\ in_line_order (inline_comments st').
Proof.
  induction rest as [|line rest IH]; intros st i st' Run Hrange Hord.
  - simpl in Run. injection Run as <-. split; [|exact Hord].
    intros x Hx. apply Hrange in Hx. simpl. lia.
  - simpl in Run.
    destruct (step st i line) as [st1| |] eqn:Es; try discriminate.
    simpl in Run.
    assert (H1 : (forall x, In x (inline_comments st1) -> 1 <= line_no x <= S i)
                 /\ in_line_order (inline_comments st1)).
    { destruct (step_entries _ _ _ Es) as [E|(c & E & Hno & _)]; rewrite E.
      - split; [|exact Hord]. intros x Hx. apply Hrange in Hx. lia.
      - split.
        + intros x Hx. apply in_app_or in Hx. destruct Hx as [Hx|[<-|[]]].
          * apply Hrange in Hx. lia.
          * lia.
        + apply in_line_order_snoc with (i := i); trivial.
          intros x Hx. apply Hrange in Hx. lia. }
    destruct H1 as [Hr1 Ho1].
    destruct (IH st1 (S i) st' Run Hr1 Ho1) as [Hr Ho].
    split; [|exact Ho]. intros x Hx. apply Hr in Hx. simpl. lia.
Qed.

End ReportOrder.

(** X4: the comment report lists its entries in line order: every
    entry carries the number of a line of the file, and an entry
    further down the list carries a larger number, so that no line is
    reported twice. *)
Theorem reported_comments_in_line_order (content : str) :
  (forall c, In c (ScanRemainingComments.find_inline_comments content) ->
             1 <= ScanRemainingComments.line_no c <= length (splitlines content))
  /\ Reports.in_line_order (ScanRemainingComments.find_inline_comments content).
Proof.
  unfold ScanRemainingComments.find_inline_comments.
  destruct (ScanRemainingComments.run ScanRemainingComments.init 0
              (splitlines content)) as [st| |] eqn:Run.
  - apply (run_line_order _ _ Run).
    + intros x [].
    + intros p q a b _ Ha. destruct p; discriminate.
  - split; [intros c [] | intros p q a b _ Ha; destruct p; discriminate].
  - split; [intros c [] | intros p q a b _ Ha; destruct p; discriminate].
Qed.

(** ** Spans *)

Section SpanCounts.

Import AnalyzeMethodLength.

Lemma is_code_line_counts (ms : bool) (line : str) :
  is_code_line ms (strip line) = true ->
  AnalyzeLongMethodsText.counts_as_code line = true.
Proof.
  unfold is_code_line, AnalyzeLongMethodsText.counts_as_code.
  destruct ms; [|discriminate]. cbn [andb].
  destruct (truthy (strip line)); [|discriminate].
  destruct (startswith (py "//") (strip line)); [discriminate|].
  destruct (startswith (py "*") (strip line)); [discriminate|].
  destruct (startswith (py "/*") (strip line)); [discriminate|].
  reflexivity.
Qed.

(** The counters of the loop: every line read adds one to the total,
    and at most one to the code lines, and that only for a line that
    [count_method_lines] counts too. *)
Lemma span_loop_counts (rest : list str) :
  forall i bc ms c t e t' c',
    span_loop rest i bc ms c t = Some (e, t', c') ->
    t' = t + (e - i) /\ c <= c' /\ c' <= c + (e - i)
    /\ c' <= c + AnalyzeLongMethodsText.count_code_lines (firstn (e - i) rest).
Proof.
  induction rest as [|line rest IH]; intros i bc ms c t e t' c' H;
    [discriminate|].
  cbn [span_loop] in H.
  set (ms1 := if (open_braces line >? 0)%Z then true else ms) in *.
  destruct (is_code_line ms1 (strip line)) eqn:Hc.
  - apply is_code_line_counts in Hc.
    destruct (ms1 && _).
    + injection H as <- <- <-.
      replace (i + 1 - i) with 1 by lia.
      unfold AnalyzeLongMethodsText.count_code_lines. cbn [firstn filter].
      rewrite Hc. simpl. lia.
    + pose proof (span_loop_bounds _ _ _ _ _ _ H) as Hb.
      apply IH in H. destruct H as (-> & H1 & H2 & H3).
      replace (e - i) with (S (e - (i + 1))) by lia.
      unfold AnalyzeLongMethodsText.count_code_lines in *.
      cbn [firstn filter]. rewrite Hc. simpl length. lia.
  - destruct (ms1 && _).
    + injection H as <- <- <-. lia.
    + pose proof (span_loop_bounds _ _ _ _ _ _ H) as Hb.
      apply IH in H. destruct H as (-> & H1 & H2 & H3).
      replace (e - i) with (S (e - (i + 1))) by lia.
      unfold AnalyzeLongMethodsText.count_code_lines in *.
      cbn [firstn filter].
      destruct (AnalyzeLongMethodsText.counts_as_code line); simpl length; lia.
Qed.

Lemma analyze_method_from_line_inv (lines : list str) (start : nat)
    (info : method_info) :
  analyze_method_from_line lines start = Some info ->
  exists l name e t c,
    nth_error lines start = Some l
    /\ extract_method_name (strip l) = Some name
    /\ span_loop (skipn start lines) start 0 false 0 0 = Some (e, t, c)
    /\ info = mk_method_info name (start + 1) e t c (strip l).
Proof.
  unfold analyze_method_from_line.
  destruct (nth_error lines start) as [l|]; [|discriminate].
  destruct (extract_method_name (strip l)) as [name|] eqn:En; [|discriminate].
  destruct (truthy name); [|discriminate].
  destruct (span_loop (skipn start lines) start 0 false 0 0)
    as [[[e t] c]|] eqn:Sp; [|discriminate].
  intros H. injection H as <-. exists l, name, e, t, c.
  repeat split; assumption.
Qed.

End SpanCounts.

(** X5: the numbers of a span agree with each other: it starts on the
    declaration's line and ends on that line or a later line of the
    file, its total is the number of lines from start to end, its code
    lines are no more than its total, its declaration is the trimmed
    declaration line and its name is not empty. *)
Theorem span_numbers_are_consistent
    (lines : list str) (start : nat) (info : AnalyzeMethodLength.method_info) :
  AnalyzeMethodLength.analyze_method_from_line lines start = Some info ->
  AnalyzeMethodLength.start_line info = start + 1
  /\ AnalyzeMethodLength.start_line info <= AnalyzeMethodLength.end_line info
  /\ AnalyzeMethodLength.end_line info <= length lines
  /\ AnalyzeMethodLength.total_lines info
     = AnalyzeMethodLength.end_line info - AnalyzeMethodLength.start_line info + 1
  /\ AnalyzeMethodLength.code_lines info <= AnalyzeMethodLength.total_lines info
  /\ AnalyzeMethodLength.declaration info = strip (nth start lines [])
  /\ AnalyzeMethodLength.method_name info <> [].
Proof.
  intros H. pose proof (analyze_method_from_line_end _ _ H) as [Hb Hs].
  destruct (analyze_method_from_line_inv _ _ H)
    as (l & name & e & t & c & Hl & Hn & Sp & ->).
  apply span_loop_counts in Sp. destruct Sp as (Ht & _ & Hc & _).
  cbn in *. repeat split; try lia.
  - now rewrite (@nth_error_nth str lines start l [] Hl).
  - apply extract_method_name_truthy in Hn. intros ->. discriminate.
Qed.

(** The method with an [if] block inside. *)
Lemma span_numbers_are_consistent_witness :
  1 = 0 + 1 /\ 1 <= 5 /\ 5 <= length Inputs.nested_if /\ 5 = 5 - 1 + 1
  /\ 3 <= 5
  /\ py "foo(): void {" = strip (nth 0 Inputs.nested_if [])
  /\ py "foo" <> [].
Proof.
  exact (@span_numbers_are_consistent Inputs.nested_if 0
           (AnalyzeMethodLength.mk_method_info (py "foo") 1 5 5 3
              (py "foo(): void {")) eq_refl).
Defined.

(** X6: the end line of a span that is returned is the first line,
    from the declaration's line on, at whose end the close test of the
    loop holds: a brace has opened and the depth is at 0 or below. *)
Theorem returned_end_line_is_first_close
    (lines : list str) (start : nat) (info : AnalyzeMethodLength.method_info) :
  AnalyzeMethodLength.analyze_method_from_line lines start = Some info ->
  AnalyzeMethodLength.closes_at lines start
    (AnalyzeMethodLength.end_line info - 1) = true
  /\ forall j, start <= j < AnalyzeMethodLength.end_line info - 1 ->
               AnalyzeMethodLength.closes_at lines start j = false.
Proof.
  intros H.
  destruct (analyze_method_from_line_inv _ _ H)
    as (l & name & e & t & c & Hl & Hn & Sp & ->).
  apply span_loop_returns_first in Sp.
  destruct Sp as (k & -> & Hk & Hc & Hfirst). cbn.
  replace (start + k + 1 - 1) with (start + k) by lia. split.
  - rewrite closes_at_offset. exact Hc.
  - intros j Hj. replace j with (start + (j - start)) by lia.
    rewrite closes_at_offset. apply Hfirst. lia.
Qed.

(** The method with an [if] block inside: line 5 closes, lines 1 to 4
    do not. *)
Lemma returned_end_line_is_first_close_witness :
  AnalyzeMethodLength.closes_at Inputs.nested_if 0 (5 - 1) = true
  /\ forall j, 0 <= j < 5 - 1 ->
               AnalyzeMethodLength.closes_at Inputs.nested_if 0 j = false.
Proof.
  exact (@returned_end_line_is_first_close Inputs.nested_if 0
           (AnalyzeMethodLength.mk_method_info (py "foo") 1 5 5 3
              (py "foo(): void {")) eq_refl).
Defined.

(** X8: on the lines of a span the simple analysis never counts more
    code lines than [count_method_lines] of analyze_long_methods.py
    counts on the same lines. *)
Theorem simple_count_is_below_long_count
    (lines : list str) (start : nat) (info : AnalyzeMethodLength.method_info) :
  AnalyzeMethodLength.analyze_method_from_line lines start = Some info ->
  AnalyzeMethodLength.code_lines info
  <= AnalyzeLongMethodsText.count_code_lines
       (AnalyzeMethodLength.lines_between lines start
          (AnalyzeMethodLength.end_line info - 1)).
Proof.
  intros H. pose proof (analyze_method_from_line_end _ _ H) as [Hb _].
  destruct (analyze_method_from_line_inv _ _ H)
    as (l & name & e & t & c & Hl & Hn & Sp & ->).
  apply span_loop_counts in Sp. destruct Sp as (_ & _ & _ & Hc).
  cbn in *. unfold AnalyzeMethodLength.lines_between.
  replace (e - 1 + 1 - start) with (e - start) by lia. exact Hc.
Qed.

(** The method with an [if] block inside: 3 code lines against 5. *)
Lemma simple_count_is_below_long_count_witness :
  3 <= AnalyzeLongMethodsText.count_code_lines
         (AnalyzeMethodLength.lines_between Inputs.nested_if 0 (5 - 1)).
Proof.
  exact (@simple_count_is_below_long_count Inputs.nested_if 0
           (AnalyzeMethodLength.mk_method_info (py "foo") 1 5 5 3
              (py "foo(): void {")) eq_refl).
Defined.

Section SpanOrder.

Import AnalyzeMethodLength Spans.

Lemma ordered_spans_weaken (l : list method_info) :
  forall from from', from <= from' -> ordered_spans from' l -> ordered_spans from l.
Proof.
  destruct l as [|m r]; intros from from' Hle; simpl; [trivial|].
  intros (H1 & H2 & H3). repeat split; trivial. lia.
Qed.

Lemma analyze_loop_ordered (limit fuel : nat) :
  forall lines i acc r,
    analyze_loop limit fuel lines i acc = Done r ->
    exists new, r = acc ++ new
      /\ ordered_spans i new
      /\ Forall (fun m => limit < code_lines m /\ end_line m <= length lines) new.
Proof.
  induction fuel as [|fuel IH]; intros lines i acc r H; [discriminate|].
  cbn [analyze_loop] in H.
  destruct (i <? length lines).
  2:{ injection H as <-. exists []. rewrite app_nil_r.
      repeat split; constructor. }
  destruct (nth_error lines i) as [line|]; [|discriminate].
  assert (Hnext : analyze_loop limit fuel lines (i + 1) acc = Done r ->
                  exists new, r = acc ++ new
                    /\ ordered_spans i new
                    /\ Forall (fun m => limit < code_lines m
                                        /\ end_line m <= length lines) new).
  { intros H'. destruct (IH _ _ _ _ H') as (new & -> & Ho & Hf).
    exists new. repeat split; trivial.
    apply ordered_spans_weaken with (from' := i + 1); [lia | exact Ho]. }
  destruct (skip_line (strip line)); [now apply Hnext|].
  destruct (is_method_declaration (strip line) lines i); [|now apply Hnext].
  destruct (analyze_method_from_line lines i) as [info|] eqn:A;
    [|now apply Hnext].
  pose proof (analyze_method_from_line_end _ _ A) as [Hb Hs].
  destruct (limit <? code_lines info) eqn:L.
  - destruct (IH _ _ _ _ H) as (new & -> & Ho & Hf).
    exists (info :: new). rewrite <- app_assoc. split; [reflexivity|]. split.
    + simpl. repeat split; trivial; lia.
    + constructor; [|exact Hf]. apply Nat.ltb_lt in L. split; [exact L | lia].
  - destruct (IH _ _ _ _ H) as (new & -> & Ho & Hf).
    exists new. repeat split; trivial.
    apply ordered_spans_weaken with (from' := end_line info); [lia | exact Ho].
Qed.

End SpanOrder.

(** X7: the long methods that the analysis of a file returns are in
    file order and do not overlap: each one starts after the one
    before it has ended; each one has more than 14 code lines and ends
    within the file. *)
Theorem long_methods_in_file_order (content : str) :
  Spans.ordered_spans 0 (AnalyzeMethodLength.analyze_method_length content)
  /\ Forall (fun m => 14 < AnalyzeMethodLength.code_lines m
                      /\ AnalyzeMethodLength.end_line m
                         <= length (splitlines content))
            (AnalyzeMethodLength.analyze_method_length content).
Proof.
  unfold AnalyzeMethodLength.analyze_method_length,
    AnalyzeMethodLength.analyze_with, AnalyzeMethodLength.analyze_from.
  destruct (AnalyzeMethodLength.analyze_loop 14 _ (splitlines content) 0 [])
    as [r| |] eqn:H; try (split; [exact I | constructor]).
  destruct (analyze_loop_ordered _ _ _ _ _ H) as (new & -> & Ho & Hf).
  split; assumption.
Qed.

(** ** Bracket matching *)

Section Brackets.

Import AnalyzeLongMethods.

(** Where the loop stops, a closing brace brings the count to 0 after
    an opening brace has been seen. *)
Lemma match_brackets_stop (rest : str) :
  forall i bc im start e,
    start <= i ->
    match_brackets rest i bc im start = e ->
    start < e ->
    exists k, e = i + k + 1 /\ k < length rest
      /\ nth_error rest k = Some chr_rbrace
      /\ (bc + count chr_lbrace (firstn (k + 1) rest)
          - count chr_rbrace (firstn (k + 1) rest) = 0)%Z
      /\ (im = true \/ (0 < count chr_lbrace (firstn (k + 1) rest))%Z).
Proof.
  induction rest as [|c rest IH]; intros i bc im start e Hi H He.
  - simpl in H. lia.
  - cbn [match_brackets] in H.
    assert (Step : forall bc' im',
               match_brackets rest (i + 1) bc' im' start = e ->
               (bc' = bc + (if chr_eqb c chr_lbrace then 1 else 0)
                      - (if chr_eqb c chr_rbrace then 1 else 0))%Z ->
               (im' = true -> im = true \/ chr_eqb c chr_lbrace = true) ->
               exists k, e = i + k + 1 /\ k < length (c :: rest)
                 /\ nth_error (c :: rest) k = Some chr_rbrace
                 /\ (bc + count chr_lbrace (firstn (k + 1) (c :: rest))
                     - count chr_rbrace (firstn (k + 1) (c :: rest)) = 0)%Z
                 /\ (im = true
                     \/ (0 < count chr_lbrace (firstn (k + 1) (c :: rest)))%Z)).
    { intros bc' im' H' Hbc Him.
      destruct (IH (i + 1) bc' im' start e) as (k & -> & Hk & Hn & Hz & Ho);
        try assumption; try lia.
      exists (S k). split; [lia|]. split; [simpl; lia|]. split; [exact Hn|].
      change (firstn (S k + 1) (c :: rest)) with (c :: firstn (k + 1) rest).
      cbn [count]. pose proof (count_nonneg chr_lbrace (firstn (k + 1) rest)).
      split; [lia|].
      destruct Ho as [Ho|Ho].
      - destruct (Him Ho) as [Hi1 | Hi1]; [now left | right; rewrite Hi1; lia].
      - right. destruct (chr_eqb c chr_lbrace); lia. }
    destruct (chr_eqb c chr_lbrace) eqn:E1.
    + assert (E2 : chr_eqb c chr_rbrace = false).
      { apply chr_eqb_eq in E1. subst c. reflexivity. }
      apply (Step (bc + 1)%Z true); trivial; [rewrite E2; lia | now right].
    + destruct (chr_eqb c chr_rbrace) eqn:E2.
      * destruct ((bc - 1 =? 0)%Z && im) eqn:B.
        -- apply andb_true_iff in B. destruct B as [B ->].
           apply Z.eqb_eq in B. apply chr_eqb_eq in E2. subst c e.
           exists 0. split; [lia|]. split; [simpl; lia|].
           split; [reflexivity|].
           change (firstn (0 + 1) (chr_rbrace :: rest)) with [chr_rbrace].
           cbn [count]. rewrite E1, chr_eqb_refl. split; [lia | now left].
        -- apply (Step (bc - 1)%Z im); trivial; [lia | now left].
      * apply (Step bc im); trivial; [lia | now left].
Qed.

End Brackets.

(** X9: when the bracket matching of analyze_long_methods.py finds an
    end for a match, the end lies within the text, the character
    before it is a closing brace, and the text from the start of the
    match to the end holds at least one opening brace and as many
    closing braces as opening ones. *)
Theorem matched_text_is_balanced (content : str) (method_start : nat) :
  method_start < AnalyzeLongMethods.method_end content method_start ->
  AnalyzeLongMethods.method_end content method_start <= length content
  /\ nth_error content (AnalyzeLongMethods.method_end content method_start - 1)
     = Some chr_rbrace
  /\ (0 < count chr_lbrace
            (AnalyzeLongMethodsText.method_text content method_start
               (AnalyzeLongMethods.method_end content method_start)))%Z
  /\ count chr_lbrace
       (AnalyzeLongMethodsText.method_text content method_start
          (AnalyzeLongMethods.method_end content method_start))
     = count chr_rbrace
         (AnalyzeLongMethodsText.method_text content method_start
            (AnalyzeLongMethods.method_end content method_start)).
Proof.
  intros He. unfold AnalyzeLongMethods.method_end in *.
  destruct (@match_brackets_stop (skipn method_start content) method_start
              0%Z false method_start _ (le_n _) eq_refl He)
    as (k & E & Hk & Hn & Hz & Ho).
  rewrite E. rewrite length_skipn in Hk.
  unfold AnalyzeLongMethodsText.method_text.
  replace (method_start + k + 1 - method_start) with (k + 1) by lia.
  split; [lia|]. split.
  - rewrite nth_error_skipn in Hn.
    replace (method_start + k + 1 - 1) with (method_start + k) by lia.
    exact Hn.
  - destruct Ho as [Ho|Ho]; [discriminate|]. split; [exact Ho | lia].
Qed.

(** A function whose body holds a block. *)
Lemma matched_text_is_balanced_witness :
  AnalyzeLongMethods.method_end (py "function f() { if (x) { y(); } } z();") 0
  <= length (py "function f() { if (x) { y(); } } z();")
  /\ nth_error (py "function f() { if (x) { y(); } } z();")
       (AnalyzeLongMethods.method_end
          (py "function f() { if (x) { y(); } } z();") 0 - 1)
     = Some chr_rbrace
  /\ (0 < count chr_lbrace
            (AnalyzeLongMethodsText.method_text
               (py "function f() { if (x) { y(); } } z();") 0
               (AnalyzeLongMethods.method_end
                  (py "function f() { if (x) { y(); } } z();") 0)))%Z
  /\ count chr_lbrace
       (AnalyzeLongMethodsText.method_text
          (py "function f() { if (x) { y(); } } z();") 0
          (AnalyzeLongMethods.method_end
             (py "function f() { if (x) { y(); } } z();") 0))
     = count chr_rbrace
         (AnalyzeLongMethodsText.method_text
            (py "function f() { if (x) { y(); } } z();") 0
            (AnalyzeLongMethods.method_end
               (py "function f() { if (x) { y(); } } z();") 0)).
Proof.
  apply (@matched_text_is_balanced (py "function f() { if (x) { y(); } } z();") 0).
  vm_compute. lia.
Defined.

(** ** Blank lines after methods *)

Section Spacing.

Import Inserted.

Lemma inserts_refl (P : str -> Prop) (l : list str) : inserts P l l.
Proof. induction l; constructor; assumption. Qed.

Lemma add_spacing_step_appends (lines : list str) (st : AddSpacingFile.state)
    (i : nat) (line : str) :
  AddSpacingFile.modified_lines (AddSpacingFile.step lines st i line)
  = AddSpacingFile.modified_lines st ++ [line]
  \/ AddSpacingFile.modified_lines (AddSpacingFile.step lines st i line)
     = AddSpacingFile.modified_lines st ++ [line; []].
Proof.
  unfold AddSpacingFile.step.
  destruct (AddSpacingFile.skipped (strip line)); [now left|].
  destruct (if AddSpacingFile.method_pattern (strip line) lines i
            then (0%Z, true)
            else (AddSpacingFile.brace_count st, AddSpacingFile.in_method st))
    as [count0 in0].
  destruct in0; [|now left].
  destruct (AddSpacing.count_braces count0 line) as [count1 complete].
  destruct complete; [|now left].
  destruct (AddSpacingFile.blank_line_needed lines i); cbn.
  - right. now rewrite <- app_assoc.
  - now left.
Qed.

Lemma add_spacing_run_inserts (lines rest : list str) :
  forall st i,
    exists o,
      AddSpacingFile.modified_lines (AddSpacingFile.run lines st i rest)
      = AddSpacingFile.modified_lines st ++ o
      /\ inserts (fun x => x = []) rest o.
Proof.
  induction rest as [|line rest IH]; intros st i; cbn [AddSpacingFile.run].
  - exists []. rewrite app_nil_r. split; [reflexivity | constructor].
  - destruct (IH (AddSpacingFile.step lines st i line) (S i)) as (o & E & Ho).
    destruct (add_spacing_step_appends lines st i line) as [Es|Es];
      rewrite Es in E; rewrite <- app_assoc in E.
    + exists (line :: o). split; [exact E|]. now constructor.
    + exists (line :: [] :: o). split; [exact E|].
      constructor. now constructor.
Qed.

End Spacing.

(** X10: adding spacing after methods only puts empty lines between
    the lines of the file: every line of the file is kept as it is and
    in its place among the others. *)
Theorem add_spacing_only_adds_empty_lines (content : str) :
  Inserted.inserts (fun x => x = [])
    (splitlines content) (AddSpacingFile.spaced_lines (splitlines content)).
Proof.
  unfold AddSpacingFile.spaced_lines.
  destruct (add_spacing_run_inserts (splitlines content) (splitlines content)
              AddSpacingFile.init 0) as (o & E & Ho).
  rewrite E. exact Ho.
Qed.

Section FixSpacing.

Import Inserted FixRemainingSpacing FixRemainingSpacingLocal.

Lemma skipn_cons_nth (l : list str) (k : nat) (x : str) (r : list str) :
  skipn k l = x :: r -> nth k l [] = x /\ k < length l /\ skipn (S k) l = r.
Proof.
  revert k. induction l as [|y l IH]; intros k H.
  - destruct k; discriminate.
  - destruct k as [|k].
    + simpl in H. injection H as -> ->. repeat split. simpl. lia.
    + simpl in H. destruct (IH k H) as (H1 & H2 & H3).
      repeat split; trivial. simpl. lia.
Qed.

Lemma skipn_nil_length (l : list str) (k : nat) :
  skipn k l = [] -> length l <= k.
Proof.
  intros H. pose proof (length_skipn k l) as E. rewrite H in E. simpl in E. lia.
Qed.

Lemma blank_strip (n : str) : nonblank n = false -> strip n = [].
Proof. unfold nonblank. destruct (strip n); [reflexivity | discriminate]. Qed.

(** The test of a line, on what it looks at. *)
Lemma blank_line_added_local (lines : list str) (i : nat) (line : str) :
  blank_line_added lines i line
  = adds_blank (i =? 0) line (skipn (i + 1) lines).
Proof.
  unfold blank_line_added, adds_blank.
  replace (0 <? i) with (negb (i =? 0)) by (destruct i; reflexivity).
  destruct (str_eqb (strip line) (py "}") && negb (i =? 0)); [|reflexivity].
  cbn [andb]. unfold skip_blank_lines, is_class_closing_brace.
  destruct (skipn (i + 1) lines) as [|n r] eqn:Sk.
  - apply skipn_nil_length in Sk. cbn [count_lines_while].
    replace (i + 1 + 0 <? length lines) with false
      by (symmetry; apply Nat.ltb_ge; lia).
    reflexivity.
  - destruct (skipn_cons_nth _ _ Sk) as (Hn & Hlen & _).
    cbn [count_lines_while]. unfold is_blank.
    destruct (nonblank n) eqn:Nb; cbn [negb].
    + replace (i + 1 + 0) with (i + 1) by lia. rewrite Hn.
      replace (i + 1 <? length lines) with true
        by (symmetry; apply Nat.ltb_lt; lia).
      rewrite Nat.eqb_refl. cbn [filter]. rewrite Nb.
      destruct (startswith (py "/**") (strip n)); reflexivity.
    + rewrite (blank_strip _ Nb).
      replace (i + 1 + S (count_lines_while (fun l => negb (nonblank l)) r)
               =? i + 1) with false by (symmetry; apply Nat.eqb_neq; lia).
      now rewrite andb_false_r.
Qed.

Lemma fix_loop_local (rest : list str) :
  forall lines i, skipn i lines = rest ->
                  fix_loop lines i rest = fix_from (i =? 0) rest.
Proof.
  induction rest as [|line rest IH]; intros lines i Sk; [reflexivity|].
  cbn [fix_loop fix_from].
  destruct (skipn_cons_nth _ _ Sk) as (_ & _ & Sk').
  rewrite blank_line_added_local. replace (i + 1) with (S i) by lia.
  rewrite Sk'. rewrite (IH lines (S i) Sk'). reflexivity.
Qed.

Lemma fixed_lines_local (lines : list str) :
  fixed_lines lines = fix_from true lines.
Proof. exact (@fix_loop_local lines lines 0 eq_refl). Qed.

Lemma adds_blank_after_fix (first : bool) (line : str) (rest : list str) :
  adds_blank first line (fix_from false rest) = adds_blank first line rest.
Proof. destruct rest; reflexivity. Qed.

Lemma fix_from_idempotent (rest : list str) :
  forall first, fix_from first (fix_from first rest) = fix_from first rest.
Proof.
  induction rest as [|line rest IH]; intros first; [reflexivity|].
  cbn [fix_from].
  destruct (adds_blank first line rest) eqn:A; cbn [app fix_from].
  - assert (A1 : adds_blank first line ([] :: fix_from false rest) = false).
    { unfold adds_blank. cbn. now rewrite andb_false_r. }
    assert (A2 : forall after, adds_blank false [] after = false)
      by reflexivity.
    rewrite A1, A2. cbn [app]. now rewrite IH.
  - rewrite adds_blank_after_fix, A. cbn [app]. now rewrite IH.
Qed.

Lemma fix_from_inserts (rest : list str) :
  forall first, inserts (fun x => x = []) rest (fix_from first rest).
Proof.
  induction rest as [|line rest IH]; intros first; cbn [fix_from];
    [constructor|].
  destruct (adds_blank first line rest); cbn [app].
  - constructor. constructor; [reflexivity | apply IH].
  - constructor. apply IH.
Qed.

End FixSpacing.

(** X11: in fix_remaining_spacing.py a blank line is added after a
    line exactly when the line is not the first, its trimmed text is a
    lone closing brace, and the line right after it starts a doc
    comment; the test for the closing brace of the class never holds
    an addition back, since a doc comment follows. *)
Theorem blank_line_added_exactly_before_doc (lines : list str) (i : nat)
    (line : str) :
  FixRemainingSpacing.blank_line_added lines i line
  = str_eqb (strip line) (py "}") && negb (i =? 0)
    && match skipn (i + 1) lines with
       | next :: _ => startswith (py "/**") (strip next)
       | [] => false
       end.
Proof. apply blank_line_added_local. Qed.

(** X12: fixing the spacing only puts empty lines between the lines of
    the file, and fixing a second time changes nothing. *)
Theorem fix_spacing_is_idempotent (content : str) :
  Inserted.inserts (fun x => x = [])
    (splitlines content) (FixRemainingSpacing.fixed_lines (splitlines content))
  /\ FixRemainingSpacing.fixed_lines
       (FixRemainingSpacing.fixed_lines (splitlines content))
     = FixRemainingSpacing.fixed_lines (splitlines content).
Proof.
  rewrite !fixed_lines_local.
  split; [apply fix_from_inserts | apply fix_from_idempotent].
Qed.

(** ** Generated documentation is recognised *)

Section JsdocRoundTrip.

Import AddMissingJsdoc JsdocLocal.

Lemma documented_above_unfold (above : list str) :
  documented_above above
  = match drop_lines_while (fun l => negb (nonblank l)) above with
    | [] => false
    | prev :: up =>
        if str_eqb (strip prev) (py "*/") || startswith (py "*/") (strip prev)
        then match drop_lines_while (fun l => startswith (py "*") (strip l)) up with
             | [] => false
             | top :: _ => startswith (py "/**") (strip top)
             end
        else false
    end.
Proof.
  unfold documented_above, has_jsdoc.
  assert (E : firstn (length above) (rev above) = rev above)
    by (apply firstn_all2; rewrite length_rev; lia).
  rewrite E, rev_involutive. reflexivity.
Qed.

Lemma has_jsdoc_local (lines : list str) (i : nat) :
  has_jsdoc lines i = documented_above (rev (firstn i lines)).
Proof. rewrite documented_above_unfold. reflexivity. Qed.

Lemma lstrip_blanks (w s : str) : blanks w -> lstrip (w ++ s) = lstrip s.
Proof.
  unfold lstrip. induction 1 as [|c w Hc _ IH]; [reflexivity|].
  cbn [app drop_while]. now rewrite Hc.
Qed.

Lemma strip_blanks (w s : str) : blanks w -> strip (w ++ s) = strip s.
Proof. intros H. unfold strip. now rewrite lstrip_blanks. Qed.

Lemma drop_while_snoc_keep (p : ascii -> bool) (u : str) (c : ascii) :
  p c = false -> exists v, drop_while p (u ++ [c]) = v ++ [c].
Proof.
  intros Hc. induction u as [|x u IH]; cbn [app drop_while].
  - rewrite Hc. now exists [].
  - destruct (p x); [exact IH | now exists (x :: u)].
Qed.

Lemma rstrip_cons_keep (c : ascii) (r : str) :
  is_space c = false -> exists r', rstrip (c :: r) = c :: r'.
Proof.
  intros Hc. unfold rstrip. cbn [rev].
  destruct (drop_while_snoc_keep is_space (rev r) c Hc) as (v & ->).
  exists (rev v). rewrite rev_app_distr. reflexivity.
Qed.

(** A line made of blanks, a blank, an asterisk and any text starts,
    once trimmed, with the asterisk. *)
Lemma star_line_strip (w t : str) :
  blanks w ->
  startswith (py "*") (strip (w ++ " "%char :: "*"%char :: t)) = true.
Proof.
  intros Hw. rewrite (strip_blanks _ Hw). unfold strip.
  change (lstrip (" "%char :: "*"%char :: t)) with ("*"%char :: t).
  destruct (rstrip_cons_keep "*"%char t eq_refl) as (r' & ->).
  cbn [py list_ascii_of_string startswith]. now rewrite chr_eqb_refl.
Qed.

Lemma returns_lines_shape (return_type : str) :
  Forall (fun l => exists t, l = " "%char :: "*"%char :: t)
         (returns_lines return_type).
Proof.
  unfold returns_lines.
  repeat match goal with
         | |- context [if ?c then _ else _] => destruct c
         end;
    repeat constructor; eexists; reflexivity.
Qed.

(** The lines of a generated block: the opener, lines that start with
    a blank and an asterisk, the terminator. *)
Lemma generate_shape (method_line full_line : str) (jsdoc : list str) :
  generate_jsdoc_comment method_line full_line = Some jsdoc ->
  exists mid, jsdoc = py "/**" :: mid ++ [py " */"]
    /\ Forall (fun l => exists t, l = " "%char :: "*"%char :: t) mid.
Proof.
  unfold generate_jsdoc_comment.
  destruct (parse_declaration method_line) as [[[name params] rt]|];
    [|discriminate].
  intros H. injection H as <-.
  exists ([py " * " ++ generate_description name]
          ++ map (fun param => py " * @param " ++ param ++ py " - "
                               ++ capitalize param ++ py " parameter") params
          ++ returns_lines rt).
  split.
  - cbn [app]. repeat rewrite <- app_assoc. reflexivity.
  - apply Forall_app. split; [repeat constructor; eexists; reflexivity|].
    apply Forall_app. split; [|apply returns_lines_shape].
    apply Forall_forall. intros l Hl. apply in_map_iff in Hl.
    destruct Hl as (param & <- & _). eexists. reflexivity.
Qed.

(** Above a generated block the walk of [has_jsdoc] succeeds. *)
Lemma generated_block_documents (method_line full_line : str)
    (jsdoc : list str) (w : str) (above : list str) :
  generate_jsdoc_comment method_line full_line = Some jsdoc ->
  blanks w ->
  documented_above (rev (map (fun l => w ++ l) jsdoc) ++ above) = true.
Proof.
  intros Hg Hw. destruct (generate_shape _ _ Hg) as (mid & -> & Hmid).
  rewrite documented_above_unfold.
  cbn [map rev]. rewrite map_app, rev_app_distr. cbn [map rev app].
  repeat rewrite <- app_assoc. cbn [app drop_lines_while].
  assert (Hs : strip (w ++ py " */") = py "*/")
    by (rewrite (strip_blanks _ Hw); reflexivity).
  assert (Hnb : negb (nonblank (w ++ py " */")) = false)
    by (unfold nonblank; rewrite Hs; reflexivity).
  rewrite Hnb, Hs.
  replace (str_eqb (py "*/") (py "*/")) with true by reflexivity.
  cbn [orb].
  rewrite drop_lines_while_all.
  2:{ apply Forall_rev. apply Forall_forall. intros l Hl.
      apply in_map_iff in Hl. destruct Hl as (x & <- & Hx).
      rewrite Forall_forall in Hmid. destruct (Hmid x Hx) as (t & ->).
      now apply star_line_strip. }
  cbn [drop_lines_while].
  assert (Ho : strip (w ++ py "/**") = py "/**")
    by (rewrite (strip_blanks _ Hw); reflexivity).
  rewrite Ho.
  replace (startswith (py "*") (py "/**")) with false by reflexivity.
  rewrite Ho. reflexivity.
Qed.

Lemma indent_of_blanks (line : str) : blanks (indent_of line).
Proof.
  unfold indent_of, lstrip.
  assert (E : length line - length (drop_while is_space line)
              = length (take_while is_space line)).
  { rewrite <- (take_drop_while is_space line) at 1.
    rewrite length_app. lia. }
  rewrite E. rewrite <- (take_drop_while is_space line) at 2.
  rewrite firstn_app, Nat.sub_diag, firstn_all. cbn [firstn].
  rewrite app_nil_r. apply take_while_all.
Qed.

End JsdocRoundTrip.

(** X14: a block that the generator writes is one that the check for
    documentation recognises: put above its declaration with the
    declaration's indentation, it makes [has_jsdoc] hold for the
    declaration, whatever stands above and below. *)
Theorem generated_block_is_recognised
    (pre : list str) (line : str) (after : list str) (jsdoc : list str) :
  AddMissingJsdoc.generate_jsdoc_comment (strip line) line = Some jsdoc ->
  AddMissingJsdoc.has_jsdoc
    (pre ++ map (fun l => AddMissingJsdoc.indent_of line ++ l) jsdoc
         ++ line :: after)
    (length pre + length jsdoc) = true.
Proof.
  intros Hg. rewrite has_jsdoc_local. rewrite app_assoc.
  assert (E : length pre + length jsdoc
              = length (pre ++ map (fun l => AddMissingJsdoc.indent_of line ++ l)
                                   jsdoc))
    by (rewrite length_app, length_map; reflexivity).
  rewrite E, firstn_app, Nat.sub_diag, firstn_all. cbn [firstn].
  rewrite app_nil_r, rev_app_distr.
  apply (generated_block_documents _ _ _ Hg). apply indent_of_blanks.
Qed.

(** An indented method under a line of code. *)
Lemma generated_block_is_recognised_witness :
  AddMissingJsdoc.has_jsdoc
    ([py "x = 1;"]
       ++ map (fun l => AddMissingJsdoc.indent_of (py "  load(id: string): void {") ++ l)
            [py "/**"; py " * Handles load functionality.";
             py " * @param id - Id parameter"; py " */"]
       ++ py "  load(id: string): void {" :: [py "  }"])
    (length [py "x = 1;"]
     + length [py "/**"; py " * Handles load functionality.";
               py " * @param id - Id parameter"; py " */"]) = true.
Proof.
  apply (@generated_block_is_recognised [py "x = 1;"]
           (py "  load(id: string): void {") [py "  }"]).
  vm_compute. reflexivity.
Defined.

(** ** Inserting documentation twice *)

Section JsdocAgain.

Import Inserted AddMissingJsdoc JsdocLocal.

Lemma next_brace_local (above : list str) (line : str) (after : list str) :
  (length above + 1 <? length (rev above ++ line :: after))
  && str_eqb (strip (nth (length above + 1) (rev above ++ line :: after) []))
       (py "{")
  = next_is_brace after.
Proof.
  rewrite length_app, length_rev. cbn [length].
  destruct after as [|n r]; cbn [length next_is_brace].
  - replace (length above + 1 <? length above + 1) with false
      by (symmetry; apply Nat.ltb_ge; lia).
    reflexivity.
  - replace (length above + 1 <? length above + S (S (length r))) with true
      by (symmetry; apply Nat.ltb_lt; lia).
    rewrite app_nth2 by (rewrite length_rev; lia).
    rewrite length_rev.
    replace (length above + 1 - length above) with 1 by lia. reflexivity.
Qed.

(** The test for a declaration looks at the file only through the
    line after. *)
Lemma should_add_local (stripped : str) (above above' : list str)
    (line line' : str) (after after' : list str) :
  next_is_brace after = next_is_brace after' ->
  should_add_jsdoc stripped (rev above ++ line :: after) (length above)
  = should_add_jsdoc stripped (rev above' ++ line' :: after') (length above').
Proof.
  intros H. unfold should_add_jsdoc. rewrite !next_brace_local, H. reflexivity.
Qed.

Lemma has_jsdoc_context (above : list str) (line : str) (after : list str) :
  has_jsdoc (rev above ++ line :: after) (length above) = documented_above above.
Proof.
  rewrite has_jsdoc_local.
  assert (E : firstn (length above) (rev above ++ line :: after) = rev above).
  { rewrite <- (length_rev above), firstn_app, Nat.sub_diag, firstn_all.
    cbn [firstn]. apply app_nil_r. }
  rewrite E, rev_involutive. reflexivity.
Qed.

Lemma block_for_unfold (above : list str) (line : str) (after : list str) :
  block_for above line after
  = if should_add_jsdoc (strip line) (rev above ++ line :: after) (length above)
    then if negb (documented_above above)
         then match generate_jsdoc_comment (strip line) line with
              | Some jsdoc => map (fun l => indent_of line ++ l) jsdoc
              | None => []
              end
         else []
    else [].
Proof.
  unfold block_for, insertion. rewrite has_jsdoc_context.
  destruct (should_add_jsdoc _ _ _); [|reflexivity].
  destruct (negb (documented_above above)); [|reflexivity].
  destruct (generate_jsdoc_comment (strip line) line); reflexivity.
Qed.

(** The block depends on the lines above only through the check for
    documentation, and on the lines after only through the line right
    after. *)
Lemma block_for_ext (above above' : list str) (line : str)
    (after after' : list str) :
  documented_above above = documented_above above' ->
  next_is_brace after = next_is_brace after' ->
  block_for above line after = block_for above' line after'.
Proof.
  intros Hd Hn. rewrite !block_for_unfold.
  rewrite (should_add_local (strip line) above above' line line after after' Hn).
  rewrite Hd. reflexivity.
Qed.

Lemma orb_false_split (a b : bool) : a || b = false -> a = false /\ b = false.
Proof. destruct a, b; simpl; intros H; try discriminate; now split. Qed.

(** A declaration is not blank, does not start with an asterisk and
    is not a lone opening brace. *)
Lemma should_add_stops (line : str) (lines : list str) (i : nat) :
  should_add_jsdoc (strip line) lines i = true ->
  stops_walk line /\ str_eqb (strip line) (py "{") = false.
Proof.
  intros H. split.
  - unfold should_add_jsdoc in H.
    match type of H with
    | (if ?c then _ else _) = true => destruct c eqn:E; [discriminate|]
    end.
    repeat (apply orb_false_split in E; destruct E as [E ?]).
    split; [|assumption].
    unfold nonblank. destruct (truthy (strip line)); [reflexivity|discriminate].
  - destruct (str_eqb (strip line) (py "{")) eqn:E; [|reflexivity].
    apply str_eqb_eq in E. rewrite E in H. cbv in H. discriminate.
Qed.

Lemma comment_line_no_block (above : list str) (l : str) (after : list str) :
  comment_line l -> block_for above l after = [].
Proof.
  intros H. rewrite block_for_unfold. unfold should_add_jsdoc.
  destruct H as [H|H]; rewrite H;
    repeat (rewrite orb_true_r || rewrite orb_true_l); reflexivity.
Qed.

Lemma add_from_comment_block (blk : list str) :
  forall above rest,
    Forall comment_line blk ->
    add_from above (blk ++ rest) = blk ++ add_from (rev blk ++ above) rest.
Proof.
  induction blk as [|l blk IH]; intros above rest H; [reflexivity|].
  inversion H as [|? ? Hl Hblk]; subst.
  cbn [app add_from]. rewrite (comment_line_no_block _ _ Hl). cbn [app].
  rewrite (IH (l :: above) rest Hblk). cbn [rev].
  rewrite <- app_assoc. reflexivity.
Qed.

Lemma generated_lines_are_comments (method_line full_line : str)
    (jsdoc : list str) (w : str) :
  generate_jsdoc_comment method_line full_line = Some jsdoc ->
  blanks w ->
  Forall comment_line (map (fun l => w ++ l) jsdoc).
Proof.
  intros Hg Hw. destruct (generate_shape _ _ Hg) as (mid & -> & Hmid).
  cbn [map]. rewrite map_app. cbn [map].
  constructor.
  { left. rewrite (strip_blanks _ Hw). reflexivity. }
  apply Forall_app. split.
  - apply Forall_forall. intros l Hl. apply in_map_iff in Hl.
    destruct Hl as (x & <- & Hx). rewrite Forall_forall in Hmid.
    destruct (Hmid x Hx) as (t & ->). right. now apply star_line_strip.
  - constructor; [|constructor]. right. rewrite (strip_blanks _ Hw). reflexivity.
Qed.

(** The block of a line is empty or a generated block, and then the
    line is a declaration without documentation above it. *)
Lemma block_for_cases (above : list str) (line : str) (after : list str) :
  block_for above line after = []
  \/ exists jsdoc,
       generate_jsdoc_comment (strip line) line = Some jsdoc
       /\ block_for above line after = map (fun l => indent_of line ++ l) jsdoc
       /\ should_add_jsdoc (strip line) (rev above ++ line :: after)
            (length above) = true.
Proof.
  rewrite block_for_unfold.
  destruct (should_add_jsdoc _ _ _); [|now left].
  destruct (negb (documented_above above)); [|now left].
  destruct (generate_jsdoc_comment (strip line) line) as [jsdoc|]; [|now left].
  right. exists jsdoc. repeat split.
Qed.

Lemma next_is_brace_add_from (above rest : list str) :
  next_is_brace (add_from above rest) = next_is_brace rest.
Proof.
  destruct rest as [|n r]; [reflexivity|]. cbn [add_from].
  destruct (block_for_cases above n r) as [->|(jsdoc & Hg & -> & Hs)];
    [reflexivity|].
  destruct (generate_shape _ _ Hg) as (mid & -> & _).
  cbn [map app next_is_brace].
  rewrite (strip_blanks _ (indent_of_blanks n)).
  apply should_add_stops in Hs. destruct Hs as [_ ->]. reflexivity.
Qed.

Lemma same_above_top (a b : list str) :
  same_above a b ->
  match drop_lines_while (fun l => startswith (py "*") (strip l)) a with
  | [] => false
  | top :: _ => startswith (py "/**") (strip top)
  end
  = match drop_lines_while (fun l => startswith (py "*") (strip l)) b with
    | [] => false
    | top :: _ => startswith (py "/**") (strip top)
    end.
Proof.
  induction 1 as [|x a b _ IH|x a b [_ Hx]]; cbn [drop_lines_while].
  - reflexivity.
  - destruct (startswith (py "*") (strip x)); [exact IH | reflexivity].
  - rewrite Hx. reflexivity.
Qed.

(** Lists of lines above that agree up to a line that stops the walk
    give the same answer. *)
Lemma same_above_documented (a b : list str) :
  same_above a b -> documented_above a = documented_above b.
Proof.
  rewrite !documented_above_unfold.
  induction 1 as [|x a b Hab IH|x a b [Hn Hx]]; cbn [drop_lines_while].
  - reflexivity.
  - destruct (negb (nonblank x)); [exact IH|].
    destruct (str_eqb (strip x) (py "*/") || startswith (py "*/") (strip x));
      [|reflexivity].
    now apply same_above_top.
  - rewrite Hn. cbn [negb].
    assert (E : str_eqb (strip x) (py "*/") || startswith (py "*/") (strip x)
                = false).
    { destruct (startswith (py "*/") (strip x)) eqn:Es.
      - change (py "*/") with (py "*" ++ py "/") in Es.
        apply startswith_shorter in Es. congruence.
      - destruct (str_eqb (strip x) (py "*/")) eqn:Ee; [|reflexivity].
        apply str_eqb_eq in Ee. rewrite Ee in Es. discriminate. }
    rewrite E. reflexivity.
Qed.

Lemma block_for_documented (above : list str) (line : str) (after : list str) :
  documented_above above = true -> block_for above line after = [].
Proof.
  intros H. rewrite block_for_unfold, H.
  destruct (should_add_jsdoc _ _ _); reflexivity.
Qed.

(** Writing the lines again for the lines written gives the same
    lines. *)
Lemma add_from_again (rest : list str) :
  forall above above',
    same_above above above' ->
    add_from above' (add_from above rest) = add_from above rest.
Proof.
  induction rest as [|line rest IH]; intros above above' Hsame; [reflexivity|].
  cbn [add_from].
  destruct (block_for_cases above line rest) as [E|(jsdoc & Hg & E & Hs)];
    rewrite E.
  - cbn [app add_from].
    rewrite (block_for_ext above' above line
               (add_from (line :: above) rest) rest).
    + rewrite E. cbn [app]. f_equal. apply IH. now constructor.
    + symmetry. now apply same_above_documented.
    + apply next_is_brace_add_from.
  - pose proof (generated_lines_are_comments _ _ Hg (indent_of_blanks line))
      as Hc.
    rewrite (add_from_comment_block _ _ Hc). cbn [add_from].
    rewrite block_for_documented
      by (apply (generated_block_documents _ _ _ Hg); apply indent_of_blanks).
    cbn [app]. f_equal. f_equal. apply IH.
    apply same_stop. apply should_add_stops in Hs. now destruct Hs.
Qed.

Lemma firstn_succ_snoc (lines : list str) (i : nat) (line : str)
    (after : list str) :
  skipn i lines = line :: after ->
  firstn (S i) lines = firstn i lines ++ [line]
  /\ firstn i lines ++ line :: after = lines
  /\ length (firstn i lines) = i.
Proof.
  intros Sk. destruct (skipn_cons_nth _ _ Sk) as (_ & Hlen & _).
  assert (E : firstn i lines ++ line :: after = lines)
    by (rewrite <- Sk; apply firstn_skipn).
  assert (L : length (firstn i lines) = i)
    by (rewrite length_firstn; lia).
  repeat split; trivial.
  rewrite <- E at 1. rewrite firstn_app, L.
  replace (S i - i) with 1 by lia.
  change (firstn 1 (line :: after)) with [line].
  rewrite firstn_all2 by lia. reflexivity.
Qed.

Lemma insertion_local (lines : list str) (i : nat) (line : str)
    (after : list str) :
  skipn i lines = line :: after ->
  fst (insertion lines i line) = block_for (rev (firstn i lines)) line after.
Proof.
  intros Sk. destruct (firstn_succ_snoc _ _ Sk) as (_ & E & L).
  unfold block_for. rewrite rev_involutive, length_rev, L, E. reflexivity.
Qed.

Lemma add_loop_local (rest : list str) :
  forall lines i modified changes,
    skipn i lines = rest ->
    fst (add_loop lines rest i modified changes)
    = modified ++ add_from (rev (firstn i lines)) rest.
Proof.
  induction rest as [|line rest IH]; intros lines i modified changes Sk.
  - cbn. now rewrite app_nil_r.
  - cbn [add_loop add_from].
    rewrite <- (insertion_local _ _ Sk).
    destruct (insertion lines i line) as [block added]. cbn [fst].
    destruct (firstn_succ_snoc _ _ Sk) as (Ef & _ & _).
    destruct (skipn_cons_nth _ _ Sk) as (_ & _ & Sk').
    replace (i + 1) with (S i) by lia.
    rewrite (IH lines (S i) _ _ Sk'). rewrite Ef, rev_app_distr. cbn [rev app].
    repeat rewrite <- app_assoc. reflexivity.
Qed.

(** Every block counted has at least one line. *)
Lemma add_loop_count (rest : list str) :
  forall lines i modified changes,
    length modified + length rest
    + (snd (add_loop lines rest i modified changes) - changes)
    <= length (fst (add_loop lines rest i modified changes))
    /\ changes <= snd (add_loop lines rest i modified changes).
Proof.
  induction rest as [|line rest IH]; intros lines i modified changes.
  - cbn. lia.
  - cbn [add_loop].
    assert (Hins : snd (insertion lines i line)
                   <= length (fst (insertion lines i line))).
    { unfold insertion. destruct (should_add_jsdoc _ _ _); [|cbn; lia].
      destruct (negb (has_jsdoc lines i)); [|cbn; lia].
      destruct (generate_jsdoc_comment (strip line) line) as [jsdoc|] eqn:Hg;
        [|cbn; lia].
      destruct (generate_shape _ _ Hg) as (mid & -> & _). cbn. lia. }
    destruct (insertion lines i line) as [block added]. cbn [fst snd] in Hins.
    destruct (IH lines (i + 1) (modified ++ block ++ [line]) (changes + added))
      as [H1 H2].
    rewrite !length_app in H1. cbn [length] in *. lia.
Qed.

Lemma inserts_prepend (P : str -> Prop) (blk l o : list str) :
  Forall P blk -> inserts P l o -> inserts P l (blk ++ o).
Proof.
  induction 1 as [|x blk Hx _ IH]; intros H; [exact H|].
  cbn [app]. constructor; [exact Hx | now apply IH].
Qed.

Lemma add_from_inserts (rest : list str) :
  forall above, inserts comment_line rest (add_from above rest).
Proof.
  induction rest as [|line rest IH]; intros above; cbn [add_from];
    [constructor|].
  destruct (block_for_cases above line rest) as [->|(jsdoc & Hg & -> & _)].
  - cbn [app]. constructor. apply IH.
  - apply inserts_prepend.
    + apply (generated_lines_are_comments _ _ Hg). apply indent_of_blanks.
    + constructor. apply IH.
Qed.

Lemma add_lines_local (lines : list str) :
  fst (add_lines lines) = add_from [] lines.
Proof.
  unfold add_lines. now rewrite (@add_loop_local lines lines 0 [] 0 eq_refl).
Qed.

End JsdocAgain.

(** X13: documentation insertion only puts comment lines between the
    lines of the file, lines whose trimmed text starts with [/*] or
    with an asterisk: every line of the file is kept as it is and in
    its place among the others. *)
Theorem insertion_only_adds_comment_lines (content : str) :
  Inserted.inserts JsdocLocal.comment_line
    (splitlines content) (fst (AddMissingJsdoc.add_lines (splitlines content))).
Proof. rewrite add_lines_local. apply add_from_inserts. Qed.

(** X15: documentation insertion is idempotent: run on the lines it
    has written, it writes the same lines and adds no block. *)
Theorem insertion_is_idempotent (lines : list str) :
  AddMissingJsdoc.add_lines (fst (AddMissingJsdoc.add_lines lines))
  = (fst (AddMissingJsdoc.add_lines lines), 0).
Proof.
  set (out := fst (AddMissingJsdoc.add_lines lines)).
  assert (Hfst : fst (AddMissingJsdoc.add_lines out) = out).
  { unfold out. rewrite !add_lines_local. apply add_from_again. constructor. }
  pose proof (add_loop_count out out 0 [] 0) as [Hlen _].
  fold (AddMissingJsdoc.add_lines out) in Hlen. rewrite Hfst in Hlen.
  cbn [length] in Hlen.
  destruct (AddMissingJsdoc.add_lines out) as [o c]. cbn [fst snd] in *.
  subst o. f_equal. lia.
Qed.

(** ** The analyses and the insertion agree on what a declaration is *)

Section Agreement.

Import AddMissingJsdoc.

Lemma startswith_spec (p s : str) :
  startswith p s = true -> exists t, s = p ++ t.
Proof.
  revert s. induction p as [|x p IH]; intros s; [now exists s|].
  destruct s as [|y s]; cbn [startswith]; [discriminate|].
  intros H. apply andb_true_iff in H. destruct H as [H1 H2].
  apply chr_eqb_eq in H1. subst y. destruct (IH s H2) as (t & ->).
  now exists t.
Qed.

Lemma startswith_refl (p t : str) : startswith p (p ++ t) = true.
Proof.
  induction p as [|x p IH]; [reflexivity|].
  cbn [app startswith]. now rewrite chr_eqb_refl.
Qed.

Lemma startswith_contains (p s : str) :
  startswith p s = true -> contains p s = true.
Proof. intros H. now apply (contains_at p s 0). Qed.

Lemma endswith_contains (p s : str) :
  endswith p s = true -> contains p s = true.
Proof.
  unfold endswith. intros H. apply startswith_spec in H. destruct H as (t & E).
  assert (Es : s = rev t ++ p).
  { rewrite <- (rev_involutive s), E, rev_app_distr, rev_involutive.
    reflexivity. }
  apply (contains_at p s (length (rev t))).
  rewrite Es, skipn_app, skipn_all, Nat.sub_diag. cbn [skipn app].
  rewrite <- (app_nil_r p) at 2. apply startswith_refl.
Qed.

(** What a line that gets documentation is not. *)
Lemma should_add_excludes (stripped : str) (lines : list str) (i : nat) :
  should_add_jsdoc stripped lines i = true ->
  truthy stripped = true
  /\ startswith (py "//") stripped = false
  /\ startswith (py "*") stripped = false
  /\ startswith (py "/*") stripped = false
  /\ startswith (py "constructor") stripped = false
  /\ startswith (py "export ") stripped = false
  /\ startswith (py "@") stripped = false
  /\ contains (py "interface") stripped = false
  /\ contains (py "class") stripped = false
  /\ contains (py "enum") stripped = false.
Proof.
  unfold should_add_jsdoc. intros H.
  match type of H with
  | (if ?c then _ else _) = true => destruct c eqn:E; [discriminate|]
  end.
  repeat (apply orb_false_split in E; destruct E as [E ?]).
  repeat split; try assumption.
  destruct (truthy stripped); [reflexivity | discriminate].
Qed.

(** What makes a line one that gets documentation. *)
Lemma should_add_pattern (stripped : str) (lines : list str) (i : nat) :
  should_add_jsdoc stripped lines i = true ->
  (contains (py "(") stripped = true /\ contains (py ")") stripped = true
   /\ contains (py ":") stripped = true
   /\ (endswith (py "{") stripped = true
       \/ (i + 1 <? length lines)
          && str_eqb (strip (nth (i + 1) lines [])) (py "{") = true))
  \/ (startswith (py "async ") stripped = true
      /\ contains (py "(") stripped = true /\ contains (py ")") stripped = true)
  \/ startswith (py "ngOnInit") stripped = true
  \/ startswith (py "ngOnDestroy") stripped = true
  \/ startswith (py "ngOnChanges") stripped = true.
Proof.
  unfold should_add_jsdoc. intros H.
  match type of H with
  | (if ?c then _ else _) = true => destruct c; [discriminate|]
  end.
  apply orb_true_iff in H. destruct H as [H|N3]; [|now do 4 right].
  apply orb_true_iff in H. destruct H as [H|N2]; [|do 3 right; now left].
  apply orb_true_iff in H. destruct H as [H|N1]; [|do 2 right; now left].
  apply orb_true_iff in H. destruct H as [H|H].
  - left. apply andb_true_iff in H. destruct H as [H D].
    apply andb_true_iff in H. destruct H as [H C].
    apply andb_true_iff in H. destruct H as [A B].
    repeat split; trivial. now apply orb_true_iff.
  - right. left. apply andb_true_iff in H. destruct H as [H B].
    apply andb_true_iff in H. destruct H as [As A].
    repeat split; trivial.
Qed.

End Agreement.

(** X17: a line that documentation insertion treats as a declaration
    is one that the method-length analysis treats as a declaration
    too, and, unless it starts with [import ], one that the analysis
    does not skip. *)
Theorem documented_lines_are_declarations
    (line : str) (lines : list str) (i : nat) :
  AddMissingJsdoc.should_add_jsdoc (strip line) lines i = true ->
  AnalyzeMethodLength.is_method_declaration (strip line) lines i = true
  /\ (startswith (py "import ") (strip line) = false ->
      AnalyzeMethodLength.skip_line (strip line) = false).
Proof.
  intros H.
  destruct (should_add_excludes _ _ _ H)
    as (Ht & Hsl & Hst & Hbl & Hco & Hex & Hat & Hin & Hcl & Hen).
  split.
  - unfold AnalyzeMethodLength.is_method_declaration. rewrite Hco.
    destruct (should_add_pattern _ _ _ H)
      as [(A & B & C & D)|[(As & A & B)|[N|[N|N]]]].
    + rewrite A, B, C. cbn [andb].
      destruct D as [D|D].
      * rewrite (endswith_contains _ _ D). reflexivity.
      * rewrite D, orb_true_r. reflexivity.
    + rewrite A, B, As, orb_true_r. reflexivity.
    + rewrite N. destruct (_ && _); reflexivity.
    + rewrite N, orb_true_r. destruct (_ && _); reflexivity.
    + rewrite N, !orb_true_r. destruct (_ && _); reflexivity.
  - intros Him. unfold AnalyzeMethodLength.skip_line.
    rewrite Ht, Hsl, Hst, Hbl, Hex, Him, Hat, Hin, Hen. cbn [negb orb].
    destruct (startswith (py "class ") (strip line)) eqn:Ec; [|reflexivity].
    change (py "class ") with (py "class" ++ py " ") in Ec.
    apply startswith_shorter, startswith_contains in Ec. congruence.
Qed.

(** A method heading. *)
Lemma documented_lines_are_declarations_witness :
  AnalyzeMethodLength.is_method_declaration (strip (py "  load(id: string): void {"))
    [py "  load(id: string): void {"; py "  }"] 0 = true
  /\ (startswith (py "import ") (strip (py "  load(id: string): void {")) = false ->
      AnalyzeMethodLength.skip_line (strip (py "  load(id: string): void {"))
      = false).
Proof.
  apply (@documented_lines_are_declarations (py "  load(id: string): void {")
           [py "  load(id: string): void {"; py "  }"] 0).
  vm_compute. reflexivity.
Defined.

(** X16: a line that the analysis of missing documentation reports,
    and that is not a [catch] clause, is a line that insertion takes
    for an undocumented declaration; the entry carries the line's
    number and trimmed text, and insertion adds a block for the line
    exactly when a name can be read off it. *)
Theorem reported_missing_gets_a_block
    (lines : list str) (i : nat) (line : str) (m : AnalyzeMissingJsdoc.missing) :
  AnalyzeMissingJsdoc.entry lines i line = [m] ->
  startswith (py "} catch") (strip line) = false ->
  startswith (py "catch") (strip line) = false ->
  AddMissingJsdoc.should_add_jsdoc (strip line) lines i = true
  /\ AddMissingJsdoc.has_jsdoc lines i = false
  /\ AnalyzeMissingJsdoc.line_no m = i + 1
  /\ AnalyzeMissingJsdoc.code m = strip line
  /\ snd (AddMissingJsdoc.insertion lines i line)
     = match Regex.search Regex.match_word_paren (strip line) with
       | Some _ => 1
       | None => 0
       end.
Proof.
  unfold AnalyzeMissingJsdoc.entry. intros H Hc1 Hc2.
  destruct (negb (truthy (strip line)) || _ || _ || _) eqn:Hskip;
    [discriminate|].
  destruct (AnalyzeMissingJsdoc.looks_like_method (strip line) lines i)
    eqn:Hlooks; [|discriminate].
  destruct (AnalyzeMissingJsdoc.excluded (strip line)) eqn:Hex; [discriminate|].
  destruct (AddMissingJsdoc.has_jsdoc lines i) eqn:Hj; [discriminate|].
  cbn [negb] in H. injection H as <-.
  assert (Hs : AddMissingJsdoc.should_add_jsdoc (strip line) lines i = true).
  { unfold AnalyzeMissingJsdoc.excluded in Hex.
    repeat (apply orb_false_split in Hskip; destruct Hskip as [Hskip ?]).
    repeat (apply orb_false_split in Hex; destruct Hex as [Hex ?]).
    unfold AddMissingJsdoc.should_add_jsdoc.
    repeat match goal with
           | E : ?a = false |- context [?a] => rewrite E
           end.
    cbn [orb]. unfold AnalyzeMissingJsdoc.looks_like_method in Hlooks.
    rewrite Hlooks. reflexivity. }
  split; [exact Hs|]. split; [reflexivity|]. split; [reflexivity|].
  split; [reflexivity|].
  unfold AddMissingJsdoc.insertion. rewrite Hs, Hj. cbn [negb].
  unfold AddMissingJsdoc.generate_jsdoc_comment, AddMissingJsdoc.parse_declaration.
  destruct (Regex.search Regex.match_word_paren (strip line)); reflexivity.
Qed.

(** The declaration under a one-line doc comment. *)
Lemma reported_missing_gets_a_block_witness :
  AddMissingJsdoc.should_add_jsdoc (strip (py "foo(): void {"))
    Inputs.one_line_doc 1 = true
  /\ AddMissingJsdoc.has_jsdoc Inputs.one_line_doc 1 = false
  /\ 2 = 1 + 1
  /\ py "foo(): void {" = strip (py "foo(): void {")
  /\ snd (AddMissingJsdoc.insertion Inputs.one_line_doc 1 (py "foo(): void {"))
     = match Regex.search Regex.match_word_paren (strip (py "foo(): void {")) with
       | Some _ => 1
       | None => 0
       end.
Proof.
  apply (@reported_missing_gets_a_block Inputs.one_line_doc 1
           (py "foo(): void {")
           (AnalyzeMissingJsdoc.mk_missing 2 (py "foo") (py "foo(): void {")));
    vm_compute; reflexivity.
Defined.

(** ** Cutting a line comment twice *)

Section CutAgain.

Import RemoveInlineComments.

Lemma string_step_prefix (p q : str) (k : nat) (st : bool * option ascii) :
  k < length p -> string_step (p ++ q) k st = string_step p k st.
Proof.
  intros Hk. unfold string_step.
  rewrite nth_error_app1 by lia.
  rewrite app_nth1 by lia. reflexivity.
Qed.

(** The string state at an index depends on the characters before it
    only. *)
Lemma state_at_prefix (p q : str) :
  forall j, j <= length p -> state_at (p ++ q) j = state_at p j.
Proof.
  induction j as [|k IH]; intros Hj; [reflexivity|].
  cbn [state_at]. rewrite IH by lia. apply string_step_prefix. lia.
Qed.

Lemma slash_in_prefix (p q : str) (j : nat) :
  firstn 2 (skipn j p) = py "//" ->
  j + 2 <= length p /\ firstn 2 (skipn j (p ++ q)) = py "//".
Proof.
  intros H.
  assert (L : length (firstn 2 (skipn j p)) = 2) by (rewrite H; reflexivity).
  rewrite length_firstn, length_skipn in L.
  split; [lia|].
  rewrite skipn_app, firstn_app, length_skipn.
  replace (2 - (length p - j)) with 0 by lia.
  cbn [firstn]. rewrite app_nil_r. exact H.
Qed.

Lemma rstrip_length (s : str) : length (rstrip s) <= length s.
Proof.
  destruct (rstrip_cut s) as (w & _ & E). rewrite E at 2.
  rewrite length_app. lia.
Qed.

(** A line whose every [//] stands inside a string has no comment. *)
Lemma scan_none_when_all_in_string (line : str) :
  (forall j, firstn 2 (skipn j line) = py "//" -> in_string_at line j = true) ->
  scan_comment_index line = Done (-1)%Z.
Proof.
  intros Hall.
  destruct (scan_comment_index_total line) as (ci & Run & [->|Hci]);
    [exact Run|].
  destruct (scan_comment_index_first line Run) as (m & -> & Hm & Hout & _);
    [lia|].
  rewrite (Hall m Hm) in Hout. discriminate.
Qed.

End CutAgain.

(** X18: cutting the line comment off a line is idempotent: in what
    is left of the line every [//] stands inside a string, so a second
    cut leaves it as it is and reports no change. *)
Theorem line_comment_cut_is_idempotent (line line' : str) (changed : bool) :
  RemoveInlineComments.strip_line_comment line = Done (line', changed) ->
  RemoveInlineComments.strip_line_comment line' = Done (line', false).
Proof.
  unfold RemoveInlineComments.strip_line_comment at 1.
  destruct (contains (py "//") line) eqn:Hc.
  2:{ intros H. injection H as <- _.
      unfold RemoveInlineComments.strip_line_comment. now rewrite Hc. }
  destruct (scan_comment_index_total line) as (ci & Run & [->|Hci]);
    rewrite Run; cbn [bind].
  - intros H. cbn in H. injection H as <- _.
    unfold RemoveInlineComments.strip_line_comment. rewrite Hc, Run. reflexivity.
  - destruct (scan_comment_index_first line Run) as (m & -> & _ & _ & Hbefore);
      [lia|].
    replace (Z.of_nat m >=? 0)%Z with true by (symmetry; apply Z.geb_le; lia).
    rewrite slice_prefix. intros H. injection H as <- _.
    unfold RemoveInlineComments.strip_line_comment.
    destruct (contains (py "//") (rstrip (firstn m line))); [|reflexivity].
    destruct (rstrip_cut (firstn m line)) as (w & _ & Ew).
    assert (El : line = rstrip (firstn m line) ++ (w ++ skipn m line)).
    { rewrite app_assoc, <- Ew. symmetry. apply firstn_skipn. }
    assert (Hlen : length (rstrip (firstn m line)) <= m).
    { pose proof (rstrip_length (firstn m line)) as H1.
      rewrite length_firstn in H1. lia. }
    rewrite scan_none_when_all_in_string; [reflexivity|].
    intros j Hj.
    destruct (slash_in_prefix _ (w ++ skipn m line) _ Hj) as [Hjl Hs].
    rewrite <- El in Hs.
    assert (Hin : in_string_at line j = true) by (apply Hbefore; [lia | exact Hs]).
    unfold in_string_at in *.
    rewrite El in Hin. rewrite state_at_prefix in Hin by lia. exact Hin.
Qed.

(** A statement with a URL in a string and a comment after it. *)
Lemma line_comment_cut_is_idempotent_witness :
  RemoveInlineComments.strip_line_comment (py "const u = 'http://x';")
  = Done (py "const u = 'http://x';", false).
Proof.
  exact (@line_comment_cut_is_idempotent
           (py "const u = 'http://x'; // the address")
           (py "const u = 'http://x';") true eq_refl).
Defined.

(** ** After insertion, what is still reported as missing *)

Section AfterInsertion.

Import AddMissingJsdoc.

(** When the loop counts no change, no line got a block. *)
Lemma add_loop_zero (rest : list str) :
  forall lines i modified changes,
    snd (add_loop lines rest i modified changes) = changes ->
    forall k line, nth_error rest k = Some line ->
                   snd (insertion lines (i + k) line) = 0.
Proof.
  induction rest as [|l rest IH]; intros lines i modified changes H k line Hk.
  - destruct k; discriminate.
  - cbn [add_loop] in H.
    destruct (insertion lines i l) as [block added] eqn:Ei.
    pose proof (add_loop_count rest lines (i + 1) (modified ++ block ++ [l])
                  (changes + added)) as [_ Hle].
    assert (Ha : added = 0) by lia. subst added.
    rewrite Nat.add_0_r in H.
    destruct k as [|k].
    + injection Hk as <-. rewrite Nat.add_0_r, Ei. reflexivity.
    + replace (i + S k) with (i + 1 + k) by lia.
      apply (IH lines (i + 1) _ _ H k line Hk).
Qed.

Lemma find_loop_in (rest : list str) :
  forall lines i m,
    In m (AnalyzeMissingJsdoc.find_loop lines rest i) ->
    exists k line, nth_error rest k = Some line
                   /\ AnalyzeMissingJsdoc.entry lines (i + k) line = [m].
Proof.
  induction rest as [|l rest IH]; intros lines i m H; [destruct H|].
  cbn [AnalyzeMissingJsdoc.find_loop] in H. apply in_app_or in H.
  destruct H as [H|H].
  - exists 0, l. split; [reflexivity|]. rewrite Nat.add_0_r.
    unfold AnalyzeMissingJsdoc.entry in *.
    repeat match type of H with
           | In _ (if ?c then _ else _) => destruct c
           end;
      first [ now destruct H
            | destruct H as [H|H]; [now rewrite H | destruct H] ].
  - destruct (IH lines (i + 1) m H) as (k & line & Hk & He).
    exists (S k), line. split; [exact Hk|].
    replace (i + S k) with (i + 1 + k) by lia. exact He.
Qed.

(** What an entry of the analysis says of its line. *)
Lemma entry_reported (lines : list str) (i : nat) (line : str)
    (m : AnalyzeMissingJsdoc.missing) :
  AnalyzeMissingJsdoc.entry lines i line = [m] ->
  has_jsdoc lines i = false
  /\ m = AnalyzeMissingJsdoc.mk_missing (i + 1)
           match Regex.search Regex.match_word_paren (strip line) with
           | Some name => name
           | None => py "unknown"
           end (strip line)
  /\ (startswith (py "} catch") (strip line) = false ->
      startswith (py "catch") (strip line) = false ->
      should_add_jsdoc (strip line) lines i = true).
Proof.
  unfold AnalyzeMissingJsdoc.entry. intros H.
  destruct (negb (truthy (strip line)) || _ || _ || _) eqn:Hskip;
    [discriminate|].
  destruct (AnalyzeMissingJsdoc.looks_like_method (strip line) lines i)
    eqn:Hlooks; [|discriminate].
  destruct (AnalyzeMissingJsdoc.excluded (strip line)) eqn:Hex; [discriminate|].
  destruct (has_jsdoc lines i) eqn:Hj; [discriminate|].
  cbn [negb] in H. injection H as <-.
  split; [reflexivity|]. split; [reflexivity|]. intros Hc1 Hc2.
  unfold AnalyzeMissingJsdoc.excluded in Hex.
  repeat (apply orb_false_split in Hskip; destruct Hskip as [Hskip ?]).
  repeat (apply orb_false_split in Hex; destruct Hex as [Hex ?]).
  unfold should_add_jsdoc.
  repeat match goal with
         | E : ?a = false |- context [?a] => rewrite E
         end.
  cbn [orb]. unfold AnalyzeMissingJsdoc.looks_like_method in Hlooks.
  rewrite Hlooks. reflexivity.
Qed.

(** Run on the lines it has written, insertion counts no block. *)
Lemma add_lines_again_count (lines : list str) :
  snd (add_lines (fst (add_lines lines))) = 0.
Proof.
  set (out := fst (add_lines lines)).
  assert (Hfst : fst (add_lines out) = out).
  { unfold out. rewrite !add_lines_local. apply add_from_again. constructor. }
  pose proof (add_loop_count out out 0 [] 0) as [Hlen _].
  fold (add_lines out) in Hlen. rewrite Hfst in Hlen.
  cbn [length] in Hlen. lia.
Qed.

End AfterInsertion.

(** X19: after documentation insertion the analysis of missing
    documentation has nothing left to report but [catch] clauses and
    lines off which no name can be read: every entry it returns for the
    lines written belongs to such a line. *)
Theorem after_insertion_only_nameless_or_catch
    (lines : list str) (m : AnalyzeMissingJsdoc.missing) :
  In m (AnalyzeMissingJsdoc.find_loop
          (fst (AddMissingJsdoc.add_lines lines))
          (fst (AddMissingJsdoc.add_lines lines)) 0) ->
  exists line,
    nth_error (fst (AddMissingJsdoc.add_lines lines))
      (AnalyzeMissingJsdoc.line_no m - 1) = Some line
    /\ AnalyzeMissingJsdoc.code m = strip line
    /\ (startswith (py "} catch") (strip line) = true
        \/ startswith (py "catch") (strip line) = true
        \/ (Regex.search Regex.match_word_paren (strip line) = None
            /\ AnalyzeMissingJsdoc.method m = py "unknown")).
Proof.
  set (out := fst (AddMissingJsdoc.add_lines lines)). intros Hin.
  destruct (find_loop_in _ _ _ _ Hin) as (k & line & Hk & He).
  cbn [Nat.add] in He.
  assert (Hz : snd (AddMissingJsdoc.insertion out k line) = 0).
  { apply (@add_loop_zero out out 0 [] 0); [|exact Hk].
    fold (AddMissingJsdoc.add_lines out). unfold out.
    apply add_lines_again_count. }
  destruct (entry_reported _ _ _ He) as (Hj & -> & Hs).
  cbn [AnalyzeMissingJsdoc.line_no AnalyzeMissingJsdoc.code
       AnalyzeMissingJsdoc.method].
  replace (k + 1 - 1) with k by lia.
  exists line. split; [exact Hk|]. split; [reflexivity|].
  destruct (startswith (py "} catch") (strip line)); [now left|].
  destruct (startswith (py "catch") (strip line)); [right; now left|].
  do 2 right. specialize (Hs eq_refl eq_refl).
  unfold AddMissingJsdoc.insertion in Hz. rewrite Hs, Hj in Hz. cbn [negb] in Hz.
  unfold AddMissingJsdoc.generate_jsdoc_comment,
    AddMissingJsdoc.parse_declaration in Hz.
  destruct (Regex.search Regex.match_word_paren (strip line));
    [discriminate | split; reflexivity].
Qed.

(** A [catch] clause is reported before and after insertion. *)
Lemma after_insertion_only_nameless_or_catch_witness :
  AnalyzeMissingJsdoc.find_loop
    (fst (AddMissingJsdoc.add_lines [py "} catch (e: any) {"; py "}"]))
    (fst (AddMissingJsdoc.add_lines [py "} catch (e: any) {"; py "}"])) 0
  = [AnalyzeMissingJsdoc.mk_missing 1 (py "catch") (py "} catch (e: any) {")]
  /\ exists line,
       nth_error (fst (AddMissingJsdoc.add_lines [py "} catch (e: any) {"; py "}"]))
         (1 - 1) = Some line
       /\ py "} catch (e: any) {" = strip line
       /\ (startswith (py "} catch") (strip line) = true
           \/ startswith (py "catch") (strip line) = true
           \/ (Regex.search Regex.match_word_paren (strip line) = None
               /\ py "catch" = py "unknown")).
Proof.
  split; [vm_compute; reflexivity|].
  apply (@after_insertion_only_nameless_or_catch
           [py "} catch (e: any) {"; py "}"]
           (AnalyzeMissingJsdoc.mk_missing 1 (py "catch")
              (py "} catch (e: any) {"))).
  vm_compute. left. reflexivity.
Defined.

(** ** remove_comments.py *)

Section RemoveCommentsFacts.

Import RemoveComments.

(** The trimmed text is empty or starts with a visible character. *)
Lemma strip_visible (line : str) :
  match strip line with
  | [] => True
  | c :: _ => is_space c = false
  end.
Proof.
  unfold strip. destruct (rstrip (lstrip line)) as [|c r] eqn:E; [exact I|].
  destruct (rstrip_cut (lstrip line)) as (w & _ & Ew). rewrite E in Ew.
  apply (@drop_while_head is_space line c (r ++ w)). exact Ew.
Qed.

(** On the trimmed text the leading blanks of a pattern match
    nothing. *)
Lemma ws_stripped (line : str) (r : re) (k : str -> bool) :
  matches (ws >> r) (strip line) k = matches r (strip line) k.
Proof.
  pose proof (strip_visible line) as V. cbn [matches ws].
  destruct (strip line) as [|c t]; cbn [star]; [reflexivity|].
  now rewrite V.
Qed.

Lemma startswith_split (p q s : str) :
  startswith (p ++ q) s = startswith p s && startswith q (skipn (length p) s).
Proof.
  revert s. induction p as [|x p IH]; intros s; [reflexivity|].
  destruct s as [|y s]; cbn [app startswith length skipn]; [reflexivity|].
  rewrite IH. now rewrite andb_assoc.
Qed.

Lemma jsdoc_open_stripped (line : str) :
  re_match jsdoc_open (strip line) = startswith (py "/**") (strip line).
Proof.
  unfold re_match, jsdoc_open. rewrite ws_stripped. cbn [matches].
  apply andb_true_r.
Qed.

Lemma jsdoc_close_stripped (line : str) :
  re_match jsdoc_close (strip line) = startswith (py "*/") (strip line).
Proof.
  unfold re_match, jsdoc_close. rewrite ws_stripped. cbn [matches].
  apply andb_true_r.
Qed.

Lemma block_open_stripped (line : str) :
  re_match block_open (strip line)
  = startswith (py "/*") (strip line) && negb (startswith (py "/**") (strip line)).
Proof.
  unfold re_match, block_open. rewrite ws_stripped. cbn [matches].
  change (py "/**") with (py "/*" ++ py "*"). rewrite startswith_split.
  rewrite !andb_true_r.
  destruct (startswith (py "/*") (strip line)); reflexivity.
Qed.

(** The closing pattern needs a closing marker somewhere. *)
Lemma star_then_contains (p : ascii -> bool) (lit s : str) :
  star p s (fun t => matches (Str lit) t (fun _ => true)) = true ->
  contains lit s = true.
Proof.
  induction s as [|c r IH]; cbn [star matches].
  - rewrite andb_true_r. apply startswith_contains.
  - intros H. apply orb_true_iff in H. destruct H as [H|H].
    + apply andb_true_iff in H. destruct H as [_ H]. specialize (IH H).
      unfold contains in *. cbn [find_sub].
      destruct (startswith lit (c :: r)); [reflexivity|].
      destruct (find_sub lit r); [reflexivity | discriminate].
    + rewrite andb_true_r in H. now apply startswith_contains.
Qed.

Lemma block_close_contains (s : str) :
  re_match block_close s = true -> contains (py "*/") s = true.
Proof. unfold re_match, block_close. cbn [matches any]. apply star_then_contains. Qed.

Lemma startswith_opens (c : ascii) (lit line : str) :
  existsb (chr_eqb c) (py "/*<#") = true ->
  startswith (c :: lit) (strip line) = true -> opens_comment line = true.
Proof.
  intros Hc H. apply startswith_head in H. destruct H as (r & E).
  unfold opens_comment. now rewrite E.
Qed.

(** A comment pattern matches only a text that starts with one of the
    four characters. *)
Lemma normal_comment_opens (line : str) :
  existsb (fun pattern => re_match pattern (strip line)) comment_patterns = true ->
  opens_comment line = true.
Proof.
  unfold comment_patterns, re_match. cbn [existsb].
  rewrite !ws_stripped. cbn [matches]. intros H.
  repeat match type of H with
         | _ || _ = true => apply orb_true_iff in H; destruct H as [H|H]
         end;
    try discriminate;
    apply andb_true_iff in H; destruct H as [H _];
    revert H; apply startswith_opens; reflexivity.
Qed.

Lemma dropped_line_opens (line : str) :
  should_preserve_line line = false -> opens_comment line = true.
Proof.
  unfold should_preserve_line. destruct (negb (truthy (strip line)));
    [discriminate|].
  destruct (is_jsdoc_comment line) eqn:J; [discriminate|].
  destruct (is_normal_comment line) eqn:N; [|discriminate]. intros _.
  unfold is_normal_comment in N. rewrite J in N.
  now apply normal_comment_opens.
Qed.

Lemma plain_line_step (st : state) (i : nat) (line : str) :
  in_jsdoc_block st = false -> in_multiline_comment st = false ->
  opens_comment line = false ->
  step st i line = keep st line false.
Proof.
  intros Hj Hm Hp. unfold step. rewrite Hj, Hm.
  rewrite jsdoc_open_stripped, block_open_stripped.
  destruct (startswith (py "/**") (strip line)) eqn:E1.
  { apply startswith_opens in E1; [congruence | reflexivity]. }
  destruct (startswith (py "/*") (strip line)) eqn:E2.
  { apply startswith_opens in E2; [congruence | reflexivity]. }
  cbn [andb negb].
  destruct (should_preserve_line line) eqn:E3; [reflexivity|].
  rewrite (dropped_line_opens _ E3) in Hp. discriminate.
Qed.

Lemma clean_run_plain (lines : list str) :
  forall st i,
    in_jsdoc_block st = false -> in_multiline_comment st = false ->
    Forall (fun l => opens_comment l = false) lines ->
    run st i lines
    = mk_state (cleaned_lines st ++ lines) (removed_lines st) false false.
Proof.
  induction lines as [|l lines IH]; intros st i Hj Hm Hall.
  - cbn. rewrite app_nil_r. destruct st; cbn in *; congruence.
  - inversion Hall as [|? ? Hl Hrest]; subst. cbn [run].
    rewrite (plain_line_step _ i _ Hj Hm Hl).
    rewrite IH by (trivial; reflexivity).
    cbn [keep cleaned_lines removed_lines]. now rewrite <- app_assoc.
Qed.

(** Each iteration either writes the line or logs it. *)
Lemma clean_step_cases (st : state) (i : nat) (line : str) :
  (cleaned_lines (step st i line) = cleaned_lines st ++ [line]
   /\ removed_lines (step st i line) = removed_lines st)
  \/ (cleaned_lines (step st i line) = cleaned_lines st
      /\ removed_lines (step st i line)
         = removed_lines st ++ [(i + 1, rstrip line)]).
Proof.
  unfold step.
  repeat match goal with
         | |- context [if ?c then _ else _] => destruct c
         end;
    cbn [keep remove cleaned_lines removed_lines]; auto.
Qed.

Lemma clean_run_partition (lines : list str) :
  forall st i,
    exists ks, length ks = length lines
      /\ cleaned_lines (run st i lines) = cleaned_lines st ++ kept ks lines
      /\ removed_lines (run st i lines) = removed_lines st ++ logged ks lines i.
Proof.
  induction lines as [|l lines IH]; intros st i.
  - exists []. cbn. now rewrite !app_nil_r.
  - cbn [run]. destruct (IH (step st i l) (i + 1)) as (ks & Hl & Hc & Hr).
    destruct (clean_step_cases st i l) as [[Ec Er]|[Ec Er]].
    + exists (true :: ks). cbn [kept logged length]. rewrite Hc, Hr, Ec, Er.
      rewrite <- app_assoc. auto.
    + exists (false :: ks). cbn [kept logged length]. rewrite Hc, Hr, Ec, Er.
      rewrite <- app_assoc. auto.
Qed.

Lemma kept_logged_length (ks : list bool) :
  forall lines i, length ks = length lines ->
    length (kept ks lines) + length (logged ks lines i) = length lines.
Proof.
  induction ks as [|k ks IH]; intros [|l lines] i H; try discriminate;
    [reflexivity|].
  cbn [length] in H. injection H as H. specialize (IH lines (i + 1) H).
  destruct k; cbn [kept logged length]; lia.
Qed.

Lemma run_in_jsdoc (body : list str) :
  forall st i,
    in_jsdoc_block st = true ->
    Forall (fun l => startswith (py "*/") (strip l) = false) body ->
    run st i body
    = mk_state (cleaned_lines st ++ body) (removed_lines st) true
        (in_multiline_comment st).
Proof.
  induction body as [|l body IH]; intros st i Hj Hall.
  - cbn. rewrite app_nil_r. destruct st; cbn in *; congruence.
  - inversion Hall as [|? ? Hl Hrest]; subst. cbn [run].
    assert (Es : step st i l = keep st l true).
    { unfold step. rewrite Hj, jsdoc_close_stripped, Hl. cbn [andb].
      destruct (re_match jsdoc_open (strip l)); reflexivity. }
    rewrite Es, IH by (trivial; reflexivity).
    cbn [keep cleaned_lines removed_lines in_multiline_comment].
    now rewrite <- app_assoc.
Qed.

Lemma run_in_multiline (body : list str) :
  forall st i,
    in_jsdoc_block st = false -> in_multiline_comment st = true ->
    Forall (fun l => startswith (py "/**") (strip l) = false
                     /\ contains (py "*/") (strip l) = false) body ->
    run st i body
    = mk_state (cleaned_lines st)
        (removed_lines st ++ logged (map (fun _ => false) body) body i)
        false true.
Proof.
  induction body as [|l body IH]; intros st i Hj Hm Hall.
  - cbn. rewrite app_nil_r. destruct st; cbn in *; congruence.
  - inversion Hall as [|? ? [Hl1 Hl2] Hrest]; subst. cbn [run].
    assert (Es : step st i l = remove st (i + 1) l true).
    { unfold step. rewrite Hj, Hm, jsdoc_open_stripped, Hl1. cbn [andb negb].
      destruct (re_match block_open (strip l)); cbn [andb]; [reflexivity|].
      destruct (re_match block_close (strip l)) eqn:Ec; [|reflexivity].
      apply block_close_contains in Ec. congruence. }
    rewrite Es, IH by (trivial; cbn; assumption).
    cbn [remove cleaned_lines removed_lines map logged].
    now rewrite <- app_assoc.
Qed.

End RemoveCommentsFacts.

(** X20: comment cleaning writes or logs every line, never both and
    never neither: there is a choice of lines such that the lines
    written are the chosen ones, as they were read and in their order,
    and the log holds the others with their 1-based numbers and
    right-trimmed text; the count of removed lines the report gives,
    a difference of two lengths, is the length of the log. *)
Theorem every_line_is_written_or_logged (lines : list str) :
  exists ks,
    length ks = length lines
    /\ fst (RemoveComments.clean_lines lines) = RemoveComments.kept ks lines
    /\ RemoveComments.removed_content (snd (RemoveComments.clean_lines lines))
       = RemoveComments.logged ks lines 0
    /\ RemoveComments.removed_count (snd (RemoveComments.clean_lines lines))
       = Z.of_nat (length (RemoveComments.removed_content
                             (snd (RemoveComments.clean_lines lines)))).
Proof.
  destruct (clean_run_partition lines RemoveComments.init 0) as (ks & Hl & Hc & Hr).
  exists ks. unfold RemoveComments.clean_lines.
  cbn [fst snd RemoveComments.removed_content RemoveComments.removed_count].
  rewrite Hc, Hr. cbn [RemoveComments.init RemoveComments.cleaned_lines
                       RemoveComments.removed_lines app].
  repeat split; trivial.
  pose proof (kept_logged_length ks lines 0 Hl). lia.
Qed.

(** X21: the test on a single line drops the line only if its first
    visible character is a slash, an asterisk, a less-than sign or a
    hash sign: a blank line and a line of code that starts otherwise
    are preserved. *)
Theorem only_comment_openers_are_dropped (line : str) :
  RemoveComments.should_preserve_line line = false ->
  RemoveComments.opens_comment line = true.
Proof. apply dropped_line_opens. Qed.

(** A continuation line of a block comment in lower case. *)
Lemma only_comment_openers_are_dropped_witness :
  RemoveComments.opens_comment (py "   * lower case text") = true.
Proof.
  apply (@only_comment_openers_are_dropped (py "   * lower case text")).
  vm_compute. reflexivity.
Defined.

(** X22: a file none of whose lines starts, blanks apart, with a
    slash, an asterisk, a less-than sign or a hash sign is written back
    as it was read, and the report counts no removed line. *)
Theorem file_without_openers_is_unchanged (lines : list str) :
  Forall (fun l => RemoveComments.opens_comment l = false) lines ->
  RemoveComments.clean_lines lines
  = (lines, RemoveComments.mk_report (length lines) (length lines) 0 []).
Proof.
  intros H. unfold RemoveComments.clean_lines.
  rewrite (@clean_run_plain lines RemoveComments.init 0 eq_refl eq_refl H).
  cbn [RemoveComments.init RemoveComments.cleaned_lines
       RemoveComments.removed_lines app].
  now rewrite Z.sub_diag.
Qed.

(** Code with a trailing comment and a blank line. *)
Lemma file_without_openers_is_unchanged_witness :
  RemoveComments.clean_lines
    [py "let x = 1; // count" ++ [chr_nl]; [chr_nl]; py "x++;" ++ [chr_nl]]
  = ([py "let x = 1; // count" ++ [chr_nl]; [chr_nl]; py "x++;" ++ [chr_nl]],
     RemoveComments.mk_report 3 3 0 []).
Proof.
  apply (@file_without_openers_is_unchanged
           [py "let x = 1; // count" ++ [chr_nl]; [chr_nl]; py "x++;" ++ [chr_nl]]).
  repeat constructor.
Defined.

(** X23: a line that opens a block comment puts the loop into the
    comment state even when the comment is closed on the same line:
    the line and every line after it are logged as removed, code
    included, up to a line that holds a closing marker or starts a
    documentation block. *)
Theorem lines_after_block_opener_are_removed
    (st : RemoveComments.state) (i : nat) (opener : str) (body : list str) :
  RemoveComments.in_jsdoc_block st = false ->
  startswith (py "/*") (strip opener) = true ->
  startswith (py "/**") (strip opener) = false ->
  Forall (fun l => startswith (py "/**") (strip l) = false
                   /\ contains (py "*/") (strip l) = false) body ->
  RemoveComments.run st i (opener :: body)
  = RemoveComments.mk_state (RemoveComments.cleaned_lines st)
      (RemoveComments.removed_lines st
       ++ RemoveComments.logged (map (fun _ => false) (opener :: body))
            (opener :: body) i)
      false true.
Proof.
  intros Hj H1 H2 Hall. cbn [RemoveComments.run].
  assert (Es : RemoveComments.step st i opener
               = RemoveComments.remove st (i + 1) opener true).
  { unfold RemoveComments.step.
    rewrite Hj, jsdoc_open_stripped, block_open_stripped, H1, H2.
    reflexivity. }
  rewrite Es, run_in_multiline by (trivial; cbn; assumption).
  cbn [RemoveComments.remove RemoveComments.cleaned_lines
       RemoveComments.removed_lines map RemoveComments.logged].
  now rewrite <- app_assoc.
Qed.

(** A one-line block comment followed by a statement. *)
Lemma lines_after_block_opener_are_removed_witness :
  RemoveComments.run RemoveComments.init 0
    [py "/* setup */" ++ [chr_nl]; py "start();" ++ [chr_nl]]
  = RemoveComments.mk_state []
      ([] ++ RemoveComments.logged (map (fun _ => false)
                [py "/* setup */" ++ [chr_nl]; py "start();" ++ [chr_nl]])
              [py "/* setup */" ++ [chr_nl]; py "start();" ++ [chr_nl]] 0)
      false true.
Proof.
  apply (@lines_after_block_opener_are_removed RemoveComments.init 0
           (py "/* setup */" ++ [chr_nl]) [py "start();" ++ [chr_nl]]);
    try reflexivity.
  repeat constructor.
Defined.

(** X24: a line that starts a documentation block puts the loop into
    the documentation state, whatever state it was in; the line and
    every line after it are written unchanged, comments included, up
    to a line whose trimmed text starts with the closing marker. *)
Theorem lines_after_doc_opener_are_kept
    (st : RemoveComments.state) (i : nat) (opener : str) (body : list str) :
  startswith (py "/**") (strip opener) = true ->
  Forall (fun l => startswith (py "*/") (strip l) = false) body ->
  RemoveComments.run st i (opener :: body)
  = RemoveComments.mk_state (RemoveComments.cleaned_lines st ++ opener :: body)
      (RemoveComments.removed_lines st) true
      (RemoveComments.in_multiline_comment st).
Proof.
  intros H1 Hall. cbn [RemoveComments.run].
  assert (Es : RemoveComments.step st i opener = RemoveComments.keep st opener true).
  { unfold RemoveComments.step. rewrite jsdoc_open_stripped, H1. reflexivity. }
  rewrite Es, run_in_jsdoc by (trivial; reflexivity).
  cbn [RemoveComments.keep RemoveComments.cleaned_lines
       RemoveComments.removed_lines RemoveComments.in_multiline_comment].
  now rewrite <- app_assoc.
Qed.

(** A one-line documentation comment followed by a line comment. *)
Lemma lines_after_doc_opener_are_kept_witness :
  RemoveComments.run RemoveComments.init 0
    [py "/** The total. */" ++ [chr_nl]; py "// scratch" ++ [chr_nl]]
  = RemoveComments.mk_state
      ([] ++ [py "/** The total. */" ++ [chr_nl]; py "// scratch" ++ [chr_nl]])
      [] true false.
Proof.
  apply (@lines_after_doc_opener_are_kept RemoveComments.init 0
           (py "/** The total. */" ++ [chr_nl]) [py "// scratch" ++ [chr_nl]]);
    [reflexivity|].
  repeat constructor.
Defined.

(** ** Counting the code lines of a method text *)

Section LongMethodsText.

Import AnalyzeLongMethodsText.

Lemma chr_eqb_sym (a b : ascii) : chr_eqb a b = chr_eqb b a.
Proof.
  destruct (chr_eqb a b) eqn:E.
  - apply chr_eqb_eq in E. subst. symmetry. apply chr_eqb_refl.
  - destruct (chr_eqb b a) eqn:E'; [|reflexivity].
    apply chr_eqb_eq in E'. subst. rewrite chr_eqb_refl in E. discriminate.
Qed.

Lemma splitlines_cons (c : ascii) (r : str) :
  splitlines (c :: r)
  = if chr_eqb chr_nl c then [] :: splitlines r
    else match splitlines r with
         | h :: t => (c :: h) :: t
         | [] => [[c]]
         end.
Proof.
  unfold splitlines, split. cbn [split_aux startswith length Nat.sub].
  now rewrite andb_true_r.
Qed.

Lemma splitlines_length (s : str) :
  length (splitlines s) = Z.to_nat (count chr_nl s) + 1.
Proof.
  induction s as [|c r IH]; [reflexivity|].
  rewrite splitlines_cons. cbn [count]. rewrite (chr_eqb_sym c chr_nl).
  pose proof (count_nonneg chr_nl r) as Hn.
  destruct (chr_eqb chr_nl c).
  - cbn [length]. rewrite IH. lia.
  - destruct (splitlines r) as [|h t] eqn:E; cbn [length] in *; lia.
Qed.

(** The lines of two texts joined by a newline are the lines of the
    one followed by the lines of the other. *)
Lemma splitlines_app (a b : str) :
  splitlines (a ++ chr_nl :: b) = splitlines a ++ splitlines b.
Proof.
  induction a as [|c a IH]; cbn [app].
  - rewrite splitlines_cons, chr_eqb_refl. reflexivity.
  - rewrite !splitlines_cons, IH.
    destruct (chr_eqb chr_nl c); [reflexivity|].
    destruct (splitlines a) as [|h t] eqn:E; [|reflexivity].
    pose proof (splitlines_length a) as L. rewrite E in L. cbn in L. lia.
Qed.

Lemma count_code_lines_le (lines : list str) :
  count_code_lines lines <= length lines.
Proof. unfold count_code_lines. apply filter_length_le. Qed.

Lemma count_slice (c : ascii) (s : str) (from n : nat) :
  (count c (firstn from s) + count c (firstn n (skipn from s)) <= count c s)%Z.
Proof.
  rewrite <- (firstn_skipn from s) at 3. rewrite count_app.
  rewrite <- (firstn_skipn n (skipn from s)) at 2. rewrite count_app.
  pose proof (count_nonneg c (skipn n (skipn from s))). lia.
Qed.

End LongMethodsText.

(** X25: a method that the extraction records lies within the file:
    the record carries the name of the match, its line number is at
    least 1, the code lines counted fit between that line and the last
    line of the file, and the preview has at most 203 characters. *)
Theorem recorded_method_lies_within_file
    (content : str) (method_start : nat) (method_name : str)
    (m : AnalyzeLongMethodsText.method) :
  AnalyzeLongMethodsText.method_of_match content method_start method_name
  = Some m ->
  AnalyzeLongMethodsText.name m = method_name
  /\ 1 <= AnalyzeLongMethodsText.line_number m
  /\ AnalyzeLongMethodsText.line_number m + AnalyzeLongMethodsText.line_count m
     <= length (splitlines content) + 1
  /\ length (AnalyzeLongMethodsText.preview m) <= 203.
Proof.
  unfold AnalyzeLongMethodsText.method_of_match.
  destruct (method_start <? _); [|discriminate].
  destruct m as [nm lc ln pv].
  cbn [AnalyzeLongMethodsText.name AnalyzeLongMethodsText.line_number
       AnalyzeLongMethodsText.line_count AnalyzeLongMethodsText.preview].
  remember (firstn 200 (AnalyzeLongMethodsText.method_text content method_start
                          (AnalyzeLongMethods.method_end content method_start)))
    as cut eqn:Hcut.
  intros H. injection H as Hnm Hlc Hln Hpv. subst nm lc ln pv.
  split; [reflexivity|]. split; [lia|]. split.
  - unfold AnalyzeLongMethodsText.count_method_lines,
      AnalyzeLongMethodsText.method_text.
    set (n := AnalyzeLongMethods.method_end content method_start - method_start).
    pose proof (count_code_lines_le (splitlines (firstn n (skipn method_start content))))
      as Hc.
    rewrite splitlines_length in Hc. rewrite splitlines_length.
    pose proof (count_slice chr_nl content method_start n) as Hs.
    pose proof (count_nonneg chr_nl (firstn method_start content)).
    pose proof (count_nonneg chr_nl (firstn n (skipn method_start content))).
    lia.
  - match goal with |- context [if ?c then _ else _] => destruct c eqn:E end.
    + rewrite length_app, Hcut, length_firstn. cbn [length]. lia.
    + apply Nat.ltb_ge in E. lia.
Qed.

(** A function of three lines after a comment line. *)
Lemma recorded_method_lies_within_file_witness :
  py "f" = py "f"
  /\ 1 <= 2
  /\ 2 + 3
     <= length (splitlines (py "// note" ++ [chr_nl] ++ py "function f() {"
                            ++ [chr_nl] ++ py "  return 1;" ++ [chr_nl] ++ py "}"))
        + 1
  /\ length (py "function f() {" ++ [chr_nl] ++ py "  return 1;" ++ [chr_nl]
             ++ py "}") <= 203.
Proof.
  apply (@recorded_method_lies_within_file
           (py "// note" ++ [chr_nl] ++ py "function f() {" ++ [chr_nl]
            ++ py "  return 1;" ++ [chr_nl] ++ py "}")
           8 (py "f")
           (AnalyzeLongMethodsText.mk_method (py "f") 3 2
              (py "function f() {" ++ [chr_nl] ++ py "  return 1;" ++ [chr_nl]
               ++ py "}"))).
  vm_compute. reflexivity.
Defined.

(** X26: the count of code lines is additive: for two texts joined by
    a newline it is the sum of the counts of the two. *)
Theorem count_method_lines_is_additive (a b : str) :
  AnalyzeLongMethodsText.count_method_lines (a ++ [chr_nl] ++ b)
  = AnalyzeLongMethodsText.count_method_lines a
    + AnalyzeLongMethodsText.count_method_lines b.
Proof.
  unfold AnalyzeLongMethodsText.count_method_lines,
    AnalyzeLongMethodsText.count_code_lines.
  cbn [app]. rewrite splitlines_app, filter_app, length_app. reflexivity.
Qed.
